(** * deepchem: fully connected TensorFlow models (fcnet.py) and the GDB7 example

    A shallow embedding of
      - deepchem/models/tensorflow_models/fcnet.py
      - examples/gdb7/gdb7_tf_model.py

    Python objects are modelled as follows.
      - An exception is a value of [PyExc]; a call that may raise returns a
        [Result].
      - A TensorFlow tensor is the expression that defines it ([Tensor]): the
        module only builds graphs, it never evaluates them.  Node identity
        (TensorFlow's renaming of equally named ops) is not modelled.
      - A Python [float] is a binary64 number ([PrimFloat.float]).
      - Functions of the wrapped libraries that are called but not defined in
        fcnet.py (model_ops, the TensorflowGraphModel base class, numpy, the
        session, the saver, the dataset, the transformers) are fields of type
        classes: every theorem holds for all their implementations.
      - A method that calls into the framework at run time is a function of
        the state of the world ([Run]); it returns, besides its result, the
        world it leaves and the calls it made, in order. *)

From Stdlib Require Import PrimFloat Uint63 ZArith.
From stdpp Require Import base option list list_numbers gmap strings pretty.

Set Warnings "-inexact-float,-register-all,-clear-no-such-hyp".
Open Scope Z_scope.

(** ** Python exceptions and results *)

Inductive PyExc : Type :=
| AssertionError (msg : string)
| NameError (name : string)
| UnboundLocalError (name : string)
| ZeroDivisionError
| ValueError (msg : string)
| IndexError
| KeyError.

(** [UnboundLocalError] is a subclass of [NameError]. *)
Definition is_NameError (e : PyExc) : bool :=
  match e with
  | NameError _ | UnboundLocalError _ => true
  | _ => false
  end.

Inductive Result (A : Type) : Type :=
| Ok (a : A)
| Raise (e : PyExc).
Arguments Ok {A} a.
Arguments Raise {A} e.

(** Sequencing: an exception ends the computation.  [x ← r; k] is stdpp's
    notation for [mbind (λ x, k) r]. *)
#[global] Instance Result_ret : MRet Result := λ A a, Ok a.
#[global] Instance Result_bind : MBind Result := λ A B k r,
  match r with
  | Ok a => k a
  | Raise e => Raise e
  end.

(** [l[i]] for [0 <= i]. *)
Definition getitem {A} (l : list A) (i : nat) : Result A :=
  match l !! i with
  | Some x => Ok x
  | None => Raise IndexError
  end.

(** A local variable that a loop may have left unassigned. *)
Definition read_local {A} (name : string) (v : option A) : Result A :=
  match v with
  | Some x => Ok x
  | None => Raise (UnboundLocalError name)
  end.

(** [a % b] on integers *)
Definition py_mod (a b : Z) : Result Z :=
  if decide (b = 0) then Raise ZeroDivisionError else Ok (a `mod` b).

(** [float(a) / n] for an integer [n] *)
Definition float_div_int (a : float) (n : Z) : Result float :=
  if decide (n = 0) then Raise ZeroDivisionError
  else Ok (PrimFloat.div a (PrimFloat.of_uint63 (Uint63.of_Z n))).

(** [for x in xs: body], the variables the loop assigns threaded through
    [body]. *)
Fixpoint for_each `{MBind M, MRet M} {A S} (xs : list A) (body : S → A → M S)
    (s : S) : M S :=
  match xs with
  | [] => mret s
  | x :: xs' => s' ← body s x; for_each xs' body s'
  end.

(** [enumerate(l)] *)
Definition enumerate {A} (l : list A) : list (nat * A) :=
  zip (seq 0 (length l)) l.

(** ** Tensors *)

(** A name scope, as the path of its components. *)
Definition Scope : Type := list string.

Inductive Tensor : Type :=
(* tf.placeholder(tf.float32, shape=shape, name=name), created in [scope] *)
| Placeholder (scope : Scope) (shape : list (option Z)) (name : string)
(* tf.truncated_normal(shape=shape, stddev=stddev) *)
| TruncatedNormal (shape : list Z) (stddev : float)
(* tf.constant(value=value, shape=shape) *)
| Constant (value : float) (shape : list Z)
(* tf.nn.relu, tf.squeeze *)
| Relu (features : Tensor)
| Squeeze (input : Tensor)
(* the single element of tf.gradients(ys, xs) *)
| Gradients (ys xs : Tensor)
(* tf.sign, tf.stop_gradient *)
| Sign (x : Tensor)
| StopGradient (input : Tensor)
(* x + y, c * x and x / c on tensors *)
| TAdd (x y : Tensor)
| TScale (c : float) (x : Tensor)
| TDivBy (x : Tensor) (c : float)
(* a node built by library code outside fcnet.py *)
| External (op : string) (inputs : list Tensor).

(** deepchem.nn.model_ops, as fcnet.py calls it. *)
Class ModelOps : Type := {
  (* fully_connected_layer(tensor, size, weight_init, bias_init) *)
  fully_connected_layer : Tensor → Z → Tensor → Tensor → Tensor;
  (* dropout(tensor, dropout_prob, training) *)
  dropout : Tensor → float → bool → Tensor;
  (* multitask_logits(features, num_tasks) *)
  multitask_logits : Tensor → nat → list Tensor
}.

(** The keyword arguments of a call of fully_connected_layer. *)
Record FcArgs : Type := {
  arg_tensor : Tensor;
  arg_size : Z;
  arg_weight_init : Tensor;
  arg_bias_init : Tensor
}.

Definition fully_connected `{ModelOps} (args : FcArgs) : Tensor :=
  fully_connected_layer
    (arg_tensor args) (arg_size args) (arg_weight_init args)
    (arg_bias_init args).

(** The methods of TensorflowGraph and TensorflowGraphModel (and of its
    subclasses TensorflowClassifier and TensorflowRegressor) that fcnet.py
    inherits and calls. *)
Class GraphModel : Type := {
  get_placeholder_scope : Scope;
  shared_name_scope : string → Scope;
  add_label_placeholders : list Tensor;
  add_example_weight_placeholders : list Tensor;
  (* add_training_cost(graph, name_scopes, output, labels, weights) *)
  add_training_cost : list Tensor → list Tensor → list Tensor → Tensor;
  add_output_ops : list Tensor → list Tensor
}.

(** The attributes of [self] that the graph builders read. *)
Record Hyperparams : Type := {
  n_tasks : nat;
  n_features : Z;
  layer_sizes : list Z;
  weight_init_stddevs : list float;
  bias_init_consts : list float;
  dropouts : list float
}.

(** The attributes of [self] that feeding and training read. *)
Record BatchParams : Type := {
  batch_size : nat;
  pad_batches : bool;
  verbose : bool
}.

(** The keyword arguments of the TensorflowGraph constructor; the graph itself
    is carried by the tensors, [session] is always None and [name_scopes] is a
    cache of the framework. *)
Record TensorflowGraph : Type := {
  graph_seed : option Z;
  output : list Tensor;
  labels : list Tensor;
  weights : list Tensor;
  loss : option Tensor
}.

(** ** numpy, sessions, savers, datasets and transformers *)

(** numpy arrays and the array functions fcnet.py calls, with
    deepchem.metrics.to_one_hot. *)
Class Numpy : Type := {
  ndarray : Type;
  np_len : ndarray → nat;                    (* len(a) *)
  ndim : ndarray → nat;                      (* a.ndim *)
  shape : ndarray → list nat;                (* a.shape *)
  column : ndarray → nat → ndarray;          (* a[:, j] *)
  take_rows : ndarray → nat → ndarray;       (* a[:n] *)
  np_zeros : nat → ndarray;                  (* np.zeros((n,)) *)
  np_ones : nat → ndarray;                   (* np.ones((n,)) *)
  np_squeeze : ndarray → ndarray;
  np_asarray : list ndarray → ndarray;       (* np.asarray(l, dtype=float) *)
  np_array : list ndarray → ndarray;         (* np.array(l) *)
  transpose : ndarray → list nat → ndarray;  (* a.transpose(axes) *)
  reshape : ndarray → list nat → ndarray;    (* a.reshape(shape) *)
  np_concatenate : list ndarray → ndarray;
  np_mean_axis0 : ndarray → ndarray;         (* np.mean(a, axis=0) *)
  np_copy : ndarray → ndarray;
  to_one_hot : ndarray → ndarray
}.

(** TensorflowGraph.get_feed_dict and the dictionaries it returns. *)
Class Feeds `{Numpy} : Type := {
  FeedDict : Type;
  get_feed_dict : gmap string ndarray → FeedDict
}.

(** np.ones(shape) for a shape of any rank. *)
Class NumpyShapes `{Numpy} : Type := {
  np_ones_shape : list nat → ndarray
}.

(** The argument n_features of
    TensorflowMultiTaskFitTransformRegressor.__init__: a list, an int, or a
    value of another type. *)
Inductive NFeatures : Type :=
| NFeaturesList (dims : list nat)
| NFeaturesInt (n : nat)
| NFeaturesOther.

(** The objects a training or prediction call works on. [World] is the state
    they share and change: the variables of the session, the files of the
    saver, the random generators. *)
Class Objects : Type := {
  Dataset : Type;
  Transformer : Type;
  World : Type
}.

(** What a session is asked for. *)
Inductive Fetches : Type :=
| TrainOpAndLoss           (* [train_op, self.train_graph.loss] *)
| OutputTrainOpAndLoss     (* self.train_graph.output + [train_op, loss] *)
| EvalOutput.              (* self.eval_graph.output *)

Inductive LogMsg : Type :=
| TrainingFor (nb_epoch : Z)                 (* "Training for %d epochs" *)
| OnBatch (ind : nat)                        (* "On batch %d" *)
| EndingEpoch (epoch : Z) (avg_loss : float) (* "Ending epoch %d: ..." *)
| Timing.                                    (* "TIMING: model fitting ..." *)

(** The calls into the framework. *)
Inductive Event `{Numpy, !Feeds, Objects} : Type :=
| Log (msg : LogMsg) (verbose : bool)
| InitVariables            (* sess.run(tf.global_variables_initializer()) *)
| NewSaver (max_to_keep : Z)
| Save (global_step : Z)   (* saver.save(sess, self._save_path, global_step) *)
| IterBatches (dataset : Dataset) (batch_size : nat) (pad_batches : bool)
| XTransform (transformer : Transformer) (X : ndarray)
| SessRun (fetches : Fetches) (feed_dict : FeedDict)
| Restore.

(** What the calls return, and how each changes the world. *)
Class Framework `{Numpy, !Feeds, Objects} : Type := {
  after : Event → World → World;
  (* the minibatches (X_b, y_b, w_b, ids_b) an iteration yields, fixed when
     the iteration starts *)
  iterbatches :
    Dataset → nat → bool → World → list (ndarray * ndarray * ndarray * ndarray);
  X_transform : Transformer → ndarray → World → ndarray;
  (* the values fetched for the output tensors, and for the loss *)
  fetched_output : Fetches → FeedDict → World → list ndarray;
  fetched_loss : Fetches → FeedDict → World → float
}.

Section Running.
Context `{Framework}.

(** What a computation leaves: its result, the world, and the calls it
    made. *)
Record Outcome (A : Type) : Type := {
  result : Result A;
  world : World;
  events : list Event
}.
Arguments result {A} _.
Arguments world {A} _.
Arguments events {A} _.

(** A computation that calls into the framework. *)
Definition Run (A : Type) : Type := World → Outcome A.

#[global] Instance Run_ret : MRet Run := λ A a w,
  {| result := Ok a; world := w; events := [] |}.
#[global] Instance Run_bind : MBind Run := λ A B k m w,
  let o := m w in
  match result o with
  | Ok a =>
      let o' := k a (world o) in
      {| result := result o'; world := world o';
         events := events o ++ events o' |}
  | Raise e => {| result := Raise e; world := world o; events := events o |}
  end.

Definition lift {A} (r : Result A) : Run A := λ w,
  {| result := r; world := w; events := [] |}.

(** A call of the framework: [value] is what it returns in the world of
    the call. *)
Definition call {A} (ev : Event) (value : World → A) : Run A := λ w,
  {| result := Ok (value w); world := after ev w; events := [ev] |}.

Definition call_ (ev : Event) : Run unit := call ev (λ _, ()).

(** [saver.save(sess, self._save_path, global_step=...)] *)
Definition saver_save (global_step : Z) : Run unit :=
  call_ (Save global_step).

(** [for transformer in fit_transformers: X = transformer.X_transform(X)] *)
Definition transform_all (fit_transformers : list Transformer) (X : ndarray)
    : Run ndarray :=
  for_each fit_transformers
    (λ X transformer,
       call (XTransform transformer X) (X_transform transformer X)) X.

(** The variables an epoch accumulates. *)
Record EpochVars : Type := { avg_loss : float; n_batches : nat }.

(** One epoch: the body of [for epoch in range(nb_epoch)], where [step] is
    the body of the loop over the minibatches and returns the loss it
    fetched (fcnet.py 324-337 and 607-630). *)
Definition run_epoch (batch : BatchParams)
    (step : nat * (ndarray * ndarray * ndarray * ndarray) → Run float)
    (dataset : Dataset) (_ : option Z) (epoch : Z) : Run (option Z) :=
  let vars := {| avg_loss := 0%float; n_batches := 0 |} in
  batches ← call
    (IterBatches dataset (batch_size batch) (pad_batches batch))
    (iterbatches dataset (batch_size batch) (pad_batches batch));
  vars ← for_each (enumerate batches)
    (λ vars item,
       loss ← step item;
       mret {| avg_loss := PrimFloat.add (avg_loss vars) loss;
               n_batches := n_batches vars + 1 |}) vars;
  _ ← saver_save epoch;
  avg_loss ← lift (float_div_int (avg_loss vars) (Z.of_nat (n_batches vars)));
  _ ← call_ (Log (EndingEpoch epoch avg_loss) (verbose batch));
  mret (Some epoch).

(** The part the two [fit] methods share: everything but [step]
    (fcnet.py 314-340 and 594-636).  The readings of the clock and the
    construction of train_op are left out: nothing that follows depends on
    them. *)
Definition fit_loop (batch : BatchParams)
    (step : nat * (ndarray * ndarray * ndarray * ndarray) → Run float)
    (dataset : Dataset) (nb_epoch max_checkpoints_to_keep : Z) : Run unit :=
  _ ← call_ (Log (TrainingFor nb_epoch) (verbose batch));
  _ ← call_ InitVariables;
  _ ← call_ (NewSaver max_checkpoints_to_keep);
  _ ← saver_save 0;
  epoch ← for_each (seqZ 0 nb_epoch) (run_epoch batch step dataset) None;
  epoch ← lift (read_local "epoch" epoch);
  _ ← saver_save (epoch + 1);
  call_ (Log Timing (verbose batch)).
End Running.

Arguments result {_ _ _ _} _.
Arguments world {_ _ _ _} _.
Arguments events {_ _ _ _} _.

(** ** The layer stack shared by the four graph builders *)

(** The set of the four list lengths (fcnet.py 43-48, 122-127, 264-269,
    412-417). *)
Definition lengths_set (self : Hyperparams) : gset nat :=
  {[ length (layer_sizes self);
     length (weight_init_stddevs self);
     length (bias_init_consts self);
     length (dropouts self) ]}.

(** [s.pop()] *)
Definition set_pop (s : gset nat) : Result nat :=
  match elements s with
  | x :: _ => Ok x
  | [] => Raise KeyError
  end.

(** The two assertions and the value of [n_layers] (fcnet.py 49-51, 128-130,
    270-272, 418-420). *)
Definition checked_n_layers (self : Hyperparams) : Result nat :=
  let lengths_set := lengths_set self in
  if decide (size lengths_set = 1%nat) then
    n_layers ← set_pop lengths_set;
    if decide (0 < n_layers)%nat then Ok n_layers
    else Raise (AssertionError "Must have some layers defined.")
  else Raise (AssertionError "All layer params must have same length.").

(** The local variables of the layer loop; [layer] and [i] are unassigned
    until the first iteration. *)
Record Locals : Type := {
  prev_layer : Tensor;
  prev_layer_size : Z;
  layer : option Tensor;
  i : option nat
}.

Section Layers.
Context `{ModelOps}.

(** One iteration of [for i in range(n_layers)] (fcnet.py 56-67, 135-146,
    277-288, 425-436). *)
Definition hidden_layer (self : Hyperparams) (training : bool)
    (vars : Locals) (i : nat) : Result Locals :=
  size ← getitem (layer_sizes self) i;
  stddev ← getitem (weight_init_stddevs self) i;
  value ← getitem (bias_init_consts self) i;
  dropout_prob ← getitem (dropouts self) i;
  let layer :=
    Relu (fully_connected
            {| arg_tensor := prev_layer vars;
               arg_size := size;
               arg_weight_init :=
                 TruncatedNormal [prev_layer_size vars; size] stddev;
               arg_bias_init := Constant value [size] |}) in
  let layer := dropout layer dropout_prob training in
  Ok {| prev_layer := layer; prev_layer_size := size;
        layer := Some layer; i := Some i |}.

(** From the assertions to the end of the layer loop, starting from the
    input tensor [x]. *)
Definition hidden_layers (self : Hyperparams) (x : Tensor) (training : bool)
    : Result Locals :=
  n_layers ← checked_n_layers self;
  for_each (seq 0 n_layers) (hidden_layer self training)
    {| prev_layer := x; prev_layer_size := n_features self;
       layer := None; i := None |}.

(** The classifier's output (fcnet.py 69, 290). *)
Definition logits_output (self : Hyperparams) (vars : Locals)
    : Result (list Tensor) :=
  layer ← read_local "layer" (layer vars);
  Ok (multitask_logits layer (n_tasks self)).

(** The arguments of the fully_connected_layer call of a regression head
    (fcnet.py 152-159, 442-449): [i] is the variable of the layer loop. *)
Definition head_args (self : Hyperparams) (vars : Locals) : Result FcArgs :=
  i ← read_local "i" (i vars);
  size ← getitem (layer_sizes self) i;
  stddev ← getitem (weight_init_stddevs self) i;
  value ← getitem (bias_init_consts self) i;
  Ok {| arg_tensor := prev_layer vars;
        arg_size := size;
        arg_weight_init := TruncatedNormal [prev_layer_size vars; 1] stddev;
        arg_bias_init := Constant value [1] |}.

(** One pass of [for task in range(self.n_tasks)] of the regressors
    (fcnet.py 150-159, 440-449). *)
Definition regression_head (self : Hyperparams) (vars : Locals)
    (output : list Tensor) (task : nat) : Result (list Tensor) :=
  args ← head_args self vars;
  Ok (output ++ [Squeeze (fully_connected args)]).

(** The regressor's output (fcnet.py 148-160, 438-450). *)
Definition regression_output (self : Hyperparams) (vars : Locals)
    : Result (list Tensor) :=
  for_each (seq 0 (n_tasks self)) (regression_head self vars) [].
End Layers.

(** [construct_graph] of both adversarial classes (fcnet.py 203-248 and
    351-396): the two methods differ only in how [x] is obtained and in the
    [model] they call. *)
Section AdversarialGraph.
Context `{GraphModel}.
Variable model : Tensor → bool → Result (list Tensor).

Definition adversarial_graph (x : Tensor) (training : bool) (seed : option Z)
    : Result TensorflowGraph :=
  let eps := 0.1%float in
  output ← model x training;
  let labels := add_label_placeholders in
  let weights := add_example_weight_placeholders in
  if training then
    let loss_1 := add_training_cost output labels weights in
    let grad := Gradients loss_1 x in
    let signed_grad := Sign grad in
    let scaled_signed_grad := TScale eps signed_grad in
    let adv_x := StopGradient (TAdd x scaled_signed_grad) in
    adv_output ← model adv_x training;
    let loss_2 := add_training_cost adv_output labels weights in
    let loss := TDivBy (TAdd loss_1 loss_2) 2%float in
    Ok {| graph_seed := seed; output := output; labels := labels;
          weights := weights; loss := Some loss |}
  else
    let loss := None in
    let output := add_output_ops output in
    Ok {| graph_seed := seed; output := output; labels := labels;
          weights := weights; loss := loss |}.
End AdversarialGraph.

(** ** The dictionaries fed to a session *)

Section Feeding.
Context `{Numpy}.

(** ["labels_%d" % task] and ["weights_%d" % task] *)
Definition labels_key (task : nat) : string := "labels_" +:+ pretty task.
Definition weights_key (task : nat) : string := "weights_" +:+ pretty task.

(** The two entries a task adds; [labels] gives the label entry, which is
    where the classifier and the regressor differ. *)
Definition feed_task (labels : nat → ndarray) (w_b : option ndarray)
    (batch_size : nat) (orig_dict : gmap string ndarray) (task : nat)
    : gmap string ndarray :=
  let orig_dict := <[labels_key task := labels task]> orig_dict in
  match w_b with
  | Some w_b => <[weights_key task := column w_b task]> orig_dict
  | None => <[weights_key task := np_ones batch_size]> orig_dict
  end.

(** [orig_dict] when the loop over the tasks has ended. *)
Definition orig_dict_of (labels : nat → ndarray) (n_tasks batch_size : nat)
    (X_b : ndarray) (w_b : option ndarray) : gmap string ndarray :=
  let orig_dict := ∅ in
  let orig_dict := <["mol_features" := X_b]> orig_dict in
  foldl (feed_task labels w_b batch_size) orig_dict (seq 0 n_tasks).
End Feeding.

(** ** TensorflowMultiTaskClassifier *)

(** What [build] leaves behind: the attribute it assigns and what it
    returns or raises. *)
Record Built : Type := {
  self_mol_features : Tensor;
  returned : Result (list Tensor)
}.

Module TensorflowMultiTaskClassifier.
Section Methods.
Context `{ModelOps, GraphModel, Numpy, !Feeds}.

(** fcnet.py 24-70 *)
Definition build (self : Hyperparams) (training : bool) : Built :=
  let placeholder_scope := get_placeholder_scope in
  let n_features := n_features self in
  let mol_features :=
    Placeholder placeholder_scope [None; Some n_features] "mol_features" in
  {| self_mol_features := mol_features;
     returned :=
       vars ← hidden_layers self mol_features training;
       logits_output self vars |}.

(** The label entry of a task (fcnet.py 86-91). *)
Definition labels_entry (batch_size : nat) (y_b : option ndarray)
    (task : nat) : ndarray :=
  match y_b with
  | Some y_b => to_one_hot (column y_b task)
  | None => np_squeeze (to_one_hot (np_zeros batch_size))
  end.

(** The dictionary handed to TensorflowGraph.get_feed_dict
    (fcnet.py 83-96). *)
Definition orig_dict (self : Hyperparams) (batch : BatchParams)
    (X_b : ndarray) (y_b w_b : option ndarray) : gmap string ndarray :=
  orig_dict_of (labels_entry (batch_size batch) y_b)
    (n_tasks self) (batch_size batch) X_b w_b.

(** fcnet.py 72-97; [ids_b] is not used. *)
Definition construct_feed_dict (self : Hyperparams) (batch : BatchParams)
    (X_b : ndarray) (y_b w_b ids_b : option ndarray) : FeedDict :=
  get_feed_dict (orig_dict self batch X_b y_b w_b).
End Methods.
End TensorflowMultiTaskClassifier.

(** ** TensorflowMultiTaskRegressor *)

Module TensorflowMultiTaskRegressor.
Section Methods.
Context `{ModelOps, GraphModel, Numpy, !Feeds}.

(** fcnet.py 103-160 *)
Definition build (self : Hyperparams) (training : bool) : Built :=
  let n_features := n_features self in
  let placeholder_scope := get_placeholder_scope in
  let mol_features :=
    Placeholder placeholder_scope [None; Some n_features] "mol_features" in
  {| self_mol_features := mol_features;
     returned :=
       vars ← hidden_layers self mol_features training;
       regression_output self vars |}.

(** The label entry of a task (fcnet.py 176-180). *)
Definition labels_entry (batch_size : nat) (y_b : option ndarray)
    (task : nat) : ndarray :=
  match y_b with
  | Some y_b => column y_b task
  | None => np_squeeze (np_zeros batch_size)
  end.

(** The dictionary handed to TensorflowGraph.get_feed_dict
    (fcnet.py 173-185). *)
Definition orig_dict (self : Hyperparams) (batch : BatchParams)
    (X_b : ndarray) (y_b w_b : option ndarray) : gmap string ndarray :=
  orig_dict_of (labels_entry (batch_size batch) y_b)
    (n_tasks self) (batch_size batch) X_b w_b.

(** fcnet.py 162-186; [ids_b] is not used. *)
Definition construct_feed_dict (self : Hyperparams) (batch : BatchParams)
    (X_b : ndarray) (y_b w_b ids_b : option ndarray) : FeedDict :=
  get_feed_dict (orig_dict self batch X_b y_b w_b).
End Methods.
End TensorflowMultiTaskRegressor.

(** ** TensorflowAdversarialMultiTaskClassifier *)

Module TensorflowAdversarialMultiTaskClassifier.
Section Methods.
Context `{ModelOps, GraphModel, Framework}.

(** fcnet.py 191-201 *)
Definition get_placeholders (self : Hyperparams) : Tensor :=
  let placeholder_root := "placeholders" in
  let placeholder_scope := shared_name_scope placeholder_root in
  let n_features := n_features self in
  Placeholder placeholder_scope [None; Some n_features] "mol_features".

(** fcnet.py 250-291 *)
Definition model (self : Hyperparams) (x : Tensor) (training : bool)
    : Result (list Tensor) :=
  vars ← hidden_layers self x training;
  logits_output self vars.

(** fcnet.py 203-248 *)
Definition construct_graph (self : Hyperparams) (training : bool)
    (seed : option Z) : Result TensorflowGraph :=
  adversarial_graph (model self) (get_placeholders self) training seed.

(** The body of the loop over the minibatches (fcnet.py 327-334); the
    class inherits the classifier's construct_feed_dict. *)
Definition step (self : Hyperparams) (batch : BatchParams)
    (log_every_N_batches : Z)
    (item : nat * (ndarray * ndarray * ndarray * ndarray)) : Run float :=
  let '(ind, (X_b, y_b, w_b, ids_b)) := item in
  r ← lift (py_mod (Z.of_nat ind) log_every_N_batches);
  _ ← (if decide (r = 0) then call_ (Log (OnBatch ind) (verbose batch))
       else mret ());
  let feed_dict :=
    TensorflowMultiTaskClassifier.construct_feed_dict self batch
      X_b (Some y_b) (Some w_b) (Some ids_b) in
  let fetches := TrainOpAndLoss in
  call (SessRun fetches feed_dict) (fetched_loss fetches feed_dict).

(** fcnet.py 293-340 *)
Definition fit (self : Hyperparams) (batch : BatchParams)
    (dataset : Dataset)
    (nb_epoch max_checkpoints_to_keep log_every_N_batches : Z) : Run unit :=
  fit_loop batch (step self batch log_every_N_batches)
    dataset nb_epoch max_checkpoints_to_keep.
End Methods.
End TensorflowAdversarialMultiTaskClassifier.

(** ** TensorflowAdversarialMultiTaskRegressor *)

Module TensorflowAdversarialMultiTaskRegressor.
Section Methods.
Context `{ModelOps, GraphModel}.

(** fcnet.py 345-349: the placeholder is created outside any name scope. *)
Definition get_placeholders (self : Hyperparams) : Tensor :=
  let n_features := n_features self in
  Placeholder [] [None; Some n_features] "mol_features".

(** fcnet.py 398-450 *)
Definition model (self : Hyperparams) (x : Tensor) (training : bool)
    : Result (list Tensor) :=
  vars ← hidden_layers self x training;
  regression_output self vars.

(** fcnet.py 351-396 *)
Definition construct_graph (self : Hyperparams) (training : bool)
    (seed : option Z) : Result TensorflowGraph :=
  adversarial_graph (model self) (get_placeholders self) training seed.
End Methods.
End TensorflowAdversarialMultiTaskRegressor.

(** ** TensorflowMultiTaskFitTransformRegressor *)

Module TensorflowMultiTaskFitTransformRegressor.
Section Methods.
Context `{ModelOps, GraphModel, Framework}.

(** The attributes the methods read: those of the regressor, the two
    __init__ adds (fcnet.py 533-534), and the flag [_restored_model] of the
    base class. *)
Record Self : Type := {
  hyper : Hyperparams;
  batch : BatchParams;
  fit_transformers : list Transformer;
  n_evals : nat;
  _restored_model : bool
}.

(** What __init__ sets and hands to TensorflowGraphModel.__init__. *)
Record Initialized : Type := {
  init_fit_transformers : list Transformer;
  init_n_evals : nat;
  init_hyper : Hyperparams;
  init_batch : BatchParams
}.

(** The dummy minibatch of ones (fcnet.py 537-542). *)
Definition dummy_batch `{!NumpyShapes} (batch_size : nat)
    (n_features : NFeatures) : Result ndarray :=
  match n_features with
  | NFeaturesList n_features => Ok (np_ones_shape ([batch_size] ++ n_features))
  | NFeaturesInt n_features => Ok (np_ones_shape [batch_size; n_features])
  | NFeaturesOther => Raise (ValueError "n_features should be list or int")
  end.

(** fcnet.py 472-567.  The arguments that are only passed on (logdir,
    penalty, penalty_type, learning_rate, momentum, optimizer, seed) and the
    line printed are left out. *)
Definition __init__ `{!NumpyShapes} (n_tasks : nat) (n_features : NFeatures)
    (layer_sizes : list Z) (weight_init_stddevs bias_init_consts : list float)
    (dropouts : list float) (batch_size : nat)
    (fit_transformers : list Transformer) (n_evals : nat) (verbose : bool)
    : Run Initialized :=
  X_b ← lift (dummy_batch batch_size n_features);
  X_b ← transform_all fit_transformers X_b;
  n_features ← lift (getitem (shape X_b) 1);
  mret {| init_fit_transformers := fit_transformers;
          init_n_evals := n_evals;
          init_hyper :=
            {| n_tasks := n_tasks;
               n_features := Z.of_nat n_features;
               layer_sizes := layer_sizes;
               weight_init_stddevs := weight_init_stddevs;
               bias_init_consts := bias_init_consts;
               dropouts := dropouts |};
          init_batch :=
            {| batch_size := batch_size;
               pad_batches := false;
               verbose := verbose |} |}.

(** The body of the loop over the minibatches (fcnet.py 611-626).  The
    assignments to [output], [y_pred] and [y_b] that follow the session
    call bind locals that are not read again. *)
Definition step (self : Self) (log_every_N_batches : Z)
    (item : nat * (ndarray * ndarray * ndarray * ndarray)) : Run float :=
  let '(ind, (X_b, y_b, w_b, ids_b)) := item in
  r ← lift (py_mod (Z.of_nat ind) log_every_N_batches);
  _ ← (if decide (r = 0)
       then call_ (Log (OnBatch ind) (verbose (batch self)))
       else mret ());
  X_b ← transform_all (fit_transformers self) X_b;
  let feed_dict :=
    TensorflowMultiTaskRegressor.construct_feed_dict
      (hyper self) (batch self) X_b (Some y_b) (Some w_b) (Some ids_b) in
  let fetches := OutputTrainOpAndLoss in
  call (SessRun fetches feed_dict) (fetched_loss fetches feed_dict).

(** fcnet.py 569-636 *)
Definition fit (self : Self) (dataset : Dataset)
    (nb_epoch max_checkpoints_to_keep log_every_N_batches : Z) : Run unit :=
  fit_loop (batch self) (step self log_every_N_batches)
    dataset nb_epoch max_checkpoints_to_keep.

(** The locals of the first loop of predict_on_batch. *)
Record EvalInputs : Type := {
  X_evals : list ndarray;
  X_t : option ndarray
}.

(** One pass of the first loop (fcnet.py 661-664). *)
Definition transformed_copy (self : Self) (X : ndarray)
    (inputs : EvalInputs) (i : nat) : Run EvalInputs :=
  X_t ← transform_all (fit_transformers self) X;
  mret {| X_evals := X_evals inputs ++ [X_t]; X_t := Some X_t |}.

(** The locals of the loop over the evaluations. *)
Record EvalVars : Type := {
  outputs : list ndarray;
  n_samples : nat
}.

(** [batch_outputs] brought to batch_size x n_tasks x ..., with the value
    of [n_samples] (fcnet.py 687-697). *)
Definition arranged (n_tasks : nat) (X : ndarray) (n_samples : nat)
    (batch_outputs : ndarray) : Result (ndarray * nat) :=
  if decide (ndim batch_outputs = 3)%nat then
    Ok (transpose batch_outputs [1; 0; 2]%nat, n_samples)
  else if decide (ndim batch_outputs = 2)%nat then
    Ok (transpose batch_outputs [1; 0]%nat, n_samples)
  else if decide (ndim batch_outputs = 1)%nat then
    let n_samples := np_len X in
    Ok (reshape batch_outputs [n_samples; n_tasks], n_samples)
  else
    Raise (ValueError "Unrecognized rank combination for output: %s").

(** One evaluation (fcnet.py 681-702). *)
Definition evaluate (self : Self) (X : ndarray) (X_evals : list ndarray)
    (vars : EvalVars) (i : nat) : Run EvalVars :=
  let n_tasks := n_tasks (hyper self) in
  let output := [] in
  X_i ← lift (getitem X_evals i);
  let feed_dict :=
    TensorflowMultiTaskRegressor.construct_feed_dict
      (hyper self) (batch self) X_i None None None in
  data ← call (SessRun EvalOutput feed_dict)
              (fetched_output EvalOutput feed_dict);
  let batch_outputs := np_asarray (take n_tasks data) in
  '(batch_outputs, n_samples) ←
    lift (arranged n_tasks X (n_samples vars) batch_outputs);
  let batch_outputs := take_rows batch_outputs n_samples in
  let output := output ++ [batch_outputs] in
  mret {| outputs := outputs vars ++ [np_squeeze (np_concatenate output)];
          n_samples := n_samples |}.

(** The end of predict_on_batch (fcnet.py 704-712). *)
Definition averaged (outputs : list ndarray) (len_unpadded : nat)
    : ndarray :=
  let outputs := np_mean_axis0 (np_array outputs) in
  let outputs := np_copy outputs in
  if decide (0 < length (shape outputs))%nat then
    take_rows outputs len_unpadded
  else
    let outputs := reshape outputs [1%nat] in
    outputs.

(** fcnet.py 638-712.  [pad_features] is not defined in the module: the
    padding loop raises NameError on its first pass. *)
Definition predict_on_batch (self : Self) (X : ndarray) : Run ndarray :=
  inputs ← for_each (seq 0 (n_evals self)) (transformed_copy self X)
    {| X_evals := []; X_t := None |};
  X_t ← lift (read_local "X_t" (X_t inputs));
  let len_unpadded := np_len X_t in
  X_evals ←
    (if pad_batches (batch self) then
       for_each (seq 0 (n_evals self))
         (λ (X_evals : list ndarray) (i : nat),
            lift (Raise (NameError "pad_features")))
         (X_evals inputs)
     else mret (X_evals inputs));
  _ ← (if negb (_restored_model self) then call_ Restore else mret ());
  X_0 ← lift (getitem X_evals 0);
  let n_samples := np_len X_0 in
  vars ← for_each (seq 0 (n_evals self)) (evaluate self X X_evals)
    {| outputs := []; n_samples := n_samples |};
  mret (averaged (outputs vars) len_unpadded).
End Methods.
End TensorflowMultiTaskFitTransformRegressor.

(** ** examples/gdb7/gdb7_tf_model.py *)

(** A statement at module level, as far as names go: the global names it
    reads, in the order it reads them, and the names it binds when it has
    run. *)
Record Stmt : Type := {
  line : nat;
  reads : list string;
  binds : list string
}.

(** The builtins the script uses. *)
Definition builtins : gset string := {[ "print" ]}.

(** Reading a global name that is neither bound in the module nor a
    builtin raises NameError. *)
Definition read_global (globals : gset string) (_ : ()) (name : string)
    : Result () :=
  if decide (name ∈ globals ∪ builtins) then Ok ()
  else Raise (NameError name).

Definition exec_stmt (globals : gset string) (s : Stmt)
    : Result (gset string) :=
  _ ← for_each (reads s) (read_global globals) ();
  Ok (globals ∪ list_to_set (binds s)).

(** The statements of the script, by line (comments are no statements). *)
Definition gdb7_tf_model : list Stmt := [
  {| line := 4; reads := []; binds := ["print_function"] |};
  {| line := 5; reads := []; binds := ["division"] |};
  {| line := 6; reads := []; binds := ["unicode_literals"] |};
  {| line := 8; reads := []; binds := ["os"] |};
  {| line := 9; reads := []; binds := ["dc"] |};
  {| line := 10; reads := []; binds := ["np"] |};
  {| line := 11; reads := []; binds := ["load_gdb7"; "load_gdb7_from_mat"] |};
  {| line := 13; reads := ["np"]; binds := [] |};
  {| line := 14; reads := []; binds := ["split"] |};
  {| line := 15; reads := []; binds := ["num_atoms"] |};
  {| line := 18; reads := ["dc"]; binds := ["featurizer"] |};
  {| line := 19; reads := ["load_gdb7"; "featurizer"];
     binds := ["gdb7_tasks"; "dataset"; "transformers"] |};
  {| line := 20; reads := ["datasets"];
     binds := ["train_dataset"; "test_dataset"] |};
  {| line := 21; reads := ["train_dataset"]; binds := ["n_features"] |};
  {| line := 24; reads := ["dc"; "dc"; "dc"; "dc"];
     binds := ["regression_metric"] |};
  {| line := 26; reads := ["dc"; "n_features"; "np"; "np"; "np"];
     binds := ["model"] |};
  {| line := 33; reads := ["model"; "train_dataset"]; binds := [] |};
  {| line := 34; reads := ["model"]; binds := [] |};
  {| line := 36;
     reads := ["model"; "train_dataset"; "regression_metric"; "transformers"];
     binds := ["train_scores"] |};
  {| line := 37; reads := ["print"]; binds := [] |};
  {| line := 38; reads := ["print"; "train_scores"]; binds := [] |};
  {| line := 40;
     reads := ["model"; "test_dataset"; "regression_metric"; "transformers"];
     binds := ["test_scores"] |};
  {| line := 41; reads := ["print"]; binds := [] |};
  {| line := 42; reads := ["print"; "test_scores"]; binds := [] |}
].

(** The statements run in order until one raises: the result is the final
    module namespace, or the line that raised and its exception. *)
Fixpoint run_script (script : list Stmt) (globals : gset string)
    : gset string + nat * PyExc :=
  match script with
  | [] => inl globals
  | s :: script' =>
      match exec_stmt globals s with
      | Ok globals' => run_script script' globals'
      | Raise e => inr (line s, e)
      end
  end.

(** ** An implementation of the interfaces

    A small executable implementation, to run the definitions above on
    concrete inputs: library nodes are [External] nodes, an array is its
    shape, a dataset is the list of its minibatches, the world counts the
    calls made so far. *)

Module Toy.
#[local] Open Scope nat_scope.

#[export] Instance ops : ModelOps := {|
  fully_connected_layer t size w b := External "xw_plus_b" [t; w; b];
  dropout t p training := if training then External "dropout" [t] else t;
  multitask_logits t n :=
    (λ k, External ("logits_" +:+ pretty k) [t]) <$> seq 0 n
|}.

#[export] Instance graph_model : GraphModel := {|
  get_placeholder_scope := ["placeholders"];
  shared_name_scope root := [root];
  add_label_placeholders := [Placeholder ["placeholders"] [None] "labels_0"];
  add_example_weight_placeholders :=
    [Placeholder ["placeholders"] [None] "weights_0"];
  add_training_cost output labels weights :=
    External "cost" (output ++ labels ++ weights);
  add_output_ops output := (λ t, External "output" [t]) <$> output
|}.

#[export] Instance numpy : Numpy := {|
  ndarray := list nat;
  np_len a := hd 0 a;
  ndim a := length a;
  shape a := a;
  column a j := take 1 a;
  take_rows a n := match a with [] => [] | d :: ds => (d `min` n) :: ds end;
  np_zeros n := [n];
  np_ones n := [n];
  np_squeeze a := filter (λ d, d ≠ 1) a;
  np_asarray l := length l :: hd [] l;
  np_array l := length l :: hd [] l;
  transpose a axes := (λ k, nth k a 0) <$> axes;
  reshape a s := s;
  np_concatenate l := sum_list (hd 0 <$> l) :: tl (hd [] l);
  np_mean_axis0 a := tl a;
  np_copy a := a;
  to_one_hot a := a ++ [2]
|}.

#[export] Instance numpy_shapes : NumpyShapes := {|
  np_ones_shape s := s
|}.

#[export] Instance feeds : Feeds := {|
  FeedDict := gmap string (list nat);
  get_feed_dict d := d
|}.

#[export] Instance objects : Objects := {|
  Dataset := list (list nat * list nat * list nat * list nat);
  Transformer := nat;
  World := nat
|}.

#[export] Instance framework : Framework := {|
  after ev w := S w;
  iterbatches dataset batch_size pad_batches w := dataset;
  X_transform t X w := X;
  fetched_output fetches feed_dict w :=
    match feed_dict !! "mol_features" with
    | Some X => [take 1 X]
    | None => []
    end;
  fetched_loss fetches feed_dict w := 0.5%float
|}.

(** A regressor of two hidden layers for one task, on four features. *)
Definition two_layers : Hyperparams := {|
  n_tasks := 1;
  n_features := 4;
  layer_sizes := [3; 2]%Z;
  weight_init_stddevs := [0.02; 0.02]%float;
  bias_init_consts := [1; 1]%float;
  dropouts := [0.5; 0.5]%float
|}.

(** A single hidden layer of one unit, and two tasks. *)
Definition narrow : Hyperparams := {|
  n_tasks := 2;
  n_features := 4;
  layer_sizes := [1]%Z;
  weight_init_stddevs := [0.02]%float;
  bias_init_consts := [1]%float;
  dropouts := [0.5]%float
|}.

Definition batches_of_five : BatchParams :=
  {| batch_size := 5; pad_batches := false; verbose := true |}.

(** A dataset of two minibatches of five examples, and an empty one. *)
Definition two_batches : Dataset :=
  [([5; 4], [5; 1], [5; 1], [5]); ([5; 4], [5; 1], [5; 1], [5])].
Definition no_batches : Dataset := [].

(** A fit-transform regressor with two transformers, evaluated twice. *)
Definition fit_transform : TensorflowMultiTaskFitTransformRegressor.Self := {|
  TensorflowMultiTaskFitTransformRegressor.hyper := two_layers;
  TensorflowMultiTaskFitTransformRegressor.batch := batches_of_five;
  TensorflowMultiTaskFitTransformRegressor.fit_transformers := [7; 8];
  TensorflowMultiTaskFitTransformRegressor.n_evals := 2;
  TensorflowMultiTaskFitTransformRegressor._restored_model := false
|}.
End Toy.

(** ** The vocabulary of the properties *)

(** The four layer parameter lists have one length, which is not zero. *)
Definition valid_layer_params (self : Hyperparams) : Prop :=
  length (layer_sizes self) = length (weight_init_stddevs self) ∧
  length (weight_init_stddevs self) = length (bias_init_consts self) ∧
  length (bias_init_consts self) = length (dropouts self) ∧
  (0 < length (layer_sizes self))%nat.

#[global] Instance valid_layer_params_dec (self : Hyperparams) :
  Decision (valid_layer_params self).
Proof. unfold valid_layer_params. apply _. Defined.

Definition raises_AssertionError {A} (r : Result A) : Prop :=
  ∃ msg, r = Raise (AssertionError msg).

Definition returns {A} (r : Result A) : Prop := ∃ a, r = Ok a.

Section LayerSpec.
Context `{ModelOps}.
Variables (self : Hyperparams) (training : bool) (x : Tensor).

(** The number of columns of the input of hidden layer [i]. *)
Definition input_size_spec (i : nat) : option Z :=
  match i with
  | O => Some (n_features self)
  | S j => layer_sizes self !! j
  end.

(** Hidden layer [i] of the stack on the input [x], as the specification
    describes it: dropout(relu(fully_connected(previous layer))). *)
Fixpoint layer_spec (i : nat) : option Tensor :=
  prev ← match i with
         | O => Some x
         | S j => layer_spec j
         end;
  prev_size ← input_size_spec i;
  size ← layer_sizes self !! i;
  stddev ← weight_init_stddevs self !! i;
  value ← bias_init_consts self !! i;
  dropout_prob ← dropouts self !! i;
  Some (dropout
          (Relu (fully_connected_layer prev size
                   (TruncatedNormal [prev_size; size] stddev)
                   (Constant value [size])))
          dropout_prob training).
(** The locals when the layer loop starts (fcnet.py 53-54). *)
Definition init_locals : Locals :=
  {| prev_layer := x; prev_layer_size := n_features self;
     layer := None; i := None |}.

(** The locals after [k] iterations of the layer loop. *)
Definition after_layers (k : nat) (vars : Locals) : Prop :=
  match k with
  | O => vars = init_locals
  | S j =>
      ∃ last size,
        layer_spec j = Some last ∧
        layer_sizes self !! j = Some size ∧
        vars = {| prev_layer := last; prev_layer_size := size;
                  layer := Some last; i := Some j |}
  end.
End LayerSpec.

(** The number of columns of the weights a call of fully_connected_layer is
    given, and whether its [size] argument is that number. *)
Definition weight_columns (args : FcArgs) : option Z :=
  match arg_weight_init args with
  | TruncatedNormal shape _ => last shape
  | _ => None
  end.

Definition size_agrees (args : FcArgs) : Prop :=
  weight_columns args = Some (arg_size args).

(** The arguments of the call that builds a regression head on the stack over
    [x]: all are read at index n_layers - 1. *)
Definition head_args_spec `{ModelOps} (self : Hyperparams) (training : bool)
    (x : Tensor) (args : FcArgs) : Prop :=
  let n_layers := length (layer_sizes self) in
  ∃ last size stddev value,
    layer_spec self training x (n_layers - 1) = Some last ∧
    layer_sizes self !! (n_layers - 1)%nat = Some size ∧
    weight_init_stddevs self !! (n_layers - 1)%nat = Some stddev ∧
    bias_init_consts self !! (n_layers - 1)%nat = Some value ∧
    args = {| arg_tensor := last;
              arg_size := size;
              arg_weight_init := TruncatedNormal [size; 1] stddev;
              arg_bias_init := Constant value [1] |}.

(** The loss of the adversarial training graph of [model] on the
    placeholder [x]. *)
Definition adversarial_loss_spec `{GraphModel}
    (model : Tensor → bool → Result (list Tensor)) (x : Tensor)
    (g : TensorflowGraph) : Prop :=
  ∃ output adv_output,
    let labels := add_label_placeholders in
    let weights := add_example_weight_placeholders in
    let loss_1 := add_training_cost output labels weights in
    let adv_x :=
      StopGradient (TAdd x (TScale 0.1%float (Sign (Gradients loss_1 x)))) in
    let loss_2 := add_training_cost adv_output labels weights in
    model x true = Ok output ∧
    model adv_x true = Ok adv_output ∧
    loss g = Some (TDivBy (TAdd loss_1 loss_2) 2%float).

(** The weight entry of a task (fcnet.py 92-96, 181-185). *)
Definition weights_entry `{Numpy} (batch_size : nat) (w_b : option ndarray)
    (task : nat) : ndarray :=
  match w_b with
  | Some w_b => column w_b task
  | None => np_ones batch_size
  end.

(** The dictionary [d] maps 'mol_features' to [X_b] and, for every task
    below [n_tasks], 'labels_%d' to the task's label entry and 'weights_%d'
    to its weight entry; it has no other key. *)
Definition feed_entries `{Numpy} (n_tasks : nat) (X_b : ndarray)
    (labels weights : nat → ndarray) (d : gmap string ndarray) : Prop :=
  d !! "mol_features" = Some X_b ∧
  (∀ task, (task < n_tasks)%nat →
     d !! ("labels_" +:+ pretty task) = Some (labels task) ∧
     d !! ("weights_" +:+ pretty task) = Some (weights task)) ∧
  (∀ key, is_Some (d !! key) →
     key = "mol_features" ∨
     ∃ task, (task < n_tasks)%nat ∧
       (key = "labels_" +:+ pretty task ∨ key = "weights_" +:+ pretty task)).

(** The global steps of the checkpoints saved by a sequence of calls. *)
Definition saves_of `{Numpy, !Feeds, Objects} (evs : list Event) : list Z :=
  omap (λ ev, match ev with Save global_step => Some global_step | _ => None end)
    evs.

(** What a call of fit with nb_epoch = 0 leaves: an uncaught NameError for
    the loop variable, after the initial checkpoint and nothing else. *)
Definition unbound_epoch_after_initial_save `{Numpy, !Feeds, Objects}
    (verbose : bool) (max_to_keep : Z) (o : Outcome unit) : Prop :=
  ∃ e,
    result o = Raise e ∧ is_NameError e = true ∧
    events o = [Log (TrainingFor 0) verbose; InitVariables;
                NewSaver max_to_keep; Save 0] ∧
    saves_of (events o) = [0].

(** What a call of fit leaves when the first epoch yields no minibatch: an
    uncaught ZeroDivisionError raised in the first epoch, after its
    checkpoint. *)
Definition zero_division_in_first_epoch `{Numpy, !Feeds, Objects}
    (batch : BatchParams) (dataset : Dataset) (nb_epoch max_to_keep : Z)
    (o : Outcome unit) : Prop :=
  result o = Raise ZeroDivisionError ∧
  events o = [Log (TrainingFor nb_epoch) (verbose batch); InitVariables;
              NewSaver max_to_keep; Save 0;
              IterBatches dataset (batch_size batch) (pad_batches batch);
              Save 0].

(** The checkpoints of a call of fit that runs to its end: the initial one,
    one per epoch at the epoch's number, and the final one. *)
Definition checkpoints_of_fit (nb_epoch : Z) : list Z :=
  0 :: seqZ 0 nb_epoch ++ [nb_epoch].

(** A computation whose calls all satisfy [P], and one that never raises. *)
Definition emits `{Framework} {A} (P : Event → Prop) (m : Run A) : Prop :=
  ∀ w, Forall P (events (m w)).

Definition succeeds `{Framework} {A} (m : Run A) : Prop :=
  ∀ w, ∃ a, result (m w) = Ok a.

Definition not_Save `{Numpy, !Feeds, Objects} (ev : Event) : Prop :=
  match ev with
  | Save _ => False
  | _ => True
  end.

(** What a call of fit with nb_epoch epochs leaves, as far as checkpoints
    go: if it returned, it saved exactly [checkpoints_of_fit nb_epoch], the
    second of them (the one after the first epoch) again at global_step 0;
    and it does return when log_every_N_batches is not 0 and the dataset
    yields a minibatch whenever it is iterated. *)
Definition fit_checkpoints_spec `{Framework} (batch : BatchParams)
    (dataset : Dataset) (nb_epoch log_every_N_batches : Z)
    (o : Outcome unit) : Prop :=
  (result o = Ok () →
   saves_of (events o) = checkpoints_of_fit nb_epoch ∧
   saves_of (events o) !! 1%nat = Some 0) ∧
  (log_every_N_batches ≠ 0 →
   (∀ w, iterbatches dataset (batch_size batch) (pad_batches batch) w ≠ []) →
   result o = Ok ()).

(** A computation all of whose traces satisfy [Q]. *)
Definition leaves `{Framework} {A} (Q : list Event → Prop) (m : Run A)
    : Prop :=
  ∀ w, Q (events (m w)).

(** The world after a sequence of calls. *)
Definition world_after `{Framework} (evs : list Event) (w : World) : World :=
  foldl (λ w ev, after ev w) w evs.

(** [X] is passed through each transformer of the list, in list order,
    starting in the world [w]: the calls this makes, the array obtained and
    the world it leaves. *)
Inductive transformed_in_order `{Framework} :
    list Transformer → ndarray → World →
    list Event → ndarray → World → Prop :=
| in_order_nil X w : transformed_in_order [] X w [] X w
| in_order_cons t ts X w evs X' w' :
    transformed_in_order ts (X_transform t X w) (after (XTransform t X) w)
      evs X' w' →
    transformed_in_order (t :: ts) X w (XTransform t X :: evs) X' w'.

(** [X] is transformed [n] times, each time starting from [X] itself: the
    calls made, the transformed copies in the order they were made, and the
    world left. *)
Inductive transformed_copies `{Framework} (ts : list Transformer)
    (X : ndarray) :
    nat → World → list Event → list ndarray → World → Prop :=
| copies_O w : transformed_copies ts X 0 w [] [] w
| copies_S n w evs X' w1 evs' Xs w2 :
    transformed_in_order ts X w evs X' w1 →
    transformed_copies ts X n w1 evs' Xs w2 →
    transformed_copies ts X (S n) w (evs ++ evs') (X' :: Xs) w2.

Section FitTransformSpec.
Context `{!ModelOps, !GraphModel, Framework}.
Variable self : TensorflowMultiTaskFitTransformRegressor.Self.

Local Abbreviation hyper :=
  (TensorflowMultiTaskFitTransformRegressor.hyper self).
Local Abbreviation batch :=
  (TensorflowMultiTaskFitTransformRegressor.batch self).
Local Abbreviation fit_transformers :=
  (TensorflowMultiTaskFitTransformRegressor.fit_transformers self).

(** The minibatch is one the dataset yields. *)
Definition drawn (dataset : Dataset)
    (minibatch : ndarray * ndarray * ndarray * ndarray) : Prop :=
  ∃ w, minibatch ∈
         iterbatches dataset (batch_size batch) (pad_batches batch) w.

(** The feed dictionary is built from a minibatch of the dataset whose X_b
    has been passed through all the transformers, in list order, by the
    calls that end [before]. *)
Definition fed_after_transforms (dataset : Dataset) (before : list Event)
    (feed_dict : FeedDict) : Prop :=
  ∃ X_b y_b w_b ids_b pre evs w X' w',
    drawn dataset (X_b, y_b, w_b, ids_b) ∧
    before = pre ++ evs ∧
    transformed_in_order fit_transformers X_b w evs X' w' ∧
    feed_dict =
      TensorflowMultiTaskRegressor.construct_feed_dict hyper batch
        X' (Some y_b) (Some w_b) (Some ids_b).

(** Every session run of the trace is fed that way. *)
Definition feeds_follow_transforms (dataset : Dataset) (evs : list Event)
    : Prop :=
  ∀ before fetches feed_dict rest,
    evs = before ++ SessRun fetches feed_dict :: rest →
    fed_after_transforms dataset before feed_dict.

(** What the loop body of fit does with a minibatch: it logs at most one
    line, passes X_b through the transformers in order, builds the feed
    dictionary from the result and runs the training step on it. *)
Definition step_spec (ind : nat)
    (minibatch : ndarray * ndarray * ndarray * ndarray) (w : World)
    (o : Outcome float) : Prop :=
  let '(X_b, y_b, w_b, ids_b) := minibatch in
  ∃ logs evs X' w',
    (logs = [] ∨ logs = [Log (OnBatch ind) (verbose batch)]) ∧
    transformed_in_order fit_transformers X_b (world_after logs w) evs X' w' ∧
    let feed_dict :=
      TensorflowMultiTaskRegressor.construct_feed_dict hyper batch
        X' (Some y_b) (Some w_b) (Some ids_b) in
    events o = logs ++ evs ++ [SessRun OutputTrainOpAndLoss feed_dict] ∧
    result o = Ok (fetched_loss OutputTrainOpAndLoss feed_dict w').

(** The output of one evaluation, from the values fetched for the output
    tensors, with the value of n_samples it leaves (fcnet.py 685-702). *)
Definition run_output (X : ndarray) (n_samples : nat) (data : list ndarray)
    : Result (ndarray * nat) :=
  '(batch_outputs, n_samples) ←
    TensorflowMultiTaskFitTransformRegressor.arranged (n_tasks hyper) X
      n_samples (np_asarray (take (n_tasks hyper) data));
  Ok (np_squeeze (np_concatenate [take_rows batch_outputs n_samples]),
      n_samples).

(** The model is run once on each of the copies, in order, each fed through
    construct_feed_dict without labels and weights: the calls made, the
    output of each run and the world left. *)
Inductive evaluated (X : ndarray) :
    list ndarray → nat → World → list Event → list ndarray → World → Prop :=
| evaluated_nil n w : evaluated X [] n w [] [] w
| evaluated_cons X_i Xs n w out n' evs outs w' :
    let feed_dict :=
      TensorflowMultiTaskRegressor.construct_feed_dict hyper batch
        X_i None None None in
    run_output X n (fetched_output EvalOutput feed_dict w) = Ok (out, n') →
    evaluated X Xs n' (after (SessRun EvalOutput feed_dict) w) evs outs w' →
    evaluated X (X_i :: Xs) n w (SessRun EvalOutput feed_dict :: evs)
      (out :: outs) w'.

(** What predict_on_batch leaves: n_evals transformed copies of X, each made
    from X itself; the model restored if it was not; one run of the model
    per copy; and, returned, the mean over the n_evals outputs along the
    first axis (cut to the rows of the last copy, or reshaped to one
    element when it has no dimension). *)
Definition predict_spec (X : ndarray) (w : World) (o : Outcome ndarray)
    : Prop :=
  let n_evals := TensorflowMultiTaskFitTransformRegressor.n_evals self in
  ∃ Xs X_0 X_last evsT wT evsR outs evsE wE,
    transformed_copies fit_transformers X n_evals w evsT Xs wT ∧
    head Xs = Some X_0 ∧ last Xs = Some X_last ∧
    evsR = (if TensorflowMultiTaskFitTransformRegressor._restored_model self
            then [] else [Restore]) ∧
    evaluated X Xs (np_len X_0) (world_after evsR wT) evsE outs wE ∧
    length Xs = n_evals ∧ length outs = n_evals ∧
    events o = evsT ++ evsR ++ evsE ∧
    world o = wE ∧
    let mean := np_copy (np_mean_axis0 (np_array outs)) in
    result o =
      Ok (if decide (0 < length (shape mean))%nat
          then take_rows mean (np_len X_last)
          else reshape mean [1%nat]).
End FitTransformSpec.

(** Started in the world [w], the computation returns [a], having made
    the calls [evs] and left the world [w']. *)
Definition runs_to `{Framework} {A} (m : Run A) (w : World) (a : A)
    (evs : list Event) (w' : World) : Prop :=
  result (m w) = Ok a ∧ events (m w) = evs ∧ world (m w) = w'.

(** *** Further vocabulary *)

(** The four layer parameter lists have one length. *)
Definition equal_lengths (self : Hyperparams) : Prop :=
  length (layer_sizes self) = length (weight_init_stddevs self) ∧
  length (weight_init_stddevs self) = length (bias_init_consts self) ∧
  length (bias_init_consts self) = length (dropouts self).

#[global] Instance equal_lengths_dec (self : Hyperparams) :
  Decision (equal_lengths self).
Proof. unfold equal_lengths. apply _. Defined.

(** A computation that raises no exception but those satisfying [P]. *)
Definition raises_only `{Framework} {A} (P : PyExc → Prop) (m : Run A)
    : Prop :=
  ∀ w e, result (m w) = Raise e → P e.

(** The number of calls of a trace that satisfy [p]. *)
Definition count_events {E} (p : E → bool) (evs : list E) : nat :=
  length (List.filter p evs).

Definition is_SessRun `{Numpy, !Feeds, Objects} (ev : Event) : bool :=
  match ev with SessRun _ _ => true | _ => false end.

Definition is_XTransform `{Numpy, !Feeds, Objects} (ev : Event) : bool :=
  match ev with XTransform _ _ => true | _ => false end.

Definition is_IterBatches `{Numpy, !Feeds, Objects} (ev : Event) : bool :=
  match ev with IterBatches _ _ _ => true | _ => false end.

(** The calls of fit outside the loop over the minibatches, apart from the
    iteration of the dataset. *)
Definition is_bookkeeping `{Numpy, !Feeds, Objects} (ev : Event) : bool :=
  match ev with
  | Log _ _ | InitVariables | NewSaver _ | Save _ => true
  | _ => false
  end.

(** What a call of fit with no epoch to run leaves. *)
Definition unbound_epoch_outcome `{Numpy, !Feeds, Objects}
    (verbose : bool) (nb_epoch max_to_keep : Z) (o : Outcome unit) : Prop :=
  result o = Raise (UnboundLocalError "epoch") ∧
  events o = [Log (TrainingFor nb_epoch) verbose; InitVariables;
              NewSaver max_to_keep; Save 0].

(** What a call of fit with log_every_N_batches = 0 leaves when the dataset
    yields a minibatch: ZeroDivisionError on the first minibatch, with no
    session run, no transformation and no checkpoint but the initial one. *)
Definition zero_division_on_first_batch `{Numpy, !Feeds, Objects}
    (batch : BatchParams) (dataset : Dataset) (nb_epoch max_to_keep : Z)
    (o : Outcome unit) : Prop :=
  result o = Raise ZeroDivisionError ∧
  events o = [Log (TrainingFor nb_epoch) (verbose batch); InitVariables;
              NewSaver max_to_keep; Save 0;
              IterBatches dataset (batch_size batch) (pad_batches batch)].

(** The minibatch is one the dataset yields, for these batch parameters. *)
Definition drawn_from `{Framework} (batch : BatchParams) (dataset : Dataset)
    (minibatch : ndarray * ndarray * ndarray * ndarray) : Prop :=
  ∃ w, minibatch ∈
         iterbatches dataset (batch_size batch) (pad_batches batch) w.

(** A call of the adversarial classifier's fit: no transformation, no
    restoring, and every session run fetches the training op and the loss
    on the dictionary of a minibatch of the dataset as it was drawn. *)
Definition classifier_fit_call `{Framework} (self : Hyperparams)
    (batch : BatchParams) (dataset : Dataset) (ev : Event) : Prop :=
  match ev with
  | SessRun fetches feed_dict =>
      fetches = TrainOpAndLoss ∧
      ∃ X_b y_b w_b ids_b,
        drawn_from batch dataset (X_b, y_b, w_b, ids_b) ∧
        feed_dict =
          TensorflowMultiTaskClassifier.construct_feed_dict self batch
            X_b (Some y_b) (Some w_b) (Some ids_b)
  | XTransform _ _ | Restore => False
  | _ => True
  end.

(** How often a trace iterates a dataset, transforms an array and runs the
    session. *)
Definition call_counts `{Numpy, !Feeds, Objects} (evs : list Event)
    : nat * nat * nat :=
  (count_events is_IterBatches evs, count_events is_XTransform evs,
   count_events is_SessRun evs).

(** Started in the world [w], the computation raises [e], having made the
    calls [evs] and left the world [w']. *)
Definition raises_after `{Framework} {A} (m : Run A) (w : World) (e : PyExc)
    (evs : list Event) (w' : World) : Prop :=
  result (m w) = Raise e ∧ events (m w) = evs ∧ world (m w) = w'.

(** The shape of the array of ones __init__ starts from, when n_features
    is a list or an int. *)
Definition dummy_shape (batch_size : nat) (n_features : NFeatures)
    : option (list nat) :=
  match n_features with
  | NFeaturesList dims => Some (batch_size :: dims)
  | NFeaturesInt n => Some [batch_size; n]
  | NFeaturesOther => None
  end.

(** What TensorflowMultiTaskFitTransformRegressor.__init__ leaves: for an
    n_features that is neither a list nor an int, ValueError and no call;
    otherwise the array of ones is passed through the transformers, in list
    order, and the second dimension of the result is the n_features handed
    to the base class, with pad_batches False and the other arguments as
    given; a result with fewer than two dimensions raises IndexError. *)
Definition init_spec `{Framework, !NumpyShapes} (n_tasks : nat)
    (n_features : NFeatures) (layer_sizes : list Z)
    (weight_init_stddevs bias_init_consts dropouts : list float)
    (batch_size : nat) (fit_transformers : list Transformer) (n_evals : nat)
    (verbose : bool) (w : World)
    (o : Outcome TensorflowMultiTaskFitTransformRegressor.Initialized)
    : Prop :=
  match dummy_shape batch_size n_features with
  | None =>
      result o = Raise (ValueError "n_features should be list or int") ∧
      events o = []
  | Some dims =>
      ∃ evs X_b w',
        transformed_in_order fit_transformers (np_ones_shape dims) w
          evs X_b w' ∧
        events o = evs ∧ world o = w' ∧
        result o =
          match shape X_b !! 1%nat with
          | Some n =>
              Ok {| TensorflowMultiTaskFitTransformRegressor.init_fit_transformers :=
                      fit_transformers;
                    TensorflowMultiTaskFitTransformRegressor.init_n_evals :=
                      n_evals;
                    TensorflowMultiTaskFitTransformRegressor.init_hyper :=
                      {| n_tasks := n_tasks;
                         n_features := Z.of_nat n;
                         layer_sizes := layer_sizes;
                         weight_init_stddevs := weight_init_stddevs;
                         bias_init_consts := bias_init_consts;
                         dropouts := dropouts |};
                    TensorflowMultiTaskFitTransformRegressor.init_batch :=
                      {| batch_size := batch_size;
                         pad_batches := false;
                         verbose := verbose |} |}
          | None => Raise IndexError
          end
  end.

(** The object __init__ leaves, with the flag of the base class. *)
Definition initialized_model
    `{Numpy, !Feeds, Objects}
    (init : TensorflowMultiTaskFitTransformRegressor.Initialized)
    (_restored_model : bool)
    : TensorflowMultiTaskFitTransformRegressor.Self :=
  {| TensorflowMultiTaskFitTransformRegressor.hyper :=
       TensorflowMultiTaskFitTransformRegressor.init_hyper init;
     TensorflowMultiTaskFitTransformRegressor.batch :=
       TensorflowMultiTaskFitTransformRegressor.init_batch init;
     TensorflowMultiTaskFitTransformRegressor.fit_transformers :=
       TensorflowMultiTaskFitTransformRegressor.init_fit_transformers init;
     TensorflowMultiTaskFitTransformRegressor.n_evals :=
       TensorflowMultiTaskFitTransformRegressor.init_n_evals init;
     TensorflowMultiTaskFitTransformRegressor._restored_model :=
       _restored_model |}.

(** The names a script binds. *)
Definition bound_names (script : list Stmt) : gset string :=
  list_to_set (mjoin (binds <$> script)).

(** The losses that the session runs of a sequence of calls fetch, in
    order, when the sequence starts in the world [w]. *)
Fixpoint losses_of `{Framework} (evs : list Event) (w : World) : list float :=
  match evs with
  | [] => []
  | ev :: evs =>
      match ev with
      | SessRun fetches feed_dict => [fetched_loss fetches feed_dict w]
      | _ => []
      end ++ losses_of evs (after ev w)
  end.

(** [float(avg_loss) / n_batches] once the loop over the minibatches has
    added [losses] to 0., one at a time, and counted them. *)
Definition average_loss (losses : list float) : Result float :=
  float_div_int (foldl PrimFloat.add 0%float losses)
    (Z.of_nat (length losses)).

(** The calls of the loop over the minibatches. *)
Definition is_batch_call `{Numpy, !Feeds, Objects} (ev : Event) : bool :=
  match ev with
  | Log (OnBatch _) _ | XTransform _ _ | SessRun _ _ => true
  | _ => false
  end.

(** Every 'Ending epoch' line of a trace that starts in the world [w]
    follows the checkpoint of its epoch and reports the average of the
    losses fetched since the dataset was last iterated by the call
    [iteration]. *)
Definition logged_averages `{Framework} (iteration : Event) (w : World)
    (evs : list Event) : Prop :=
  ∀ before epoch avg_loss verbose rest,
    evs = before ++ Log (EndingEpoch epoch avg_loss) verbose :: rest →
    ∃ pre calls,
      before = pre ++ iteration :: calls ++ [Save epoch] ∧
      Forall (λ ev, is_batch_call ev = true) calls ∧
      average_loss (losses_of calls (world_after (pre ++ [iteration]) w))
        = Ok avg_loss.

(** The world a computation leaves is the one its calls lead to. *)
Definition tracks `{Framework} {A} (m : Run A) : Prop :=
  ∀ w, world (m w) = world_after (events (m w)) w.

(** * Properties *)

(** ** Results *)

Lemma rbind_Ok {A B} (r : Result A) (k : A → Result B) (a : A) :
  r = Ok a → (r ≫= k) = k a.
Proof. by intros ->. Qed.

Lemma rbind_Raise {A B} (r : Result A) (k : A → Result B) (e : PyExc) :
  r = Raise e → (r ≫= k) = Raise e.
Proof. by intros ->. Qed.

Lemma getitem_Some {A} (l : list A) (i : nat) (x : A) :
  l !! i = Some x → getitem l i = Ok x.
Proof. unfold getitem. by intros ->. Qed.

Lemma for_each_Result_app {A S} (xs ys : list A) (body : S → A → Result S)
    (s : S) :
  for_each (xs ++ ys) body s = for_each xs body s ≫= for_each ys body.
Proof.
  revert s. induction xs as [|x xs IH]; intros s; simpl; [done|].
  destruct (body s x) as [s'|e]; simpl; [apply IH | done].
Qed.

(** ** The assertions on the layer parameters *)

Lemma lengths_set_size (self : Hyperparams) :
  size (lengths_set self) = 1%nat ↔
  length (layer_sizes self) = length (weight_init_stddevs self) ∧
  length (weight_init_stddevs self) = length (bias_init_consts self) ∧
  length (bias_init_consts self) = length (dropouts self).
Proof.
  unfold lengths_set. split.
  - intros Hsize. apply size_1_elem_of in Hsize as [n Hn].
    assert (∀ m, m ∈ ({[ length (layer_sizes self);
                         length (weight_init_stddevs self);
                         length (bias_init_consts self);
                         length (dropouts self) ]} : gset nat) → m = n) as Hall.
    { intros m Hm. rewrite Hn in Hm. set_solver. }
    rewrite (Hall (length (layer_sizes self))) by set_solver.
    rewrite (Hall (length (weight_init_stddevs self))) by set_solver.
    rewrite (Hall (length (bias_init_consts self))) by set_solver.
    rewrite (Hall (length (dropouts self))) by set_solver.
    done.
  - intros (-> & -> & ->).
    replace ({[ length (dropouts self); length (dropouts self);
                length (dropouts self); length (dropouts self) ]} : gset nat)
      with ({[ length (dropouts self) ]} : gset nat) by set_solver.
    apply size_singleton.
Qed.

Lemma set_pop_singleton (n : nat) : set_pop {[ n ]} = Ok n.
Proof. unfold set_pop. by rewrite elements_singleton. Qed.

Lemma lengths_set_equal (self : Hyperparams) :
  length (layer_sizes self) = length (weight_init_stddevs self) →
  length (weight_init_stddevs self) = length (bias_init_consts self) →
  length (bias_init_consts self) = length (dropouts self) →
  lengths_set self = {[ length (layer_sizes self) ]}.
Proof. unfold lengths_set. intros -> -> ->. set_solver. Qed.

Lemma checked_n_layers_valid (self : Hyperparams) :
  valid_layer_params self →
  checked_n_layers self = Ok (length (layer_sizes self)).
Proof.
  intros (H1 & H2 & H3 & Hpos). unfold checked_n_layers.
  rewrite decide_True by (apply lengths_set_size; done).
  rewrite lengths_set_equal, set_pop_singleton by done. simpl.
  by rewrite decide_True.
Qed.

Lemma checked_n_layers_invalid (self : Hyperparams) :
  ¬ valid_layer_params self → raises_AssertionError (checked_n_layers self).
Proof.
  intros Hinv. unfold checked_n_layers.
  destruct (decide (size (lengths_set self) = 1%nat)) as [Hsize|Hsize];
    [|by eexists].
  apply lengths_set_size in Hsize as (H1 & H2 & H3).
  rewrite lengths_set_equal, set_pop_singleton by done. simpl.
  destruct (decide (0 < length (layer_sizes self))%nat); [|by eexists].
  destruct Hinv. done.
Qed.

(** ** The layer loop *)

Section LayerLoop.
Context `{ModelOps}.
Variables (self : Hyperparams) (training : bool) (x : Tensor).

Local Abbreviation init := (init_locals self x).
Local Abbreviation after_layers := (after_layers self training x).

Lemma after_layers_input (k : nat) (vars : Locals) :
  after_layers k vars →
  match k with
  | O => Some (prev_layer vars) = Some x
  | S j => Some (prev_layer vars) = layer_spec self training x j
  end ∧ Some (prev_layer_size vars) = input_size_spec self k.
Proof.
  destruct k as [|j]; simpl.
  - by intros ->.
  - intros (last & size & -> & -> & ->). done.
Qed.

Lemma hidden_layer_spec (k : nat) (vars : Locals) :
  after_layers k vars →
  (k < length (layer_sizes self))%nat →
  (k < length (weight_init_stddevs self))%nat →
  (k < length (bias_init_consts self))%nat →
  (k < length (dropouts self))%nat →
  ∃ vars', hidden_layer self training vars k = Ok vars' ∧
           after_layers (S k) vars'.
Proof.
  intros Hvars Hl Hw Hb Hd.
  apply lookup_lt_is_Some_2 in Hl as [size Hl].
  apply lookup_lt_is_Some_2 in Hw as [stddev Hw].
  apply lookup_lt_is_Some_2 in Hb as [value Hb].
  apply lookup_lt_is_Some_2 in Hd as [p Hd].
  apply after_layers_input in Hvars as [Hprev Hsize].
  unfold hidden_layer.
  rewrite (getitem_Some _ _ _ Hl), (getitem_Some _ _ _ Hw),
    (getitem_Some _ _ _ Hb), (getitem_Some _ _ _ Hd). simpl.
  eexists. split; [done|].
  eexists _, size. split; [|done].
  destruct k as [|j]; simpl in *.
  - injection Hprev as ->. injection Hsize as ->.
    rewrite Hl, Hw, Hb, Hd. done.
  - rewrite <-Hprev, <-Hsize. simpl. rewrite Hl, Hw, Hb, Hd. done.
Qed.

Lemma layer_loop_spec (k : nat) :
  (k ≤ length (layer_sizes self))%nat →
  (k ≤ length (weight_init_stddevs self))%nat →
  (k ≤ length (bias_init_consts self))%nat →
  (k ≤ length (dropouts self))%nat →
  ∃ vars, for_each (seq 0 k) (hidden_layer self training) init = Ok vars ∧
          after_layers k vars.
Proof.
  induction k as [|k IH]; intros Hl Hw Hb Hd.
  - exists init. done.
  - destruct IH as (vars & Hloop & Hvars); [lia..|].
    destruct (hidden_layer_spec k vars) as (vars' & Hstep & Hvars');
      [done|lia..|].
    exists vars'. split; [|done].
    rewrite seq_S, for_each_Result_app, Hloop. simpl.
    by rewrite Hstep.
Qed.

(** With valid parameters the loop ends normally, having built the last
    layer of the specification. *)
Lemma hidden_layers_valid :
  valid_layer_params self →
  ∃ last size,
    layer_spec self training x (pred (length (layer_sizes self)))
      = Some last ∧
    layer_sizes self !! pred (length (layer_sizes self)) = Some size ∧
    hidden_layers self x training =
      Ok {| prev_layer := last; prev_layer_size := size;
            layer := Some last;
            i := Some (pred (length (layer_sizes self))) |}.
Proof.
  intros Hvalid. pose proof Hvalid as (H1 & H2 & H3 & Hpos).
  unfold hidden_layers. rewrite (checked_n_layers_valid _ Hvalid). simpl.
  destruct (layer_loop_spec (length (layer_sizes self)))
    as (vars & Hloop & Hvars); [lia..|].
  unfold init_locals in Hloop. rewrite Hloop.
  destruct (length (layer_sizes self)) as [|j]; [lia|].
  destruct Hvars as (last & size & Hlast & Hsize & ->).
  by exists last, size.
Qed.

Lemma hidden_layers_invalid :
  ¬ valid_layer_params self →
  raises_AssertionError (hidden_layers self x training).
Proof.
  intros Hinv. destruct (checked_n_layers_invalid _ Hinv) as [msg Hmsg].
  exists msg. unfold hidden_layers. by rewrite Hmsg.
Qed.
End LayerLoop.

(** ** The outputs of the four graph builders *)

Section Outputs.
Context `{ModelOps}.
Variables (self : Hyperparams) (training : bool) (x : Tensor).

Lemma stack_invalid {A} (k : Locals → Result A) :
  ¬ valid_layer_params self →
  raises_AssertionError (hidden_layers self x training ≫= k).
Proof.
  intros Hinv. destruct (hidden_layers_invalid self training x Hinv) as [msg E].
  exists msg. by rewrite E.
Qed.

Lemma classifier_stack_valid :
  valid_layer_params self →
  ∃ last,
    layer_spec self training x (pred (length (layer_sizes self))) = Some last ∧
    (hidden_layers self x training ≫= logits_output self)
      = Ok (multitask_logits last (n_tasks self)).
Proof.
  intros Hvalid.
  destruct (hidden_layers_valid self training x Hvalid)
    as (last & size & Hlast & _ & ->).
  by exists last.
Qed.

Lemma regression_heads (vars : Locals) (args : FcArgs) (n a : nat)
    (out : list Tensor) :
  head_args self vars = Ok args →
  for_each (seq a n) (regression_head self vars) out
    = Ok (out ++ replicate n (Squeeze (fully_connected args))).
Proof.
  intros Hargs.
  assert (∀ out a, regression_head self vars out a
                   = Ok (out ++ [Squeeze (fully_connected args)])) as Hstep.
  { intros. unfold regression_head. by rewrite Hargs. }
  revert a out. induction n as [|n IH]; intros a out; simpl.
  - by rewrite app_nil_r.
  - rewrite Hstep. simpl. rewrite IH, <-app_assoc. done.
Qed.

Lemma regressor_stack_valid :
  valid_layer_params self →
  ∃ args,
    head_args_spec self training x args ∧
    (hidden_layers self x training ≫= regression_output self)
      = Ok (replicate (n_tasks self) (Squeeze (fully_connected args))).
Proof.
  intros Hvalid. pose proof Hvalid as (H1 & H2 & H3 & Hpos).
  destruct (hidden_layers_valid self training x Hvalid)
    as (last & size & Hlast & Hsize & ->).
  rewrite <-Nat.sub_1_r in *.
  destruct (lookup_lt_is_Some_2 (weight_init_stddevs self)
              (length (layer_sizes self) - 1)) as [stddev Hw]; [lia|].
  destruct (lookup_lt_is_Some_2 (bias_init_consts self)
              (length (layer_sizes self) - 1)) as [value Hb]; [lia|].
  eexists. split; [by exists last, size, stddev, value|].
  simpl. unfold regression_output.
  erewrite regression_heads; [done|].
  unfold head_args. simpl.
  by rewrite (getitem_Some _ _ _ Hsize), (getitem_Some _ _ _ Hw),
    (getitem_Some _ _ _ Hb).
Qed.
End Outputs.

Lemma raises_not_returns {A} (r : Result A) :
  raises_AssertionError r → ¬ returns r.
Proof. intros [msg ->] [a ?]. done. Qed.

(** C5. Each of the four graph builders (build of the classifier and of the
    regressor, model of the two adversarial classes) raises AssertionError
    exactly when the four layer parameter lists do not have one common,
    non-zero length; when they do, neither assertion fails, n_layers is that
    length, and the builder returns. *)
Theorem graph_builders_assert_layer_params `{ModelOps, GraphModel}
    (self : Hyperparams) (x : Tensor) (training : bool) :
  (valid_layer_params self →
   checked_n_layers self = Ok (length (layer_sizes self))) ∧
  ∀ r,
    r ∈ [ returned (TensorflowMultiTaskClassifier.build self training);
          returned (TensorflowMultiTaskRegressor.build self training);
          TensorflowAdversarialMultiTaskClassifier.model self x training;
          TensorflowAdversarialMultiTaskRegressor.model self x training ] →
    (raises_AssertionError r ↔ ¬ valid_layer_params self) ∧
    (returns r ↔ valid_layer_params self).
Proof.
  split; [apply checked_n_layers_valid|].
  intros r Hr.
  assert ((valid_layer_params self → returns r) ∧
          (¬ valid_layer_params self → raises_AssertionError r)) as [Hv Hi].
  { repeat (apply elem_of_cons in Hr as [->|Hr]);
      [..|by apply elem_of_nil in Hr]; (split; [intros Hvalid|intros Hinv]);
      simpl;
      unfold TensorflowAdversarialMultiTaskClassifier.model,
        TensorflowAdversarialMultiTaskRegressor.model;
      try (by apply stack_invalid).
    - destruct (classifier_stack_valid self training
        (Placeholder get_placeholder_scope [None; Some (n_features self)]
           "mol_features") Hvalid) as (? & _ & E). by eexists.
    - destruct (regressor_stack_valid self training
        (Placeholder get_placeholder_scope [None; Some (n_features self)]
           "mol_features") Hvalid) as (? & _ & E).
      by eexists.
    - destruct (classifier_stack_valid self training x Hvalid) as (? & _ & E).
      by eexists.
    - destruct (regressor_stack_valid self training x Hvalid) as (? & _ & E).
      by eexists. }
  destruct (decide (valid_layer_params self)) as [Hvalid|Hinv].
  - split; split; try done.
    intros Hraise. destruct (raises_not_returns r Hraise (Hv Hvalid)).
  - split; split; try done.
    intros Hret. destruct (raises_not_returns r (Hi Hinv) Hret).
Qed.

(** C2. With layer parameter lists of one non-zero length,
    TensorflowMultiTaskClassifier.build assigns to self.mol_features a
    placeholder of shape [None, n_features], stacks n_layers hidden layers
    where layer i is dropout(relu(fully_connected(previous layer,
    layer_sizes[i]))) with weights of shape [previous size, layer_sizes[i]]
    and deviation weight_init_stddevs[i] and with bias bias_init_consts[i]
    ([layer_spec]), and returns multitask_logits of the last layer with
    n_tasks heads. *)
Theorem classifier_build_stack `{ModelOps, GraphModel} (self : Hyperparams)
    (training : bool) :
  valid_layer_params self →
  let mol_features :=
    Placeholder get_placeholder_scope [None; Some (n_features self)]
      "mol_features" in
  let n_layers := length (layer_sizes self) in
  self_mol_features (TensorflowMultiTaskClassifier.build self training)
    = mol_features ∧
  (∀ i, (i < n_layers)%nat →
        is_Some (layer_spec self training mol_features i)) ∧
  ∃ last,
    layer_spec self training mol_features (n_layers - 1) = Some last ∧
    returned (TensorflowMultiTaskClassifier.build self training)
      = Ok (multitask_logits last (n_tasks self)).
Proof.
  intros Hvalid mol_features n_layers. split; [done|]. split.
  - intros i Hi. pose proof Hvalid as (H1 & H2 & H3 & _).
    destruct (layer_loop_spec self training mol_features (S i))
      as (vars & _ & last & size & Hlast & _); [unfold n_layers in *; lia..|].
    by exists last.
  - destruct (classifier_stack_valid self training mol_features Hvalid)
      as (last & Hlast & E).
    exists last. unfold n_layers. rewrite Nat.sub_1_r. done.
Qed.

(** C7 (amended). Whenever TensorflowMultiTaskRegressor.build or
    TensorflowAdversarialMultiTaskRegressor.model returns (as both do for
    valid layer parameters), every one of the n_tasks heads it returns is
    built by one and the same call, whose arguments are read with the loop
    variable i left at n_layers - 1: size = layer_sizes[n_layers-1], weights
    of shape [layer_sizes[n_layers-1], 1] and deviation
    weight_init_stddevs[n_layers-1], bias of shape [1] and value
    bias_init_consts[n_layers-1] ([head_args_spec]), so that all heads share
    the initialization parameters of the last hidden layer.  The size
    argument differs from the number of weight columns, 1, unless the last
    hidden layer has one unit. *)
Theorem regression_heads_reuse_last_layer `{ModelOps, GraphModel}
    (self : Hyperparams) (x : Tensor) (training : bool) :
  let mol_features :=
    Placeholder get_placeholder_scope [None; Some (n_features self)]
      "mol_features" in
  let heads_of x output :=
    ∃ args,
      head_args_spec self training x args ∧
      output = replicate (n_tasks self) (Squeeze (fully_connected args)) ∧
      (size_agrees args ↔ arg_size args = 1) in
  (∀ output,
     returned (TensorflowMultiTaskRegressor.build self training) = Ok output →
     heads_of mol_features output) ∧
  (∀ output,
     TensorflowAdversarialMultiTaskRegressor.model self x training
       = Ok output →
     heads_of x output) ∧
  (valid_layer_params self →
   returns (returned (TensorflowMultiTaskRegressor.build self training)) ∧
   returns (TensorflowAdversarialMultiTaskRegressor.model self x training)).
Proof.
  intros mol_features heads_of.
  assert (∀ x args, head_args_spec self training x args →
                    size_agrees args ↔ arg_size args = 1) as Hagree.
  { intros x' args (last & size & stddev & value & _ & _ & _ & _ & ->).
    unfold size_agrees, weight_columns. simpl. split; congruence. }
  assert (∀ x output,
    (hidden_layers self x training ≫= regression_output self) = Ok output →
    heads_of x output) as Hheads.
  { intros x' output Hout.
    destruct (decide (valid_layer_params self)) as [Hvalid|Hinv].
    - destruct (regressor_stack_valid self training x' Hvalid)
        as (args & Hargs & E).
      exists args. rewrite E in Hout. injection Hout as <-. eauto.
    - destruct (stack_invalid self training x' (regression_output self) Hinv)
        as [msg E].
      by rewrite E in Hout. }
  split; [|split].
  - intros output. apply Hheads.
  - intros output. apply Hheads.
  - intros Hvalid. split.
    + destruct (regressor_stack_valid self training mol_features Hvalid)
        as (args & _ & E). by eexists.
    + destruct (regressor_stack_valid self training x Hvalid)
        as (args & _ & E). by eexists.
Qed.

(** ** The adversarial graphs *)

Lemma adversarial_graph_loss `{GraphModel}
    (model : Tensor → bool → Result (list Tensor)) (x : Tensor)
    (seed : option Z) (g : TensorflowGraph) :
  adversarial_graph model x true seed = Ok g →
  adversarial_loss_spec model x g.
Proof.
  unfold adversarial_graph.
  destruct (model x true) as [output|e] eqn:Hout; simpl; [|done].
  match goal with
  | |- context [model ?adv_x true] =>
      destruct (model adv_x true) as [adv_output|e] eqn:Hadv; simpl; [|done]
  end.
  intros [= <-]. by exists output, adv_output.
Qed.

Lemma adversarial_graph_returns `{GraphModel}
    (model : Tensor → bool → Result (list Tensor)) (x : Tensor)
    (seed : option Z) :
  (∀ x, returns (model x true)) →
  returns (adversarial_graph model x true seed).
Proof.
  intros Hmodel. unfold adversarial_graph.
  destruct (Hmodel x) as [output ->]. simpl.
  match goal with
  | |- context [model ?adv_x true] =>
      destruct (Hmodel adv_x) as [adv_output ->]
  end.
  by eexists.
Qed.

(** C1. Whenever construct_graph of either adversarial class, called with
    training=True, returns a graph (as it does for valid layer parameters),
    the loss of that graph is (loss_1 + loss_2) / 2, where loss_1 is the
    training cost of the model on the placeholder x and loss_2 the training
    cost of the same model on
    adv_x = stop_gradient(x + 0.1 * sign(d loss_1 / d x))
    ([adversarial_loss_spec]). *)
Theorem adversarial_training_loss `{ModelOps, GraphModel}
    (self : Hyperparams) (seed : option Z) :
  (∀ g,
     TensorflowAdversarialMultiTaskClassifier.construct_graph self true seed
       = Ok g →
     adversarial_loss_spec
       (TensorflowAdversarialMultiTaskClassifier.model self)
       (TensorflowAdversarialMultiTaskClassifier.get_placeholders self) g) ∧
  (∀ g,
     TensorflowAdversarialMultiTaskRegressor.construct_graph self true seed
       = Ok g →
     adversarial_loss_spec
       (TensorflowAdversarialMultiTaskRegressor.model self)
       (TensorflowAdversarialMultiTaskRegressor.get_placeholders self) g) ∧
  (valid_layer_params self →
   returns (TensorflowAdversarialMultiTaskClassifier.construct_graph
              self true seed) ∧
   returns (TensorflowAdversarialMultiTaskRegressor.construct_graph
              self true seed)).
Proof.
  split; [|split].
  - intros g. apply adversarial_graph_loss.
  - intros g. apply adversarial_graph_loss.
  - intros Hvalid. split; apply adversarial_graph_returns; intros x.
    + destruct (classifier_stack_valid self true x Hvalid) as (? & _ & E).
      by eexists.
    + destruct (regressor_stack_valid self true x Hvalid) as (? & _ & E).
      by eexists.
Qed.

(** ** Feed dictionaries *)

Lemma labels_key_inj (t t' : nat) : labels_key t = labels_key t' → t = t'.
Proof.
  unfold labels_key. intros E. apply (inj (String.app "labels_")) in E.
  by apply (inj pretty) in E.
Qed.

Lemma weights_key_inj (t t' : nat) : weights_key t = weights_key t' → t = t'.
Proof.
  unfold weights_key. intros E. apply (inj (String.app "weights_")) in E.
  by apply (inj pretty) in E.
Qed.

Lemma labels_key_ne_weights_key (t t' : nat) : labels_key t ≠ weights_key t'.
Proof. unfold labels_key, weights_key. cbv [String.append]. congruence. Qed.

Lemma labels_key_ne_mol_features (t : nat) : labels_key t ≠ "mol_features".
Proof. unfold labels_key. cbv [String.append]. congruence. Qed.

Lemma weights_key_ne_mol_features (t : nat) : weights_key t ≠ "mol_features".
Proof. unfold weights_key. cbv [String.append]. congruence. Qed.

Section FeedDict.
Context `{Numpy}.
Variables (labels : nat → ndarray) (w_b : option ndarray) (batch_size : nat).

Lemma feed_task_inserts (d : gmap string ndarray) (task : nat) :
  feed_task labels w_b batch_size d task =
  <[weights_key task := weights_entry batch_size w_b task]>
    (<[labels_key task := labels task]> d).
Proof. unfold feed_task, weights_entry. by destruct w_b. Qed.

Lemma orig_dict_of_S (n : nat) (X_b : ndarray) :
  orig_dict_of labels (S n) batch_size X_b w_b =
  <[weights_key n := weights_entry batch_size w_b n]>
    (<[labels_key n := labels n]>
       (orig_dict_of labels n batch_size X_b w_b)).
Proof.
  unfold orig_dict_of. by rewrite seq_S, foldl_snoc, feed_task_inserts.
Qed.

Lemma orig_dict_of_entries (n : nat) (X_b : ndarray) :
  feed_entries n X_b labels (weights_entry batch_size w_b)
    (orig_dict_of labels n batch_size X_b w_b).
Proof.
  fold labels_key weights_key.
  induction n as [|n (IHx & IHt & IHdom)].
  - unfold orig_dict_of. simpl. split; [|split].
    + apply lookup_insert_eq.
    + intros task Hlt. lia.
    + intros key [v Hv]. left.
      apply lookup_insert_Some in Hv as [[? _]|[_ Hv]]; [done|].
      by rewrite lookup_empty in Hv.
  - rewrite orig_dict_of_S. split; [|split].
    + rewrite !lookup_insert_ne; [done|..].
      * apply labels_key_ne_mol_features.
      * apply weights_key_ne_mol_features.
    + intros task Hlt. destruct (decide (task = n)) as [->|Hne].
      * split.
        -- rewrite lookup_insert_ne, lookup_insert_eq; [done|].
           intros E. by apply symmetry, labels_key_ne_weights_key in E.
        -- apply lookup_insert_eq.
      * destruct (IHt task) as [Hl Hw]; [lia|]. split.
        -- rewrite !lookup_insert_ne; [done|..].
           ++ intros E. by apply labels_key_inj in E.
           ++ intros E. by apply symmetry, labels_key_ne_weights_key in E.
        -- rewrite !lookup_insert_ne; [done|..].
           ++ apply labels_key_ne_weights_key.
           ++ intros E. by apply weights_key_inj in E.
    + intros key [v Hv].
      apply lookup_insert_Some in Hv as [[<- _]|[_ Hv]];
        [right; exists n; split; [lia|by right]|].
      apply lookup_insert_Some in Hv as [[<- _]|[_ Hv]];
        [right; exists n; split; [lia|by left]|].
      destruct (IHdom key) as [->|(task & Hlt & Hkey)]; [by eexists|by left|].
      right. exists task. split; [lia|done].
Qed.
End FeedDict.

(** C6. For every minibatch, construct_feed_dict of the classifier hands
    get_feed_dict a dictionary that maps 'mol_features' to X_b and, for every
    task t below n_tasks, 'labels_%d' % t to to_one_hot(y_b[:, t]) (to the
    squeezed one-hot encoding of batch_size zeros when y_b is None) and
    'weights_%d' % t to w_b[:, t] (to batch_size ones when w_b is None), and
    that has no other key.  The regressor's does the same, except that the
    labels are not one-hot encoded: the entry is y_b[:, t] (batch_size
    zeros, squeezed, when y_b is None). *)
Theorem construct_feed_dict_entries `{Numpy, !Feeds} (self : Hyperparams)
    (batch : BatchParams) (X_b : ndarray) (y_b w_b ids_b : option ndarray) :
  let weights := weights_entry (batch_size batch) w_b in
  (∃ d,
     TensorflowMultiTaskClassifier.construct_feed_dict self batch
       X_b y_b w_b ids_b = get_feed_dict d ∧
     feed_entries (n_tasks self) X_b
       (λ t, match y_b with
             | Some y_b => to_one_hot (column y_b t)
             | None => np_squeeze (to_one_hot (np_zeros (batch_size batch)))
             end)
       weights d) ∧
  (∃ d,
     TensorflowMultiTaskRegressor.construct_feed_dict self batch
       X_b y_b w_b ids_b = get_feed_dict d ∧
     feed_entries (n_tasks self) X_b
       (λ t, match y_b with
             | Some y_b => column y_b t
             | None => np_squeeze (np_zeros (batch_size batch))
             end)
       weights d).
Proof.
  intros weights. split.
  - exists (TensorflowMultiTaskClassifier.orig_dict self batch X_b y_b w_b).
    split; [done|]. apply orig_dict_of_entries.
  - exists (TensorflowMultiTaskRegressor.orig_dict self batch X_b y_b w_b).
    split; [done|]. apply orig_dict_of_entries.
Qed.

(** ** Computations that call into the framework *)

Section RunLemmas.
Context `{Framework}.

Lemma bind_result {A B} (m : Run A) (k : A → Run B) (w : World) :
  result ((m ≫= k) w) =
  match result (m w) with
  | Ok a => result (k a (world (m w)))
  | Raise e => Raise e
  end.
Proof. unfold mbind, Run_bind. by destruct (result (m w)). Qed.

Lemma bind_events {A B} (m : Run A) (k : A → Run B) (w : World) :
  events ((m ≫= k) w) =
  events (m w) ++
  match result (m w) with
  | Ok a => events (k a (world (m w)))
  | Raise e => []
  end.
Proof.
  unfold mbind, Run_bind. destruct (result (m w)); simpl; [done|].
  by rewrite app_nil_r.
Qed.

Lemma bind_world {A B} (m : Run A) (k : A → Run B) (w : World) :
  world ((m ≫= k) w) =
  match result (m w) with
  | Ok a => world (k a (world (m w)))
  | Raise e => world (m w)
  end.
Proof. unfold mbind, Run_bind. by destruct (result (m w)). Qed.

Lemma saves_of_app (evs evs' : list Event) :
  saves_of (evs ++ evs') = saves_of evs ++ saves_of evs'.
Proof. apply omap_app. Qed.

(** C9. A call of fit with nb_epoch = 0, on either class, never enters the
    epoch loop: it saves the initial checkpoint at global_step 0, then reads
    the loop variable epoch, which is unbound, and ends with an uncaught
    NameError (an UnboundLocalError), no other checkpoint saved. *)
Theorem fit_zero_epochs_raises_NameError `{!ModelOps, !GraphModel}
    (self : Hyperparams) (batch : BatchParams)
    (self' : TensorflowMultiTaskFitTransformRegressor.Self)
    (dataset : Dataset) (max_checkpoints_to_keep log_every_N_batches : Z)
    (w : World) :
  unbound_epoch_after_initial_save (verbose batch) max_checkpoints_to_keep
    (TensorflowAdversarialMultiTaskClassifier.fit self batch dataset 0
       max_checkpoints_to_keep log_every_N_batches w) ∧
  unbound_epoch_after_initial_save
    (verbose (TensorflowMultiTaskFitTransformRegressor.batch self'))
    max_checkpoints_to_keep
    (TensorflowMultiTaskFitTransformRegressor.fit self' dataset 0
       max_checkpoints_to_keep log_every_N_batches w).
Proof.
  split; exists (UnboundLocalError "epoch"); repeat split; reflexivity.
Qed.
Lemma for_each_cons {A S} (x : A) (xs : list A) (body : S → A → Run S)
    (s : S) :
  for_each (x :: xs) body s = (body s x ≫= for_each xs body).
Proof. reflexivity. Qed.

Lemma call_bind_result {A B} (ev : Event) (value : World → A)
    (k : A → Run B) (w : World) :
  result ((call ev value ≫= k) w) = result (k (value w) (after ev w)).
Proof. by rewrite bind_result. Qed.

Lemma call_bind_events {A B} (ev : Event) (value : World → A)
    (k : A → Run B) (w : World) :
  events ((call ev value ≫= k) w) = ev :: events (k (value w) (after ev w)).
Proof. by rewrite bind_events. Qed.

Lemma lift_bind_result {A B} (r : Result A) (k : A → Run B) (w : World) :
  result ((lift r ≫= k) w) =
  match r with Ok a => result (k a w) | Raise e => Raise e end.
Proof. by rewrite bind_result. Qed.

Lemma lift_bind_events {A B} (r : Result A) (k : A → Run B) (w : World) :
  events ((lift r ≫= k) w) =
  match r with Ok a => events (k a w) | Raise e => [] end.
Proof. by rewrite bind_events. Qed.

Lemma run_epoch_no_batches (batch : BatchParams)
    (step : nat * (ndarray * ndarray * ndarray * ndarray) → Run float)
    (dataset : Dataset) (acc : option Z) (epoch : Z) (w : World) :
  iterbatches dataset (batch_size batch) (pad_batches batch) w = [] →
  result (run_epoch batch step dataset acc epoch w) = Raise ZeroDivisionError ∧
  events (run_epoch batch step dataset acc epoch w) =
    [IterBatches dataset (batch_size batch) (pad_batches batch); Save epoch].
Proof.
  intros Hempty. unfold run_epoch, saver_save, call_.
  rewrite call_bind_result, call_bind_events, Hempty.
  change (for_each (enumerate []) ?body ?vars) with (mret (M:=Run) vars).
  rewrite bind_result, bind_events. cbn [result events world mret Run_ret].
  rewrite call_bind_result, call_bind_events.
  rewrite lift_bind_result, lift_bind_events. done.
Qed.

Lemma fit_loop_no_batches (batch : BatchParams)
    (step : nat * (ndarray * ndarray * ndarray * ndarray) → Run float)
    (dataset : Dataset) (nb_epoch max_checkpoints_to_keep : Z) (w : World) :
  1 ≤ nb_epoch →
  (∀ w, iterbatches dataset (batch_size batch) (pad_batches batch) w = []) →
  zero_division_in_first_epoch batch dataset nb_epoch max_checkpoints_to_keep
    (fit_loop batch step dataset nb_epoch max_checkpoints_to_keep w).
Proof.
  intros Hpos Hempty. unfold zero_division_in_first_epoch, fit_loop.
  unfold saver_save, call_.
  rewrite seqZ_cons, for_each_cons by lia.
  rewrite !call_bind_result, !call_bind_events.
  rewrite !bind_result, !bind_events.
  match goal with
  | |- context [run_epoch batch step dataset ?acc ?epoch ?w'] =>
      destruct (run_epoch_no_batches batch step dataset acc epoch w'
                  (Hempty w')) as [Hres Hev]
  end.
  rewrite !bind_result, Hres, Hev. done.
Qed.
(** C10. A call of fit with nb_epoch >= 1, on either class, on a dataset
    whose iterbatches yields no minibatch: in the first epoch n_batches is
    still 0 when float(avg_loss) / n_batches is evaluated, and the call ends
    there with an uncaught ZeroDivisionError (after the initial checkpoint
    and the checkpoint of that epoch). *)
Theorem fit_without_minibatches_raises_ZeroDivisionError
    `{!ModelOps, !GraphModel}
    (self : Hyperparams) (batch : BatchParams)
    (self' : TensorflowMultiTaskFitTransformRegressor.Self)
    (dataset : Dataset)
    (nb_epoch max_checkpoints_to_keep log_every_N_batches : Z) (w : World) :
  1 ≤ nb_epoch →
  (∀ batch_size pad_batches w,
     iterbatches dataset batch_size pad_batches w = []) →
  zero_division_in_first_epoch batch dataset nb_epoch max_checkpoints_to_keep
    (TensorflowAdversarialMultiTaskClassifier.fit self batch dataset nb_epoch
       max_checkpoints_to_keep log_every_N_batches w) ∧
  zero_division_in_first_epoch
    (TensorflowMultiTaskFitTransformRegressor.batch self') dataset nb_epoch
    max_checkpoints_to_keep
    (TensorflowMultiTaskFitTransformRegressor.fit self' dataset nb_epoch
       max_checkpoints_to_keep log_every_N_batches w).
Proof.
  intros Hpos Hempty. split; apply fit_loop_no_batches; auto.
Qed.
Lemma emits_ret {A} (P : Event → Prop) (a : A) : emits P (mret a).
Proof. intros w. constructor. Qed.

Lemma emits_lift {A} (P : Event → Prop) (r : Result A) : emits P (lift r).
Proof. intros w. constructor. Qed.

Lemma emits_call {A} (P : Event → Prop) (ev : Event) (value : World → A) :
  P ev → emits P (call ev value).
Proof. intros HP w. simpl. by repeat constructor. Qed.

Lemma emits_bind {A B} (P : Event → Prop) (m : Run A) (k : A → Run B) :
  emits P m → (∀ a, emits P (k a)) → emits P (m ≫= k).
Proof.
  intros Hm Hk w. rewrite bind_events. apply Forall_app. split; [apply Hm|].
  destruct (result (m w)); [apply Hk|constructor].
Qed.

Lemma emits_for_each {A S} (P : Event → Prop) (xs : list A)
    (body : S → A → Run S) (s : S) :
  (∀ s x, emits P (body s x)) → emits P (for_each xs body s).
Proof.
  intros Hbody. revert s. induction xs as [|x xs IH]; intros s; simpl.
  - apply emits_ret.
  - apply emits_bind; [apply Hbody|apply IH].
Qed.

Lemma succeeds_ret {A} (a : A) : succeeds (mret a).
Proof. intros w. by eexists. Qed.

Lemma succeeds_call {A} (ev : Event) (value : World → A) :
  succeeds (call ev value).
Proof. intros w. by eexists. Qed.

Lemma succeeds_bind {A B} (m : Run A) (k : A → Run B) :
  succeeds m → (∀ a, succeeds (k a)) → succeeds (m ≫= k).
Proof.
  intros Hm Hk w. rewrite bind_result.
  destruct (Hm w) as [a ->]. apply Hk.
Qed.

Lemma succeeds_for_each {A S} (xs : list A) (body : S → A → Run S) (s : S) :
  (∀ s x, succeeds (body s x)) → succeeds (for_each xs body s).
Proof.
  intros Hbody. revert s. induction xs as [|x xs IH]; intros s; simpl.
  - apply succeeds_ret.
  - apply succeeds_bind; [apply Hbody|apply IH].
Qed.

Lemma saves_of_not_Save (evs : list Event) :
  Forall not_Save evs → saves_of evs = [].
Proof.
  induction 1 as [|ev evs Hev _ IH]; [done|].
  destruct ev; (exact IH || destruct Hev).
Qed.

Lemma transform_all_emits (P : Event → Prop)
    (fit_transformers : list Transformer) (X : ndarray) :
  (∀ t X, P (XTransform t X)) → emits P (transform_all fit_transformers X).
Proof.
  intros HP. apply emits_for_each. intros X' t. by apply emits_call.
Qed.

Lemma transform_all_succeeds (fit_transformers : list Transformer)
    (X : ndarray) :
  succeeds (transform_all fit_transformers X).
Proof. apply succeeds_for_each. intros X' t. apply succeeds_call. Qed.
Lemma bind_Ok_inv {A B} (m : Run A) (k : A → Run B) (w : World) (b : B) :
  result ((m ≫= k) w) = Ok b →
  ∃ a, result (m w) = Ok a ∧
       result (k a (world (m w))) = Ok b ∧
       events ((m ≫= k) w) = events (m w) ++ events (k a (world (m w))).
Proof.
  rewrite bind_result, bind_events.
  destruct (result (m w)) as [a|e]; [|done]. intros Hk. by exists a.
Qed.

Lemma succeeds_lift {A} (r : Result A) (a : A) : r = Ok a → succeeds (lift r).
Proof. intros -> w. by eexists. Qed.

Lemma last_seqZ (n : Z) : 1 ≤ n → last (seqZ 0 n) = Some (n - 1).
Proof.
  intros Hn. replace n with (Z.of_nat (S (Z.to_nat (n - 1)))) at 1 by lia.
  rewrite seqZ_S, last_snoc. f_equal. lia.
Qed.

(** *** The loops of fit *)

Section FitLoop.
Variables (batch : BatchParams) (dataset : Dataset).
Variable step : nat * (ndarray * ndarray * ndarray * ndarray) → Run float.

Local Abbreviation body := (λ vars item,
  loss ← step item;
  mret {| avg_loss := PrimFloat.add (avg_loss vars) loss;
          n_batches := n_batches vars + 1 |}).

Lemma batch_loop_emits (P : Event → Prop)
    (items : list (nat * (ndarray * ndarray * ndarray * ndarray)))
    (vars : EpochVars) :
  (∀ item, emits P (step item)) → emits P (for_each items body vars).
Proof.
  intros Hstep. apply emits_for_each. intros vars' item.
  apply emits_bind; [apply Hstep|]. intros loss. apply emits_ret.
Qed.

Lemma batch_loop_counts
    (items : list (nat * (ndarray * ndarray * ndarray * ndarray)))
    (vars : EpochVars) (w : World) :
  (∀ item, succeeds (step item)) →
  ∃ vars', result (for_each items body vars w) = Ok vars' ∧
           n_batches vars' = (n_batches vars + length items)%nat.
Proof.
  intros Hstep. revert vars w.
  induction items as [|item items IH]; intros vars w; simpl.
  - exists vars. split; [done|lia].
  - rewrite bind_result, bind_result.
    destruct (Hstep item w) as [loss ->]. simpl.
    edestruct IH as (vars' & -> & Hn). exists vars'. split; [done|].
    rewrite Hn. simpl. lia.
Qed.

(** An epoch that ends normally has saved one checkpoint, at its number. *)
Lemma run_epoch_saves (acc r : option Z) (epoch : Z) (w : World) :
  (∀ item, emits not_Save (step item)) →
  result (run_epoch batch step dataset acc epoch w) = Ok r →
  r = Some epoch ∧
  saves_of (events (run_epoch batch step dataset acc epoch w)) = [epoch].
Proof.
  intros Hstep. unfold run_epoch. intros Hr.
  apply bind_Ok_inv in Hr as (batches & _ & Hr & ->).
  apply bind_Ok_inv in Hr as (vars & _ & Hr & ->).
  apply bind_Ok_inv in Hr as ([] & _ & Hr & ->).
  apply bind_Ok_inv in Hr as (avg & _ & Hr & ->).
  apply bind_Ok_inv in Hr as ([] & _ & Hr & ->).
  simpl in Hr. injection Hr as <-. split; [done|].
  rewrite !saves_of_app.
  rewrite (saves_of_not_Save (events (for_each (M:=Run) _ _ _ _)))
    by (by apply batch_loop_emits).
  reflexivity.
Qed.

Lemma run_epoch_succeeds (acc : option Z) (epoch : Z) (w : World) :
  (∀ item, succeeds (step item)) →
  (∀ w, iterbatches dataset (batch_size batch) (pad_batches batch) w ≠ []) →
  ∃ r, result (run_epoch batch step dataset acc epoch w) = Ok r.
Proof.
  intros Hstep Hbatches. unfold run_epoch.
  rewrite bind_result. simpl. rewrite bind_result.
  edestruct batch_loop_counts as (vars & -> & Hn); [done|].
  rewrite bind_result. simpl. rewrite bind_result. simpl.
  unfold float_div_int. rewrite decide_False; [by eexists|].
  rewrite Hn. simpl. unfold enumerate.
  rewrite length_zip, length_seq, Nat.min_id.
  specialize (Hbatches w).
  destruct (iterbatches dataset (batch_size batch) (pad_batches batch) w);
    [done|simpl; lia].
Qed.

Lemma epochs_save (epochs : list Z) (acc r : option Z) (w : World) :
  (∀ item, emits not_Save (step item)) →
  result (for_each epochs (run_epoch batch step dataset) acc w) = Ok r →
  r = (match last epochs with Some epoch => Some epoch | None => acc end) ∧
  saves_of (events (for_each epochs (run_epoch batch step dataset) acc w))
    = epochs.
Proof.
  intros Hstep. revert acc w.
  induction epochs as [|epoch epochs IH]; intros acc w; simpl.
  - intros [= <-]. done.
  - intros Hr. apply bind_Ok_inv in Hr as (r1 & Hr1 & Hr & ->).
    apply run_epoch_saves in Hr1 as [-> Hsaves]; [|done].
    apply IH in Hr as [-> Hrest].
    rewrite saves_of_app, Hsaves, Hrest. split; [|done].
    rewrite last_cons. by destruct (last epochs).
Qed.

Lemma epochs_succeed (epochs : list Z) (acc : option Z) (w : World) :
  (∀ item, succeeds (step item)) →
  (∀ w, iterbatches dataset (batch_size batch) (pad_batches batch) w ≠ []) →
  ∃ r, result (for_each epochs (run_epoch batch step dataset) acc w) = Ok r.
Proof.
  intros Hstep Hbatches. revert acc w.
  induction epochs as [|epoch epochs IH]; intros acc w; simpl.
  - by eexists.
  - rewrite bind_result.
    destruct (run_epoch_succeeds acc epoch w) as [r1 ->]; [done..|]. apply IH.
Qed.

(** A call of fit that returns has saved exactly the checkpoints of
    [checkpoints_of_fit]. *)
Lemma fit_loop_saves (nb_epoch max_checkpoints_to_keep : Z) (w : World) :
  1 ≤ nb_epoch →
  (∀ item, emits not_Save (step item)) →
  result (fit_loop batch step dataset nb_epoch max_checkpoints_to_keep w)
    = Ok () →
  saves_of
    (events (fit_loop batch step dataset nb_epoch max_checkpoints_to_keep w))
    = checkpoints_of_fit nb_epoch.
Proof.
  intros Hn Hstep. unfold fit_loop. intros Hr.
  apply bind_Ok_inv in Hr as ([] & _ & Hr & ->).
  apply bind_Ok_inv in Hr as ([] & _ & Hr & ->).
  apply bind_Ok_inv in Hr as ([] & _ & Hr & ->).
  apply bind_Ok_inv in Hr as ([] & _ & Hr & ->).
  apply bind_Ok_inv in Hr as (r & Hloop & Hr & ->).
  apply bind_Ok_inv in Hr as (epoch & Hepoch & Hr & ->).
  apply bind_Ok_inv in Hr as ([] & _ & Hr & ->).
  apply epochs_save in Hloop as [-> Hsaves]; [|done].
  rewrite last_seqZ in Hepoch by done. simpl in Hepoch.
  injection Hepoch as <-.
  rewrite !saves_of_app, Hsaves. unfold checkpoints_of_fit. simpl.
  do 3 f_equal. lia.
Qed.

Lemma fit_loop_succeeds (nb_epoch max_checkpoints_to_keep : Z) (w : World) :
  1 ≤ nb_epoch →
  (∀ item, emits not_Save (step item)) →
  (∀ item, succeeds (step item)) →
  (∀ w, iterbatches dataset (batch_size batch) (pad_batches batch) w ≠ []) →
  result (fit_loop batch step dataset nb_epoch max_checkpoints_to_keep w)
    = Ok ().
Proof.
  intros Hn Hemits Hstep Hbatches. unfold fit_loop, saver_save, call_.
  rewrite !call_bind_result, bind_result.
  match goal with
  | |- context [for_each (M:=Run) ?l ?f ?acc ?w'] =>
      destruct (epochs_succeed l acc w') as [r Hloop]; [done..|];
      rewrite Hloop;
      apply epochs_save in Hloop as [-> _]; [|done]
  end.
  rewrite last_seqZ by done.
  rewrite lift_bind_result. cbn [read_local].
  by rewrite call_bind_result.
Qed.
End FitLoop.

(** *** The loop bodies of the two classes *)

Lemma py_mod_Ok (a b : Z) : b ≠ 0 → py_mod a b = Ok (a `mod` b).
Proof. intros Hb. unfold py_mod. by rewrite decide_False. Qed.

Lemma classifier_step_emits `{!ModelOps, !GraphModel} (P : Event → Prop)
    (self : Hyperparams) (batch : BatchParams) (log_every_N_batches : Z)
    (item : nat * (ndarray * ndarray * ndarray * ndarray)) :
  (∀ msg verbose, P (Log msg verbose)) →
  (∀ fetches feed_dict, P (SessRun fetches feed_dict)) →
  emits P (TensorflowAdversarialMultiTaskClassifier.step self batch
             log_every_N_batches item).
Proof.
  intros Hlog Hrun. destruct item as [ind [[[X_b y_b] w_b] ids_b]]. simpl.
  apply emits_bind; [apply emits_lift|]. intros r.
  apply emits_bind; [|intros _; by apply emits_call].
  destruct (decide (r = 0)); [by apply emits_call|apply emits_ret].
Qed.

Lemma classifier_step_succeeds `{!ModelOps, !GraphModel}
    (self : Hyperparams) (batch : BatchParams) (log_every_N_batches : Z)
    (item : nat * (ndarray * ndarray * ndarray * ndarray)) :
  log_every_N_batches ≠ 0 →
  succeeds (TensorflowAdversarialMultiTaskClassifier.step self batch
              log_every_N_batches item).
Proof.
  intros HN. destruct item as [ind [[[X_b y_b] w_b] ids_b]]. simpl.
  apply succeeds_bind; [by eapply succeeds_lift, py_mod_Ok|]. intros r.
  apply succeeds_bind; [|intros _; apply succeeds_call].
  destruct (decide (r = 0)); [apply succeeds_call|apply succeeds_ret].
Qed.

Lemma regressor_step_emits `{!ModelOps, !GraphModel} (P : Event → Prop)
    (self : TensorflowMultiTaskFitTransformRegressor.Self)
    (log_every_N_batches : Z)
    (item : nat * (ndarray * ndarray * ndarray * ndarray)) :
  (∀ msg verbose, P (Log msg verbose)) →
  (∀ t X, P (XTransform t X)) →
  (∀ fetches feed_dict, P (SessRun fetches feed_dict)) →
  emits P (TensorflowMultiTaskFitTransformRegressor.step self
             log_every_N_batches item).
Proof.
  intros Hlog Htr Hrun. destruct item as [ind [[[X_b y_b] w_b] ids_b]]. simpl.
  apply emits_bind; [apply emits_lift|]. intros r.
  apply emits_bind.
  { destruct (decide (r = 0)); [by apply emits_call|apply emits_ret]. }
  intros _. apply emits_bind; [by apply transform_all_emits|].
  intros X'. by apply emits_call.
Qed.

Lemma regressor_step_succeeds `{!ModelOps, !GraphModel}
    (self : TensorflowMultiTaskFitTransformRegressor.Self)
    (log_every_N_batches : Z)
    (item : nat * (ndarray * ndarray * ndarray * ndarray)) :
  log_every_N_batches ≠ 0 →
  succeeds (TensorflowMultiTaskFitTransformRegressor.step self
              log_every_N_batches item).
Proof.
  intros HN. destruct item as [ind [[[X_b y_b] w_b] ids_b]]. simpl.
  apply succeeds_bind; [by eapply succeeds_lift, py_mod_Ok|]. intros r.
  apply succeeds_bind.
  { destruct (decide (r = 0)); [apply succeeds_call|apply succeeds_ret]. }
  intros _. apply succeeds_bind; [apply transform_all_succeeds|].
  intros X'. apply succeeds_call.
Qed.

Lemma checkpoints_of_fit_second (nb_epoch : Z) :
  1 ≤ nb_epoch → checkpoints_of_fit nb_epoch !! 1%nat = Some 0.
Proof.
  intros Hn. unfold checkpoints_of_fit. by rewrite seqZ_cons by lia.
Qed.

Lemma fit_loop_checkpoints (batch : BatchParams)
    (step : nat * (ndarray * ndarray * ndarray * ndarray) → Run float)
    (dataset : Dataset)
    (nb_epoch max_checkpoints_to_keep log_every_N_batches : Z) (w : World) :
  1 ≤ nb_epoch →
  (∀ item, emits not_Save (step item)) →
  (log_every_N_batches ≠ 0 → ∀ item, succeeds (step item)) →
  fit_checkpoints_spec batch dataset nb_epoch log_every_N_batches
    (fit_loop batch step dataset nb_epoch max_checkpoints_to_keep w).
Proof.
  intros Hn Hemits Hsucceeds. split.
  - intros Hr. rewrite fit_loop_saves by done.
    split; [done|by apply checkpoints_of_fit_second].
  - intros HN Hbatches. apply fit_loop_succeeds; auto.
Qed.

(** C4 (amended). A call of fit with nb_epoch >= 1, on either class, that
    returns has saved exactly these checkpoints, in this order: one at
    global_step 0 before any training, one at global_step e at the end of
    each epoch e of 0 .. nb_epoch - 1, and a final one at global_step
    nb_epoch; so the checkpoint saved after the first epoch reuses
    global_step 0.  The call returns whenever log_every_N_batches is not 0
    and the dataset yields at least one minibatch each time it is
    iterated. *)
Theorem fit_checkpoints `{!ModelOps, !GraphModel}
    (self : Hyperparams) (batch : BatchParams)
    (self' : TensorflowMultiTaskFitTransformRegressor.Self)
    (dataset : Dataset)
    (nb_epoch max_checkpoints_to_keep log_every_N_batches : Z) (w : World) :
  1 ≤ nb_epoch →
  fit_checkpoints_spec batch dataset nb_epoch log_every_N_batches
    (TensorflowAdversarialMultiTaskClassifier.fit self batch dataset nb_epoch
       max_checkpoints_to_keep log_every_N_batches w) ∧
  fit_checkpoints_spec (TensorflowMultiTaskFitTransformRegressor.batch self')
    dataset nb_epoch log_every_N_batches
    (TensorflowMultiTaskFitTransformRegressor.fit self' dataset nb_epoch
       max_checkpoints_to_keep log_every_N_batches w).
Proof.
  intros Hn. split; apply fit_loop_checkpoints; try done.
  - intros item. by apply classifier_step_emits.
  - intros HN item. by apply classifier_step_succeeds.
  - intros item. by apply regressor_step_emits.
  - intros HN item. by apply regressor_step_succeeds.
Qed.
End RunLemmas.

(** ** Transformations on the fly *)

Section Traces.
Context `{Framework}.
Variable Q : list Event → Prop.
Hypothesis Q_nil : Q [].
Hypothesis Q_app : ∀ evs evs', Q evs → Q evs' → Q (evs ++ evs').

Lemma leaves_ret {A} (a : A) : leaves Q (mret a).
Proof. intros w. exact Q_nil. Qed.

Lemma leaves_lift {A} (r : Result A) : leaves Q (lift r).
Proof. intros w. exact Q_nil. Qed.

Lemma leaves_call {A} (ev : Event) (value : World → A) :
  Q [ev] → leaves Q (call ev value).
Proof. intros Hev w. exact Hev. Qed.

Lemma leaves_bind {A B} (m : Run A) (k : A → Run B) :
  leaves Q m → (∀ a, leaves Q (k a)) → leaves Q (m ≫= k).
Proof.
  intros Hm Hk w. rewrite bind_events. apply Q_app; [apply Hm|].
  destruct (result (m w)); [apply Hk|exact Q_nil].
Qed.

Lemma leaves_for_each {A S} (xs : list A) (body : S → A → Run S) (s : S) :
  (∀ s x, x ∈ xs → leaves Q (body s x)) → leaves Q (for_each xs body s).
Proof.
  revert s. induction xs as [|x xs IH]; intros s Hbody.
  - apply leaves_ret.
  - rewrite for_each_cons. apply leaves_bind.
    + apply Hbody. left.
    + intros s'. apply IH. intros s'' x' Hx'. apply Hbody. by right.
Qed.

(** The traces of fit, whatever the loop body does with the minibatches the
    dataset yields. *)
Lemma fit_loop_leaves (batch : BatchParams)
    (step : nat * (ndarray * ndarray * ndarray * ndarray) → Run float)
    (dataset : Dataset) (nb_epoch max_checkpoints_to_keep : Z) :
  (∀ msg verbose, Q [Log msg verbose]) →
  Q [InitVariables] →
  (∀ max_to_keep, Q [NewSaver max_to_keep]) →
  (∀ global_step, Q [Save global_step]) →
  (∀ batch_size pad_batches, Q [IterBatches dataset batch_size pad_batches]) →
  (∀ ind minibatch w,
     minibatch ∈
       iterbatches dataset (batch_size batch) (pad_batches batch) w →
     leaves Q (step (ind, minibatch))) →
  leaves Q (fit_loop batch step dataset nb_epoch max_checkpoints_to_keep).
Proof.
  intros Hlog Hinit Hsaver Hsave Hiter Hstep.
  assert (∀ epoch vars,
    leaves Q (_ ← saver_save epoch;
              avg_loss ← lift (float_div_int (avg_loss vars)
                                 (Z.of_nat (n_batches vars)));
              _ ← call_ (Log (EndingEpoch epoch avg_loss) (verbose batch));
              mret (Some epoch))) as Hend.
  { intros epoch vars. apply leaves_bind; [by apply leaves_call|]. intros _.
    apply leaves_bind; [apply leaves_lift|]. intros avg.
    apply leaves_bind; [by apply leaves_call|]. intros _. apply leaves_ret. }
  assert (∀ acc epoch, leaves Q (run_epoch batch step dataset acc epoch))
    as Hepoch.
  { intros acc epoch w. unfold run_epoch. rewrite call_bind_events.
    apply (Q_app [_]); [apply Hiter|].
    apply leaves_bind; [|intros vars; apply Hend].
    apply leaves_for_each. intros vars [ind minibatch] Hitem.
    apply leaves_bind; [|intros loss; apply leaves_ret].
    apply (Hstep ind minibatch w). unfold enumerate in Hitem.
    by apply elem_of_zip_r in Hitem. }
  unfold fit_loop.
  apply leaves_bind; [by apply leaves_call|]. intros _.
  apply leaves_bind; [by apply leaves_call|]. intros _.
  apply leaves_bind; [by apply leaves_call|]. intros _.
  apply leaves_bind; [by apply leaves_call|]. intros _.
  apply leaves_bind.
  { apply leaves_for_each. intros acc epoch _. apply Hepoch. }
  intros r. apply leaves_bind; [apply leaves_lift|]. intros epoch.
  apply leaves_bind; [by apply leaves_call|]. intros _.
  by apply leaves_call.
Qed.
End Traces.

Section TransformAll.
Context `{Framework}.

Lemma call_bind_world {A B} (ev : Event) (value : World → A)
    (k : A → Run B) (w : World) :
  world ((call ev value ≫= k) w) = world (k (value w) (after ev w)).
Proof. by rewrite bind_world. Qed.

Lemma transform_all_in_order (ts : list Transformer) (X : ndarray)
    (w : World) :
  ∃ X',
    result (transform_all ts X w) = Ok X' ∧
    transformed_in_order ts X w (events (transform_all ts X w)) X'
      (world (transform_all ts X w)).
Proof.
  revert X w. induction ts as [|t ts IH]; intros X w.
  - exists X. split; [done|]. constructor.
  - unfold transform_all. rewrite for_each_cons.
    rewrite call_bind_result, call_bind_events, call_bind_world.
    destruct (IH (X_transform t X w) (after (XTransform t X) w))
      as (X' & Hres & Hord).
    exists X'. split; [done|]. by constructor.
Qed.

Lemma transformed_in_order_events (ts : list Transformer) (X X' : ndarray)
    (w w' : World) (evs : list Event) :
  transformed_in_order ts X w evs X' w' →
  Forall (λ ev, ∀ fetches feed_dict, ev ≠ SessRun fetches feed_dict) evs.
Proof. induction 1; constructor; done. Qed.

(** A trace that ends with its only session run splits in one way. *)
Lemma split_at_last_run (pre before rest : list Event)
    (fetches fetches' : Fetches) (feed_dict feed_dict' : FeedDict) :
  Forall (λ ev, ∀ fetches feed_dict, ev ≠ SessRun fetches feed_dict) pre →
  pre ++ [SessRun fetches feed_dict]
    = before ++ SessRun fetches' feed_dict' :: rest →
  before = pre ∧ feed_dict' = feed_dict.
Proof.
  intros Hpre. revert before.
  induction Hpre as [|ev pre Hev _ IH]; intros before E.
  - destruct before as [|ev' before]; simpl in E.
    + by injection E as _ <-.
    + injection E as _ E. by destruct before.
  - destruct before as [|ev' before]; simpl in E.
    + injection E as -> _. by destruct (Hev fetches' feed_dict').
    + injection E as <- E. apply IH in E as [-> ->]. done.
Qed.
End TransformAll.

Section FitTransformFit.
Context `{!ModelOps, !GraphModel, Framework}.
Variable self : TensorflowMultiTaskFitTransformRegressor.Self.
Variable dataset : Dataset.

Lemma ret_bind_result {A B} (a : A) (k : A → Run B) (w : World) :
  result ((mret a ≫= k) w) = result (k a w).
Proof. by rewrite bind_result. Qed.

Lemma ret_bind_events {A B} (a : A) (k : A → Run B) (w : World) :
  events ((mret a ≫= k) w) = events (k a w).
Proof. by rewrite bind_events. Qed.

Lemma ret_bind_world {A B} (a : A) (k : A → Run B) (w : World) :
  world ((mret a ≫= k) w) = world (k a w).
Proof. by rewrite bind_world. Qed.

Lemma lift_bind_world {A B} (r : Result A) (k : A → Run B) (w : World) :
  world ((lift r ≫= k) w) =
  match r with Ok a => world (k a w) | Raise e => w end.
Proof. by rewrite bind_world. Qed.

Lemma fit_step_spec (log_every_N_batches : Z) (ind : nat)
    (minibatch : ndarray * ndarray * ndarray * ndarray) (w : World) :
  log_every_N_batches ≠ 0 →
  step_spec self ind minibatch w
    (TensorflowMultiTaskFitTransformRegressor.step self log_every_N_batches
       (ind, minibatch) w).
Proof.
  intros HN. destruct minibatch as [[[X_b y_b] w_b] ids_b].
  unfold step_spec, TensorflowMultiTaskFitTransformRegressor.step.
  rewrite lift_bind_result, lift_bind_events, py_mod_Ok by done.
  destruct (decide (Z.of_nat ind `mod` log_every_N_batches = 0)).
  - unfold call_. rewrite call_bind_result, call_bind_events.
    rewrite bind_result, bind_events.
    destruct (transform_all_in_order
                (TensorflowMultiTaskFitTransformRegressor.fit_transformers self)
                X_b (after (Log (OnBatch ind)
                  (verbose (TensorflowMultiTaskFitTransformRegressor.batch
                              self))) w)) as (X' & -> & Hord).
    eexists [_], _, X', _. split; [by right|]. split; [exact Hord|].
    split; reflexivity.
  - rewrite ret_bind_result, ret_bind_events.
    rewrite bind_result, bind_events.
    destruct (transform_all_in_order
                (TensorflowMultiTaskFitTransformRegressor.fit_transformers self)
                X_b w) as (X' & -> & Hord).
    eexists [], _, X', _. split; [by left|]. split; [exact Hord|].
    split; reflexivity.
Qed.

Lemma feeds_follow_transforms_nil : feeds_follow_transforms self dataset [].
Proof. intros before fetches feed_dict rest E. by destruct before. Qed.

Lemma feeds_follow_transforms_call (ev : Event) :
  (∀ fetches feed_dict, ev ≠ SessRun fetches feed_dict) →
  feeds_follow_transforms self dataset [ev].
Proof.
  intros Hev before fetches feed_dict rest E.
  destruct before as [|ev' before]; simpl in E.
  - injection E as -> _. by destruct (Hev fetches feed_dict).
  - injection E as _ E. by destruct before.
Qed.

Lemma fed_after_transforms_later (earlier before : list Event)
    (feed_dict : FeedDict) :
  fed_after_transforms self dataset before feed_dict →
  fed_after_transforms self dataset (earlier ++ before) feed_dict.
Proof.
  intros (X_b & y_b & w_b & ids_b & pre & evs & w & X' & w'
          & Hdrawn & -> & Hord & ->).
  exists X_b, y_b, w_b, ids_b, (earlier ++ pre), evs, w, X', w'.
  by rewrite app_assoc.
Qed.

Lemma feeds_follow_transforms_app (evs evs' : list Event) :
  feeds_follow_transforms self dataset evs →
  feeds_follow_transforms self dataset evs' →
  feeds_follow_transforms self dataset (evs ++ evs').
Proof.
  intros Hevs Hevs' before fetches feed_dict rest E.
  apply List.app_eq_app in E as (mid & [[-> E]|[-> E]]).
  - destruct mid as [|ev mid]; simpl in E.
    + rewrite <-(app_nil_r before).
      apply fed_after_transforms_later. by apply (Hevs' [] fetches _ rest).
    + injection E as <- ->. by eapply Hevs.
  - apply fed_after_transforms_later. by eapply Hevs'.
Qed.

Lemma fit_step_leaves (log_every_N_batches : Z) (ind : nat)
    (minibatch : ndarray * ndarray * ndarray * ndarray) :
  drawn self dataset minibatch →
  leaves (feeds_follow_transforms self dataset)
    (TensorflowMultiTaskFitTransformRegressor.step self log_every_N_batches
       (ind, minibatch)).
Proof.
  intros Hdrawn w.
  destruct (decide (log_every_N_batches = 0)) as [->|HN].
  - destruct minibatch as [[[X_b y_b] w_b] ids_b].
    unfold TensorflowMultiTaskFitTransformRegressor.step.
    rewrite lift_bind_events. apply feeds_follow_transforms_nil.
  - pose proof (fit_step_spec log_every_N_batches ind minibatch w HN) as Hspec.
    destruct minibatch as [[[X_b y_b] w_b] ids_b].
    destruct Hspec as (logs & evs & X' & w' & Hlogs & Hord & Hev & _).
    rewrite Hev. intros before fetches feed_dict rest E.
    rewrite app_assoc in E. apply split_at_last_run in E as [-> ->].
    + by exists X_b, y_b, w_b, ids_b, logs, evs, (world_after logs w), X', w'.
    + apply Forall_app. split.
      * destruct Hlogs as [->| ->]; repeat constructor; done.
      * by eapply transformed_in_order_events.
Qed.

Lemma fit_feeds_follow_transforms
    (nb_epoch max_checkpoints_to_keep log_every_N_batches : Z) :
  leaves (feeds_follow_transforms self dataset)
    (TensorflowMultiTaskFitTransformRegressor.fit self dataset nb_epoch
       max_checkpoints_to_keep log_every_N_batches).
Proof.
  apply fit_loop_leaves;
    try (intros; by apply feeds_follow_transforms_call).
  - apply feeds_follow_transforms_nil.
  - apply feeds_follow_transforms_app.
  - intros ind minibatch w Hin. apply fit_step_leaves. by exists w.
Qed.
End FitTransformFit.

Section RunsTo.
Context `{Framework}.

Lemma runs_to_ret {A} (a : A) (w : World) : runs_to (mret a) w a [] w.
Proof. done. Qed.

Lemma runs_to_lift {A} (r : Result A) (a : A) (w : World) :
  r = Ok a → runs_to (lift r) w a [] w.
Proof. by intros ->. Qed.

Lemma runs_to_call {A} (ev : Event) (value : World → A) (w : World) :
  runs_to (call ev value) w (value w) [ev] (after ev w).
Proof. done. Qed.

Lemma runs_to_bind {A B} (m : Run A) (k : A → Run B) (w w1 w2 : World)
    (a : A) (b : B) (evs1 evs2 : list Event) :
  runs_to m w a evs1 w1 →
  runs_to (k a) w1 b evs2 w2 →
  runs_to (m ≫= k) w b (evs1 ++ evs2) w2.
Proof.
  intros (Hr1 & He1 & Hw1) (Hr2 & He2 & Hw2). unfold runs_to.
  rewrite bind_result, bind_events, bind_world, Hr1, He1, Hw1.
  by rewrite Hr2, He2, Hw2.
Qed.

Lemma transform_all_runs (ts : list Transformer) (X : ndarray) (w : World) :
  ∃ X' evs w',
    runs_to (transform_all ts X) w X' evs w' ∧
    transformed_in_order ts X w evs X' w'.
Proof.
  destruct (transform_all_in_order ts X w) as (X' & Hres & Hord).
  by eexists X', _, _.
Qed.
End RunsTo.

Section FitTransformPredict.
Context `{!ModelOps, !GraphModel, Framework}.
Variable self : TensorflowMultiTaskFitTransformRegressor.Self.
Variable X : ndarray.

Local Abbreviation ts :=
  (TensorflowMultiTaskFitTransformRegressor.fit_transformers self).
Local Abbreviation hyper :=
  (TensorflowMultiTaskFitTransformRegressor.hyper self).
Local Abbreviation batch :=
  (TensorflowMultiTaskFitTransformRegressor.batch self).

Lemma copies_loop (n a : nat) (acc : list ndarray) (t : option ndarray)
    (w : World) :
  ∃ Xs evs w',
    transformed_copies ts X n w evs Xs w' ∧ length Xs = n ∧
    runs_to
      (for_each (seq a n)
         (TensorflowMultiTaskFitTransformRegressor.transformed_copy self X)
         {| TensorflowMultiTaskFitTransformRegressor.X_evals := acc;
            TensorflowMultiTaskFitTransformRegressor.X_t := t |})
      w
      {| TensorflowMultiTaskFitTransformRegressor.X_evals := acc ++ Xs;
         TensorflowMultiTaskFitTransformRegressor.X_t :=
           match last Xs with Some X_t => Some X_t | None => t end |}
      evs w'.
Proof.
  revert a acc t w. induction n as [|n IH]; intros a acc t w.
  - exists [], [], w. split; [constructor|]. split; [done|].
    rewrite app_nil_r. apply runs_to_ret.
  - destruct (transform_all_runs ts X w) as (X' & evs & w1 & Hrun & Hord).
    destruct (IH (S a) (acc ++ [X']) (Some X') w1)
      as (Xs & evs' & w2 & Hcopies & Hlen & Hloop).
    exists (X' :: Xs), (evs ++ evs'), w2.
    split; [by econstructor|]. split; [simpl; lia|].
    simpl seq. rewrite for_each_cons.
    rewrite last_cons, cons_middle, app_assoc.
    replace (match match last Xs with Some y => Some y | None => Some X' end
             with Some X_t => Some X_t | None => t end)
      with (match last Xs with Some X_t => Some X_t | None => Some X' end)
      by (by destruct (last Xs)).
    eapply runs_to_bind; [|exact Hloop].
    unfold TensorflowMultiTaskFitTransformRegressor.transformed_copy.
    rewrite <-(app_nil_r evs).
    eapply runs_to_bind; [exact Hrun|]. apply runs_to_ret.
Qed.

Lemma arranged_Ok (n_tasks n_samples : nat) (batch_outputs : ndarray) :
  (1 ≤ ndim batch_outputs ≤ 3)%nat →
  ∃ r, TensorflowMultiTaskFitTransformRegressor.arranged n_tasks X n_samples
         batch_outputs = Ok r.
Proof.
  intros Hrank. unfold TensorflowMultiTaskFitTransformRegressor.arranged.
  repeat case_decide; try by eexists. lia.
Qed.

(** Every array of fetched outputs has rank 1, 2 or 3. *)
Hypothesis ranks : ∀ feed_dict w,
  (1 ≤ ndim (np_asarray (take (n_tasks hyper)
                           (fetched_output EvalOutput feed_dict w))) ≤ 3)%nat.

Lemma evaluate_runs (X_evals : list ndarray) (i : nat) (X_i : ndarray)
    (vars : TensorflowMultiTaskFitTransformRegressor.EvalVars) (w : World) :
  X_evals !! i = Some X_i →
  let feed_dict :=
    TensorflowMultiTaskRegressor.construct_feed_dict hyper batch
      X_i None None None in
  ∃ out n',
    run_output self X
      (TensorflowMultiTaskFitTransformRegressor.n_samples vars)
      (fetched_output EvalOutput feed_dict w) = Ok (out, n') ∧
    runs_to
      (TensorflowMultiTaskFitTransformRegressor.evaluate self X X_evals vars i)
      w
      {| TensorflowMultiTaskFitTransformRegressor.outputs :=
           TensorflowMultiTaskFitTransformRegressor.outputs vars ++ [out];
         TensorflowMultiTaskFitTransformRegressor.n_samples := n' |}
      [SessRun EvalOutput feed_dict]
      (after (SessRun EvalOutput feed_dict) w).
Proof.
  intros Hi feed_dict.
  destruct (arranged_Ok (n_tasks hyper)
              (TensorflowMultiTaskFitTransformRegressor.n_samples vars)
              (np_asarray (take (n_tasks hyper)
                             (fetched_output EvalOutput feed_dict w))))
    as [[batch_outputs n'] Harr]; [apply ranks|].
  exists (np_squeeze (np_concatenate [take_rows batch_outputs n'])), n'.
  split.
  - unfold run_output. by rewrite Harr.
  - unfold TensorflowMultiTaskFitTransformRegressor.evaluate.
    change [SessRun EvalOutput feed_dict]
      with ([] ++ [SessRun EvalOutput feed_dict] ++ [] ++ []).
    eapply runs_to_bind; [by apply runs_to_lift, getitem_Some|].
    eapply runs_to_bind; [apply runs_to_call|].
    eapply runs_to_bind; [apply runs_to_lift, Harr|].
    apply runs_to_ret.
Qed.

Lemma eval_loop (Xs pre : list ndarray)
    (vars : TensorflowMultiTaskFitTransformRegressor.EvalVars) (w : World) :
  ∃ outs evs w' n',
    evaluated self X Xs
      (TensorflowMultiTaskFitTransformRegressor.n_samples vars) w evs outs w' ∧
    length outs = length Xs ∧
    runs_to
      (for_each (seq (length pre) (length Xs))
         (TensorflowMultiTaskFitTransformRegressor.evaluate self X
            (pre ++ Xs)) vars)
      w
      {| TensorflowMultiTaskFitTransformRegressor.outputs :=
           TensorflowMultiTaskFitTransformRegressor.outputs vars ++ outs;
         TensorflowMultiTaskFitTransformRegressor.n_samples := n' |}
      evs w'.
Proof.
  revert pre vars w. induction Xs as [|X_i Xs IH]; intros pre vars w.
  - exists [], [], w,
      (TensorflowMultiTaskFitTransformRegressor.n_samples vars).
    split; [constructor|]. split; [done|].
    destruct vars as [outputs n_samples].
    cbn [TensorflowMultiTaskFitTransformRegressor.outputs
         TensorflowMultiTaskFitTransformRegressor.n_samples].
    rewrite (app_nil_r outputs). apply runs_to_ret.
  - destruct (evaluate_runs (pre ++ X_i :: Xs) (length pre) X_i vars w)
      as (out & n1 & Hout & Hrun).
    { by rewrite list_lookup_middle. }
    destruct (IH (pre ++ [X_i])
                {| TensorflowMultiTaskFitTransformRegressor.outputs :=
                     TensorflowMultiTaskFitTransformRegressor.outputs vars
                     ++ [out];
                   TensorflowMultiTaskFitTransformRegressor.n_samples := n1 |}
                (after (SessRun EvalOutput
                          (TensorflowMultiTaskRegressor.construct_feed_dict
                             hyper batch X_i None None None)) w))
      as (outs & evs & w' & n' & Hev & Hlen & Hloop).
    eexists (out :: outs), (_ :: evs), w', n'.
    split; [by econstructor|]. split; [simpl; lia|].
    simpl length. simpl seq. rewrite for_each_cons.
    rewrite length_app, Nat.add_1_r, <-app_assoc in Hloop. simpl in Hloop.
    rewrite <-app_assoc in Hloop.
    eapply (runs_to_bind _ _ _ _ _ _ _ [_]); [exact Hrun|exact Hloop].
Qed.

Lemma predict_on_batch_spec (w : World) :
  (0 < TensorflowMultiTaskFitTransformRegressor.n_evals self)%nat →
  pad_batches batch = false →
  predict_spec self X w
    (TensorflowMultiTaskFitTransformRegressor.predict_on_batch self X w).
Proof.
  intros Hn Hpad.
  destruct (copies_loop (TensorflowMultiTaskFitTransformRegressor.n_evals self)
              0 [] None w) as (Xs & evsT & wT & Hcopies & Hlen & Hloop).
  destruct Xs as [|X_0 Xs']; [simpl in Hlen; lia|].
  destruct (last (X_0 :: Xs')) as [X_last|] eqn:Hlast;
    [|by apply last_None in Hlast].
  set (evsR := if TensorflowMultiTaskFitTransformRegressor._restored_model self
               then [] else [Restore] : list Event).
  destruct (eval_loop (X_0 :: Xs') []
              {| TensorflowMultiTaskFitTransformRegressor.outputs := [];
                 TensorflowMultiTaskFitTransformRegressor.n_samples :=
                   np_len X_0 |} (world_after evsR wT))
    as (outs & evsE & wE & n' & Hev & Hlen' & Heval).
  exists (X_0 :: Xs'), X_0, X_last, evsT, wT, evsR, outs, evsE, wE.
  repeat (split; [done || congruence|]).
  cut (runs_to
         (TensorflowMultiTaskFitTransformRegressor.predict_on_batch self X) w
         (TensorflowMultiTaskFitTransformRegressor.averaged outs
            (np_len X_last))
         (evsT ++ [] ++ [] ++ evsR ++ [] ++ evsE ++ []) wE).
  { rewrite app_nil_r. intros (Hres & Hevs & Hw). done. }
  unfold TensorflowMultiTaskFitTransformRegressor.predict_on_batch.
  eapply runs_to_bind; [exact Hloop|].
  cbn [TensorflowMultiTaskFitTransformRegressor.X_t
       TensorflowMultiTaskFitTransformRegressor.X_evals].
  eapply runs_to_bind; [by apply runs_to_lift|].
  rewrite Hpad.
  eapply runs_to_bind; [apply runs_to_ret|].
  eapply (runs_to_bind _ _ _ (world_after evsR wT) _ ()).
  { unfold evsR.
    destruct (TensorflowMultiTaskFitTransformRegressor._restored_model self);
      [apply runs_to_ret|apply runs_to_call]. }
  eapply runs_to_bind; [by apply runs_to_lift|].
  rewrite <-Hlen. simpl in Heval.
  eapply runs_to_bind; [exact Heval|]. apply runs_to_ret.
Qed.
End FitTransformPredict.

(** C3. TensorflowMultiTaskFitTransformRegressor transforms on the fly.
    In fit, every feed dictionary handed to the session is built from a
    minibatch of the dataset whose X_b has just been passed through every
    transformer of fit_transformers, in list order
    ([feeds_follow_transforms]); and the loop body does so with each
    minibatch it is given ([step_spec]).  In predict_on_batch, X is
    transformed n_evals times, each time through all the transformers
    starting from X itself, the model is run once on each transformed copy,
    and the value returned is the mean of the n_evals outputs along their
    first axis ([predict_spec]; this for n_evals >= 1, without padding and
    with outputs of rank 1, 2 or 3, as otherwise the method raises). *)
Theorem fit_transform_regressor_transforms_on_the_fly
    `{!ModelOps, !GraphModel, Framework}
    (self : TensorflowMultiTaskFitTransformRegressor.Self)
    (dataset : Dataset)
    (nb_epoch max_checkpoints_to_keep log_every_N_batches : Z)
    (X : ndarray) (w : World) :
  feeds_follow_transforms self dataset
    (events (TensorflowMultiTaskFitTransformRegressor.fit self dataset
               nb_epoch max_checkpoints_to_keep log_every_N_batches w)) ∧
  (log_every_N_batches ≠ 0 →
   ∀ ind minibatch w,
     step_spec self ind minibatch w
       (TensorflowMultiTaskFitTransformRegressor.step self
          log_every_N_batches (ind, minibatch) w)) ∧
  ((0 < TensorflowMultiTaskFitTransformRegressor.n_evals self)%nat →
   pad_batches (TensorflowMultiTaskFitTransformRegressor.batch self)
     = false →
   (∀ feed_dict w,
      (1 ≤ ndim (np_asarray
                   (take (n_tasks
                            (TensorflowMultiTaskFitTransformRegressor.hyper
                               self))
                      (fetched_output EvalOutput feed_dict w))) ≤ 3)%nat) →
   predict_spec self X w
     (TensorflowMultiTaskFitTransformRegressor.predict_on_batch self X w)).
Proof.
  split; [apply fit_feeds_follow_transforms|]. split.
  - intros HN ind minibatch w'. by apply fit_step_spec.
  - intros Hn Hpad Hranks. by apply predict_on_batch_spec.
Qed.

(** ** The example script *)

(** C8 (the code departs from it). Run from an empty module namespace, the
    script raises NameError at line 20: it reads [datasets], which no
    statement of the script binds (line 19 binds [dataset]), so the model is
    never constructed, fitted or evaluated. *)
Theorem gdb7_script_reads_unbound_datasets :
  run_script gdb7_tf_model ∅ = inr (20%nat, NameError "datasets") ∧
  Forall (λ s, "datasets" ∉ binds s) gdb7_tf_model ∧
  (∃ s, s ∈ gdb7_tf_model ∧ line s = 19%nat ∧ "dataset" ∈ binds s).
Proof.
  split; [by vm_compute|]. split.
  - unfold gdb7_tf_model. repeat constructor; simpl; set_solver.
  - eexists. split; [by apply (list_elem_of_lookup_2 _ 11)|].
    simpl. split; [done|set_solver].
Qed.

(** * Further properties *)

(** ** Which assertion fails *)

Lemma checked_n_layers_unequal (self : Hyperparams) :
  ¬ equal_lengths self →
  checked_n_layers self
    = Raise (AssertionError "All layer params must have same length.").
Proof.
  intros Hne. unfold checked_n_layers.
  rewrite decide_False; [done|]. by rewrite lengths_set_size.
Qed.

Lemma checked_n_layers_empty (self : Hyperparams) :
  equal_lengths self → length (layer_sizes self) = 0%nat →
  checked_n_layers self
    = Raise (AssertionError "Must have some layers defined.").
Proof.
  intros (H1 & H2 & H3) H0. unfold checked_n_layers.
  rewrite decide_True by (by apply lengths_set_size).
  rewrite lengths_set_equal, set_pop_singleton by done. simpl.
  rewrite decide_False; [done|lia].
Qed.

(** X1. Each of the four graph builders reports unequal lengths of the layer
    parameter lists with the message of the first assertion, and lists of
    one length that are empty with the message of the second; the first
    assertion takes precedence. *)
Theorem graph_builders_assertion_messages `{ModelOps, GraphModel}
    (self : Hyperparams) (x : Tensor) (training : bool) :
  ∀ r,
    r ∈ [ returned (TensorflowMultiTaskClassifier.build self training);
          returned (TensorflowMultiTaskRegressor.build self training);
          TensorflowAdversarialMultiTaskClassifier.model self x training;
          TensorflowAdversarialMultiTaskRegressor.model self x training ] →
    (¬ equal_lengths self →
     r = Raise (AssertionError "All layer params must have same length.")) ∧
    (equal_lengths self → length (layer_sizes self) = 0%nat →
     r = Raise (AssertionError "Must have some layers defined.")).
Proof.
  intros r Hr.
  assert (∀ {A} x (k : Locals → Result A) e,
            checked_n_layers self = Raise e →
            (hidden_layers self x training ≫= k) = Raise e) as Hraise.
  { intros A x' k e E. unfold hidden_layers. by rewrite E. }
  repeat (apply elem_of_cons in Hr as [->|Hr]);
    [..|by apply elem_of_nil in Hr];
    (split; [intros Hne|intros Heq Hzero]);
    apply Hraise;
    (by apply checked_n_layers_unequal) || (by apply checked_n_layers_empty).
Qed.

(** ** The graphs of the adversarial classes *)

Section AdversarialGraphs.
Context `{GraphModel}.
Variable model : Tensor → bool → Result (list Tensor).

Lemma adversarial_graph_raises (x : Tensor) (training : bool)
    (seed : option Z) :
  (∀ x training, raises_AssertionError (model x training)) →
  raises_AssertionError (adversarial_graph model x training seed).
Proof.
  intros Hmodel. unfold adversarial_graph.
  destruct (Hmodel x training) as [msg ->]. by exists msg.
Qed.

Lemma adversarial_graph_returns_any (x : Tensor) (training : bool)
    (seed : option Z) :
  (∀ x training, returns (model x training)) →
  returns (adversarial_graph model x training seed).
Proof.
  intros Hmodel. unfold adversarial_graph.
  destruct (Hmodel x training) as [output ->]. simpl.
  destruct training; [|by eexists].
  match goal with
  | |- context [model ?adv_x true] =>
      destruct (Hmodel adv_x true) as [adv_output ->]
  end.
  by eexists.
Qed.

(** The graph for evaluation has no adversarial part. *)
Lemma adversarial_graph_eval (x : Tensor) (seed : option Z)
    (g : TensorflowGraph) :
  adversarial_graph model x false seed = Ok g →
  ∃ output,
    model x false = Ok output ∧
    g = {| graph_seed := seed;
           output := add_output_ops output;
           labels := add_label_placeholders;
           weights := add_example_weight_placeholders;
           loss := None |}.
Proof.
  unfold adversarial_graph.
  destruct (model x false) as [output|e]; simpl; [|done].
  intros [= <-]. by exists output.
Qed.

(** The graph for training returns the outputs of the model on the clean
    input, as they are. *)
Lemma adversarial_graph_train_output (x : Tensor) (seed : option Z)
    (g : TensorflowGraph) :
  adversarial_graph model x true seed = Ok g →
  model x true = Ok (output g) ∧
  graph_seed g = seed ∧
  labels g = add_label_placeholders ∧
  weights g = add_example_weight_placeholders ∧
  is_Some (loss g).
Proof.
  unfold adversarial_graph.
  destruct (model x true) as [output|e]; simpl; [|done].
  match goal with
  | |- context [model ?adv_x true] =>
      destruct (model adv_x true) as [adv_output|e]; simpl; [|done]
  end.
  intros [= <-]. simpl. eauto.
Qed.
End AdversarialGraphs.

(** X2. construct_graph of both adversarial classes, in either mode and
    with any seed, raises AssertionError exactly when the layer parameters
    are not valid, and returns a graph exactly when they are: the assertions
    of model are the only way it fails. *)
Theorem construct_graph_asserts_layer_params `{ModelOps, GraphModel}
    (self : Hyperparams) (training : bool) (seed : option Z) :
  ∀ r,
    r ∈ [ TensorflowAdversarialMultiTaskClassifier.construct_graph self
            training seed;
          TensorflowAdversarialMultiTaskRegressor.construct_graph self
            training seed ] →
    (raises_AssertionError r ↔ ¬ valid_layer_params self) ∧
    (returns r ↔ valid_layer_params self).
Proof.
  intros r Hr.
  assert ((valid_layer_params self → returns r) ∧
          (¬ valid_layer_params self → raises_AssertionError r)) as [Hv Hi].
  { repeat (apply elem_of_cons in Hr as [->|Hr]);
      [..|by apply elem_of_nil in Hr]; (split; [intros Hvalid|intros Hinv]).
    - apply adversarial_graph_returns_any. intros x t.
      destruct (classifier_stack_valid self t x Hvalid) as (? & _ & E).
      by eexists.
    - apply adversarial_graph_raises. intros x t. by apply stack_invalid.
    - apply adversarial_graph_returns_any. intros x t.
      destruct (regressor_stack_valid self t x Hvalid) as (? & _ & E).
      by eexists.
    - apply adversarial_graph_raises. intros x t. by apply stack_invalid. }
  destruct (decide (valid_layer_params self)) as [Hvalid|Hinv].
  - split; split; try done.
    intros Hraise. destruct (raises_not_returns r Hraise (Hv Hvalid)).
  - split; split; try done.
    intros Hret. destruct (raises_not_returns r (Hi Hinv) Hret).
Qed.

(** X3. The evaluation graph (training=False) of both adversarial classes
    has no loss and no adversarial part: its output is add_output_ops of
    the model's output on the placeholder.  The training graph returns
    the model's output on the placeholder as it is, and has a loss.  Both
    carry the seed and the label and weight placeholders. *)
Theorem adversarial_graph_modes `{ModelOps, GraphModel}
    (self : Hyperparams) (seed : option Z) (g : TensorflowGraph) :
  let eval_graph_of model x :=
    ∃ output,
      model x false = Ok output ∧
      g = {| graph_seed := seed;
             output := add_output_ops output;
             labels := add_label_placeholders;
             weights := add_example_weight_placeholders;
             loss := None |} in
  let train_graph_of model x :=
    model x true = Ok (output g) ∧
    graph_seed g = seed ∧
    labels g = add_label_placeholders ∧
    weights g = add_example_weight_placeholders ∧
    is_Some (loss g) in
  (TensorflowAdversarialMultiTaskClassifier.construct_graph self false seed
     = Ok g →
   eval_graph_of (TensorflowAdversarialMultiTaskClassifier.model self)
     (TensorflowAdversarialMultiTaskClassifier.get_placeholders self)) ∧
  (TensorflowAdversarialMultiTaskRegressor.construct_graph self false seed
     = Ok g →
   eval_graph_of (TensorflowAdversarialMultiTaskRegressor.model self)
     (TensorflowAdversarialMultiTaskRegressor.get_placeholders self)) ∧
  (TensorflowAdversarialMultiTaskClassifier.construct_graph self true seed
     = Ok g →
   train_graph_of (TensorflowAdversarialMultiTaskClassifier.model self)
     (TensorflowAdversarialMultiTaskClassifier.get_placeholders self)) ∧
  (TensorflowAdversarialMultiTaskRegressor.construct_graph self true seed
     = Ok g →
   train_graph_of (TensorflowAdversarialMultiTaskRegressor.model self)
     (TensorflowAdversarialMultiTaskRegressor.get_placeholders self)).
Proof.
  intros eval_graph_of train_graph_of.
  split; [|split; [|split]]; intros E;
    (by apply adversarial_graph_eval)
    || (by apply adversarial_graph_train_output).
Qed.

(** ** The exceptions and the checkpoints of fit *)

Section FitErrors.
Context `{Framework}.

Lemma raises_only_ret {A} (P : PyExc → Prop) (a : A) :
  raises_only P (mret a).
Proof. intros w e. done. Qed.

Lemma raises_only_call {A} (P : PyExc → Prop) (ev : Event)
    (value : World → A) :
  raises_only P (call ev value).
Proof. intros w e. done. Qed.

Lemma raises_only_lift {A} (P : PyExc → Prop) (r : Result A) :
  (∀ e, r = Raise e → P e) → raises_only P (lift r).
Proof. intros Hr w e. apply Hr. Qed.

Lemma raises_only_bind {A B} (P : PyExc → Prop) (m : Run A)
    (k : A → Run B) :
  raises_only P m → (∀ a, raises_only P (k a)) → raises_only P (m ≫= k).
Proof.
  intros Hm Hk w e. rewrite bind_result.
  destruct (result (m w)) as [a|e'] eqn:E.
  - apply Hk.
  - intros [= <-]. by eapply Hm.
Qed.

Lemma raises_only_for_each {A S} (P : PyExc → Prop) (xs : list A)
    (body : S → A → Run S) (s : S) :
  (∀ s x, raises_only P (body s x)) → raises_only P (for_each xs body s).
Proof.
  intros Hbody. revert s. induction xs as [|x xs IH]; intros s.
  - apply raises_only_ret.
  - rewrite for_each_cons. apply raises_only_bind; [apply Hbody|apply IH].
Qed.

Lemma py_mod_raises (a b : Z) (e : PyExc) :
  py_mod a b = Raise e → e = ZeroDivisionError.
Proof. unfold py_mod. case_decide; congruence. Qed.

Lemma float_div_int_raises (a : float) (n : Z) (e : PyExc) :
  float_div_int a n = Raise e → e = ZeroDivisionError.
Proof. unfold float_div_int. case_decide; congruence. Qed.

Section Loop.
Variables (batch : BatchParams) (dataset : Dataset).
Variable step : nat * (ndarray * ndarray * ndarray * ndarray) → Run float.
Hypothesis step_no_save : ∀ item, emits not_Save (step item).
Hypothesis step_raises :
  ∀ item, raises_only (eq ZeroDivisionError) (step item).

Lemma run_epoch_raises (acc : option Z) (epoch : Z) :
  raises_only (eq ZeroDivisionError)
    (run_epoch batch step dataset acc epoch).
Proof.
  unfold run_epoch.
  apply raises_only_bind; [apply raises_only_call|]. intros batches.
  apply raises_only_bind.
  { apply raises_only_for_each. intros vars item.
    apply raises_only_bind; [apply step_raises|].
    intros loss. apply raises_only_ret. }
  intros vars. apply raises_only_bind; [apply raises_only_call|]. intros _.
  apply raises_only_bind.
  { apply raises_only_lift. intros e He.
    by apply float_div_int_raises in He. }
  intros avg. apply raises_only_bind; [apply raises_only_call|]. intros _.
  apply raises_only_ret.
Qed.

Lemma fit_loop_nonpositive (nb_epoch max_checkpoints_to_keep : Z)
    (w : World) :
  nb_epoch ≤ 0 →
  unbound_epoch_outcome (verbose batch) nb_epoch max_checkpoints_to_keep
    (fit_loop batch step dataset nb_epoch max_checkpoints_to_keep w).
Proof.
  intros Hn. unfold unbound_epoch_outcome, fit_loop, saver_save, call_.
  rewrite seqZ_nil by done.
  change (for_each [] ?body ?acc) with (mret (M:=Run) acc).
  rewrite !call_bind_result, !call_bind_events.
  rewrite ret_bind_result, ret_bind_events.
  by rewrite lift_bind_result, lift_bind_events.
Qed.

Lemma fit_loop_raises_positive (nb_epoch max_checkpoints_to_keep : Z) :
  1 ≤ nb_epoch →
  raises_only (eq ZeroDivisionError)
    (fit_loop batch step dataset nb_epoch max_checkpoints_to_keep).
Proof.
  intros Hn w e. unfold fit_loop, saver_save, call_.
  rewrite !call_bind_result, bind_result.
  match goal with
  | |- context [for_each (M:=Run) ?l ?f ?acc ?w'] =>
      destruct (result (for_each l f acc w')) as [r|e'] eqn:Hloop
  end.
  - apply epochs_save in Hloop as [-> _]; [|done].
    rewrite last_seqZ by done.
    rewrite lift_bind_result. cbn [read_local].
    by rewrite call_bind_result.
  - intros [= <-]. revert Hloop. apply raises_only_for_each.
    intros acc epoch. apply run_epoch_raises.
Qed.

(** Every exception of fit, with the number of epochs it comes with. *)
Lemma fit_loop_exceptions (nb_epoch max_checkpoints_to_keep : Z)
    (w : World) (e : PyExc) :
  result (fit_loop batch step dataset nb_epoch max_checkpoints_to_keep w)
    = Raise e →
  (e = UnboundLocalError "epoch" ∧ nb_epoch ≤ 0) ∨
  (e = ZeroDivisionError ∧ 1 ≤ nb_epoch).
Proof.
  intros He. destruct (decide (nb_epoch ≤ 0)) as [Hn|Hn].
  - left. split; [|done].
    destruct (fit_loop_nonpositive nb_epoch max_checkpoints_to_keep w Hn)
      as [Hres _].
    congruence.
  - right. split; [|lia]. symmetry.
    by eapply (fit_loop_raises_positive nb_epoch max_checkpoints_to_keep);
      [lia|].
Qed.

(** The checkpoints of an epoch: its own, saved once, unless the loop over
    the minibatches raised. *)
Lemma run_epoch_saves_prefix (acc : option Z) (epoch : Z) (w : World) :
  saves_of (events (run_epoch batch step dataset acc epoch w))
    `prefix_of` [epoch].
Proof.
  unfold run_epoch, saver_save, call_.
  rewrite call_bind_events.
  change (saves_of (IterBatches ?d ?b ?p :: ?evs)) with (saves_of evs).
  rewrite bind_events, saves_of_app.
  rewrite (saves_of_not_Save (events (for_each (M:=Run) _ _ _ _)))
    by (by apply batch_loop_emits).
  match goal with
  | |- context [result ?o] => destruct (result o) as [vars|e]
  end.
  - rewrite call_bind_events, lift_bind_events.
    match goal with
    | |- context [float_div_int ?a ?n] =>
        destruct (float_div_int a n) as [avg|e]
    end.
    + by rewrite call_bind_events.
    + done.
  - by exists [epoch].
Qed.

Lemma epochs_save_prefix (epochs : list Z) (acc : option Z) (w : World) :
  saves_of (events (for_each epochs (run_epoch batch step dataset) acc w))
    `prefix_of` epochs.
Proof.
  revert acc w. induction epochs as [|epoch epochs IH]; intros acc w.
  - done.
  - rewrite for_each_cons, bind_events, saves_of_app.
    destruct (result (run_epoch batch step dataset acc epoch w))
      as [r|e] eqn:Hr.
    + apply run_epoch_saves in Hr as [_ ->]; [|done].
      apply (prefix_app [epoch]), IH.
    + rewrite app_nil_r.
      etrans; [apply run_epoch_saves_prefix|]. by exists epochs.
Qed.

Lemma fit_loop_saves_prefix (nb_epoch max_checkpoints_to_keep : Z)
    (w : World) :
  saves_of
    (events (fit_loop batch step dataset nb_epoch max_checkpoints_to_keep w))
    `prefix_of` checkpoints_of_fit nb_epoch.
Proof.
  unfold fit_loop, saver_save, call_, checkpoints_of_fit.
  rewrite !call_bind_events, bind_events.
  change (saves_of (?a :: ?b :: ?c :: Save 0 :: ?evs))
    with (0 :: saves_of evs).
  apply (prefix_cons 0). rewrite saves_of_app.
  match goal with
  | |- context [for_each (M:=Run) ?l ?f ?acc ?w'] =>
      pose proof (epochs_save_prefix l acc w') as Hprefix;
      destruct (result (for_each l f acc w')) as [r|e] eqn:Hloop
  end.
  - apply epochs_save in Hloop as [-> ->]; [|done].
    apply prefix_app. rewrite lift_bind_events.
    destruct (decide (1 ≤ nb_epoch)) as [Hn|Hn].
    + rewrite last_seqZ by done. cbn [read_local].
      rewrite call_bind_events.
      replace (nb_epoch - 1 + 1) with nb_epoch by lia. done.
    + rewrite seqZ_nil by lia. by exists [nb_epoch].
  - rewrite app_nil_r. etrans; [apply Hprefix|]. by eexists.
Qed.
End Loop.
End FitErrors.

Section FitOfTheClasses.
Context `{!ModelOps, !GraphModel, Framework}.

Lemma classifier_step_raises (self : Hyperparams) (batch : BatchParams)
    (log_every_N_batches : Z)
    (item : nat * (ndarray * ndarray * ndarray * ndarray)) :
  raises_only (eq ZeroDivisionError)
    (TensorflowAdversarialMultiTaskClassifier.step self batch
       log_every_N_batches item).
Proof.
  destruct item as [ind [[[X_b y_b] w_b] ids_b]].
  unfold TensorflowAdversarialMultiTaskClassifier.step.
  apply raises_only_bind.
  { apply raises_only_lift. intros e He. by apply py_mod_raises in He. }
  intros r. apply raises_only_bind; [|intros _; apply raises_only_call].
  destruct (decide (r = 0)); [apply raises_only_call|apply raises_only_ret].
Qed.

Lemma regressor_step_raises
    (self : TensorflowMultiTaskFitTransformRegressor.Self)
    (log_every_N_batches : Z)
    (item : nat * (ndarray * ndarray * ndarray * ndarray)) :
  raises_only (eq ZeroDivisionError)
    (TensorflowMultiTaskFitTransformRegressor.step self log_every_N_batches
       item).
Proof.
  destruct item as [ind [[[X_b y_b] w_b] ids_b]].
  unfold TensorflowMultiTaskFitTransformRegressor.step.
  apply raises_only_bind.
  { apply raises_only_lift. intros e He. by apply py_mod_raises in He. }
  intros r. apply raises_only_bind.
  { destruct (decide (r = 0)); [apply raises_only_call|apply raises_only_ret]. }
  intros _. apply raises_only_bind; [|intros X'; apply raises_only_call].
  apply raises_only_for_each. intros X' t. apply raises_only_call.
Qed.

(** X4. A call of fit with nb_epoch <= 0, negative numbers included, on
    either class: range(nb_epoch) is empty, so the call saves the initial
    checkpoint and then raises UnboundLocalError for epoch, having run no
    training step. *)
Theorem fit_without_epochs_raises (self : Hyperparams) (batch : BatchParams)
    (self' : TensorflowMultiTaskFitTransformRegressor.Self)
    (dataset : Dataset)
    (nb_epoch max_checkpoints_to_keep log_every_N_batches : Z) (w : World) :
  nb_epoch ≤ 0 →
  unbound_epoch_outcome (verbose batch) nb_epoch max_checkpoints_to_keep
    (TensorflowAdversarialMultiTaskClassifier.fit self batch dataset nb_epoch
       max_checkpoints_to_keep log_every_N_batches w) ∧
  unbound_epoch_outcome
    (verbose (TensorflowMultiTaskFitTransformRegressor.batch self'))
    nb_epoch max_checkpoints_to_keep
    (TensorflowMultiTaskFitTransformRegressor.fit self' dataset nb_epoch
       max_checkpoints_to_keep log_every_N_batches w).
Proof. intros Hn. split; by apply fit_loop_nonpositive. Qed.

(** X6. The only exceptions fit itself raises, on either class, are
    UnboundLocalError for epoch, which it raises exactly when
    nb_epoch <= 0, and ZeroDivisionError, which it raises only when
    nb_epoch >= 1. *)
Theorem fit_exceptions (self : Hyperparams) (batch : BatchParams)
    (self' : TensorflowMultiTaskFitTransformRegressor.Self)
    (dataset : Dataset)
    (nb_epoch max_checkpoints_to_keep log_every_N_batches : Z) (w : World) :
  ∀ o,
    o ∈ [ TensorflowAdversarialMultiTaskClassifier.fit self batch dataset
            nb_epoch max_checkpoints_to_keep log_every_N_batches w;
          TensorflowMultiTaskFitTransformRegressor.fit self' dataset
            nb_epoch max_checkpoints_to_keep log_every_N_batches w ] →
    (∀ e, result o = Raise e →
          (e = UnboundLocalError "epoch" ∧ nb_epoch ≤ 0) ∨
          (e = ZeroDivisionError ∧ 1 ≤ nb_epoch)) ∧
    (result o = Raise (UnboundLocalError "epoch") ↔ nb_epoch ≤ 0).
Proof.
  intros o Ho.
  assert ((∀ e, result o = Raise e →
                (e = UnboundLocalError "epoch" ∧ nb_epoch ≤ 0) ∨
                (e = ZeroDivisionError ∧ 1 ≤ nb_epoch)) ∧
          (nb_epoch ≤ 0 → result o = Raise (UnboundLocalError "epoch")))
    as [Hall Hnonpos].
  { repeat (apply elem_of_cons in Ho as [->|Ho]);
      [..|by apply elem_of_nil in Ho]; split.
    - intros e. apply fit_loop_exceptions.
      + intros item. by apply classifier_step_emits.
      + intros item. apply classifier_step_raises.
    - intros Hn. by apply fit_loop_nonpositive.
    - intros e. apply fit_loop_exceptions.
      + intros item. by apply regressor_step_emits.
      + intros item. apply regressor_step_raises.
    - intros Hn. by apply fit_loop_nonpositive. }
  split; [exact Hall|]. split; [|exact Hnonpos].
  intros He. destruct (Hall _ He) as [[_ Hn]|[[=] _]]. exact Hn.
Qed.

(** X7. Whatever happens in a call of fit, on either class, the global
    steps of the checkpoints it has saved are an initial part of
    0, 0, 1, ..., nb_epoch - 1, nb_epoch: fit never saves a checkpoint out
    of this order, and never skips one. *)
Theorem fit_checkpoints_in_order (self : Hyperparams) (batch : BatchParams)
    (self' : TensorflowMultiTaskFitTransformRegressor.Self)
    (dataset : Dataset)
    (nb_epoch max_checkpoints_to_keep log_every_N_batches : Z) (w : World) :
  saves_of
    (events (TensorflowAdversarialMultiTaskClassifier.fit self batch dataset
               nb_epoch max_checkpoints_to_keep log_every_N_batches w))
    `prefix_of` checkpoints_of_fit nb_epoch ∧
  saves_of
    (events (TensorflowMultiTaskFitTransformRegressor.fit self' dataset
               nb_epoch max_checkpoints_to_keep log_every_N_batches w))
    `prefix_of` checkpoints_of_fit nb_epoch.
Proof.
  split; apply fit_loop_saves_prefix.
  - intros item. by apply classifier_step_emits.
  - intros item. by apply regressor_step_emits.
Qed.
End FitOfTheClasses.

Section FitLogEveryZero.
Context `{!ModelOps, !GraphModel, Framework}.

Lemma fit_loop_first_step_raises (batch : BatchParams)
    (step : nat * (ndarray * ndarray * ndarray * ndarray) → Run float)
    (dataset : Dataset) (nb_epoch max_checkpoints_to_keep : Z) (w : World) :
  (∀ item w, result (step item w) = Raise ZeroDivisionError ∧
             events (step item w) = []) →
  1 ≤ nb_epoch →
  (∀ w, iterbatches dataset (batch_size batch) (pad_batches batch) w ≠ []) →
  zero_division_on_first_batch batch dataset nb_epoch max_checkpoints_to_keep
    (fit_loop batch step dataset nb_epoch max_checkpoints_to_keep w).
Proof.
  intros Hstep Hn Hbatches.
  assert (∀ acc epoch w,
    result (run_epoch batch step dataset acc epoch w)
      = Raise ZeroDivisionError ∧
    events (run_epoch batch step dataset acc epoch w)
      = [IterBatches dataset (batch_size batch) (pad_batches batch)])
    as Hepoch.
  { intros acc epoch w'. unfold run_epoch.
    rewrite call_bind_result, call_bind_events.
    specialize (Hbatches w').
    destruct (iterbatches dataset (batch_size batch) (pad_batches batch) w')
      as [|minibatch batches]; [done|].
    change (enumerate (minibatch :: batches))
      with ((0%nat, minibatch) :: zip (seq 1 (length batches)) batches).
    rewrite for_each_cons, !bind_result, !bind_events.
    destruct (Hstep (0%nat, minibatch)
                (after (IterBatches dataset (batch_size batch)
                          (pad_batches batch)) w')) as [Hres Hev].
    repeat first [rewrite bind_result | rewrite bind_events
                 | rewrite Hres | rewrite Hev].
    done. }
  unfold zero_division_on_first_batch, fit_loop, saver_save, call_.
  rewrite seqZ_cons, for_each_cons by lia.
  rewrite !call_bind_result, !call_bind_events.
  rewrite !bind_result, !bind_events.
  match goal with
  | |- context [run_epoch batch step dataset ?acc ?epoch ?w'] =>
      destruct (Hepoch acc epoch w') as [Hres Hev]
  end.
  rewrite !bind_result, Hres, Hev. done.
Qed.

(** X5. A call of fit with log_every_N_batches = 0 and nb_epoch >= 1, on
    either class, on a dataset that yields a minibatch: ind %
    log_every_N_batches raises ZeroDivisionError on the first minibatch,
    before it is transformed or fed to the session, and no checkpoint but
    the initial one is saved. *)
Theorem fit_log_every_zero_raises (self : Hyperparams) (batch : BatchParams)
    (self' : TensorflowMultiTaskFitTransformRegressor.Self)
    (dataset : Dataset) (nb_epoch max_checkpoints_to_keep : Z) (w : World) :
  1 ≤ nb_epoch →
  (∀ batch_size pad_batches w,
     iterbatches dataset batch_size pad_batches w ≠ []) →
  zero_division_on_first_batch batch dataset nb_epoch max_checkpoints_to_keep
    (TensorflowAdversarialMultiTaskClassifier.fit self batch dataset nb_epoch
       max_checkpoints_to_keep 0 w) ∧
  zero_division_on_first_batch
    (TensorflowMultiTaskFitTransformRegressor.batch self') dataset nb_epoch
    max_checkpoints_to_keep
    (TensorflowMultiTaskFitTransformRegressor.fit self' dataset nb_epoch
       max_checkpoints_to_keep 0 w).
Proof.
  intros Hn Hbatches. split; apply fit_loop_first_step_raises; auto.
  - intros [ind [[[X_b y_b] w_b] ids_b]] w'.
    unfold TensorflowAdversarialMultiTaskClassifier.step.
    by rewrite lift_bind_result, lift_bind_events.
  - intros [ind [[[X_b y_b] w_b] ids_b]] w'.
    unfold TensorflowMultiTaskFitTransformRegressor.step.
    by rewrite lift_bind_result, lift_bind_events.
Qed.
End FitLogEveryZero.

(** ** How many calls fit makes *)

Lemma count_events_app {E} (p : E → bool) (evs evs' : list E) :
  count_events p (evs ++ evs') = (count_events p evs + count_events p evs')%nat.
Proof. unfold count_events. by rewrite List.filter_app, length_app. Qed.

Lemma count_events_cons {E} (p : E → bool) (ev : E) (evs : list E) :
  count_events p (ev :: evs)
    = ((if p ev then 1 else 0) + count_events p evs)%nat.
Proof. unfold count_events. simpl. by destruct (p ev). Qed.

Lemma count_events_none {E} (p : E → bool) (evs : list E) :
  Forall (λ ev, p ev = false) evs → count_events p evs = 0%nat.
Proof.
  unfold count_events. induction 1 as [|ev evs Hev _ IH]; [done|].
  simpl. by rewrite Hev.
Qed.

Section FitCounts.
Context `{Framework}.
Variables (batch : BatchParams) (dataset : Dataset).
Variable step : nat * (ndarray * ndarray * ndarray * ndarray) → Run float.
Variables (p : Event → bool) (c : nat).
Variable batches : list (ndarray * ndarray * ndarray * ndarray).
Hypothesis p_bookkeeping : ∀ ev, is_bookkeeping ev = true → p ev = false.
Hypothesis step_count : ∀ item w, count_events p (events (step item w)) = c.
Hypothesis step_succeeds : ∀ item, succeeds (step item).
Hypothesis same_batches :
  ∀ w, iterbatches dataset (batch_size batch) (pad_batches batch) w = batches.
Hypothesis some_batch : batches ≠ [].

Local Abbreviation body := (λ vars item,
  loss ← step item;
  mret {| avg_loss := PrimFloat.add (avg_loss vars) loss;
          n_batches := n_batches vars + 1 |}).

Local Abbreviation per_epoch :=
  ((if p (IterBatches dataset (batch_size batch) (pad_batches batch))
    then 1 else 0) + c * length batches)%nat.

Lemma count_quiet {A} (m : Run A) (w : World) :
  emits (λ ev, is_bookkeeping ev = true) m →
  count_events p (events (m w)) = 0%nat.
Proof.
  intros Hm. apply count_events_none.
  eapply Forall_impl; [apply Hm|]. intros ev. apply p_bookkeeping.
Qed.

Lemma count_batch_loop
    (items : list (nat * (ndarray * ndarray * ndarray * ndarray)))
    (vars : EpochVars) (w : World) :
  count_events p (events (for_each items body vars w))
    = (c * length items)%nat.
Proof.
  revert vars w. induction items as [|item items IH]; intros vars w.
  - simpl. unfold count_events. simpl. lia.
  - rewrite for_each_cons, !bind_events, !bind_result.
    destruct (step_succeeds item w) as [loss Hloss]. rewrite Hloss.
    cbn [events result mret Run_ret].
    rewrite app_nil_r, count_events_app, step_count, IH. simpl. lia.
Qed.

Lemma count_run_epoch (acc : option Z) (epoch : Z) (w : World) :
  count_events p (events (run_epoch batch step dataset acc epoch w))
    = per_epoch.
Proof.
  unfold run_epoch. rewrite call_bind_events, same_batches.
  rewrite count_events_cons, bind_events, count_events_app.
  rewrite count_batch_loop.
  unfold enumerate. rewrite length_zip, length_seq, Nat.min_id.
  match goal with
  | |- context [result ?o] => destruct (result o) as [vars|e]
  end.
  - rewrite count_quiet; [lia|].
    apply emits_bind; [by apply emits_call|]. intros _.
    apply emits_bind; [apply emits_lift|]. intros avg.
    apply emits_bind; [by apply emits_call|]. intros _. apply emits_ret.
  - change (count_events p []) with 0%nat. lia.
Qed.

Lemma run_epoch_returns (acc : option Z) (epoch : Z) (w : World) :
  ∃ r, result (run_epoch batch step dataset acc epoch w) = Ok r.
Proof.
  apply run_epoch_succeeds; [done|]. intros w'. by rewrite same_batches.
Qed.

Lemma count_epochs (epochs : list Z) (acc : option Z) (w : World) :
  count_events p
    (events (for_each epochs (run_epoch batch step dataset) acc w))
    = (length epochs * per_epoch)%nat.
Proof.
  revert acc w. induction epochs as [|epoch epochs IH]; intros acc w.
  - done.
  - rewrite for_each_cons, bind_events, count_events_app, count_run_epoch.
    destruct (run_epoch_returns acc epoch w) as [r ->].
    rewrite IH. simpl. lia.
Qed.

Lemma count_fit_loop (nb_epoch max_checkpoints_to_keep : Z) (w : World) :
  count_events p
    (events (fit_loop batch step dataset nb_epoch max_checkpoints_to_keep w))
    = (Z.to_nat nb_epoch * per_epoch)%nat.
Proof.
  unfold fit_loop, saver_save, call_.
  rewrite !call_bind_events, bind_events.
  rewrite !count_events_cons, count_events_app.
  rewrite count_epochs, length_seqZ.
  rewrite !p_bookkeeping by done.
  match goal with
  | |- context [result ?o] => destruct (result o) as [r|e]
  end.
  - rewrite count_quiet; [lia|].
    apply emits_bind; [apply emits_lift|]. intros epoch.
    apply emits_bind; [by apply emits_call|]. intros _. by apply emits_call.
  - change (count_events p []) with 0%nat. lia.
Qed.
End FitCounts.

Section StepCounts.
Context `{!ModelOps, !GraphModel, Framework}.
Variables (p : Event → bool) (transforms runs : bool).
Hypothesis p_Log : ∀ msg verbose, p (Log msg verbose) = false.
Hypothesis p_XTransform : ∀ t X, p (XTransform t X) = transforms.
Hypothesis p_SessRun : ∀ fetches feed_dict, p (SessRun fetches feed_dict) = runs.

Lemma count_transform_all (ts : list Transformer) (X : ndarray) (w : World) :
  count_events p (events (transform_all ts X w))
    = if transforms then length ts else 0%nat.
Proof.
  revert X w. induction ts as [|t ts IH]; intros X w.
  - by destruct transforms.
  - unfold transform_all. rewrite for_each_cons, call_bind_events.
    rewrite count_events_cons, p_XTransform.
    fold (transform_all ts (X_transform t X w) (after (XTransform t X) w)).
    rewrite IH. by destruct transforms.
Qed.

Lemma count_logged (r : Z) (ind : nat) (verbose : bool) (w : World) :
  count_events p
    (events ((if decide (r = 0) then call_ (Log (OnBatch ind) verbose)
              else mret ()) w)) = 0%nat.
Proof.
  destruct (decide (r = 0)); [|done].
  unfold call_, call. cbn [events]. by rewrite count_events_cons, p_Log.
Qed.

Lemma logged_returns (r : Z) (ind : nat) (verbose : bool) (w : World) :
  result ((if decide (r = 0) then call_ (Log (OnBatch ind) verbose)
           else mret ()) w) = Ok ().
Proof. by destruct (decide (r = 0)). Qed.

Lemma classifier_step_count (self : Hyperparams) (batch : BatchParams)
    (log_every_N_batches : Z)
    (item : nat * (ndarray * ndarray * ndarray * ndarray)) (w : World) :
  log_every_N_batches ≠ 0 →
  count_events p
    (events (TensorflowAdversarialMultiTaskClassifier.step self batch
               log_every_N_batches item w))
    = if runs then 1%nat else 0%nat.
Proof.
  intros HN. destruct item as [ind [[[X_b y_b] w_b] ids_b]].
  unfold TensorflowAdversarialMultiTaskClassifier.step.
  rewrite lift_bind_events, py_mod_Ok by done.
  rewrite bind_events, count_events_app, count_logged, logged_returns.
  cbn [events call]. rewrite count_events_cons, p_SessRun.
  by destruct runs.
Qed.

Lemma regressor_step_count
    (self : TensorflowMultiTaskFitTransformRegressor.Self)
    (log_every_N_batches : Z)
    (item : nat * (ndarray * ndarray * ndarray * ndarray)) (w : World) :
  log_every_N_batches ≠ 0 →
  count_events p
    (events (TensorflowMultiTaskFitTransformRegressor.step self
               log_every_N_batches item w))
    = ((if transforms
        then length (TensorflowMultiTaskFitTransformRegressor.fit_transformers
                       self)
        else 0) + if runs then 1 else 0)%nat.
Proof.
  intros HN. destruct item as [ind [[[X_b y_b] w_b] ids_b]].
  unfold TensorflowMultiTaskFitTransformRegressor.step.
  rewrite lift_bind_events, py_mod_Ok by done.
  rewrite bind_events, count_events_app, count_logged, logged_returns.
  rewrite bind_events, count_events_app, count_transform_all.
  match goal with
  | |- context [result (transform_all ?ts ?X ?w')] =>
      destruct (transform_all_succeeds ts X w') as [X' ->]
  end.
  cbn [events call]. rewrite count_events_cons, p_SessRun.
  destruct transforms, runs; done.
Qed.
End StepCounts.

(** X8.  When log_every_N_batches is not 0 and the dataset yields the same
    non-empty list of minibatches each time it is iterated, fit iterates the
    dataset once per epoch and runs the session once per minibatch of each
    epoch; the adversarial classifier transforms nothing, the fit-transform
    regressor calls X_transform once per transformer for every session run.
    With nb_epoch <= 0 all the counts are 0. *)
Theorem fit_call_counts `{!ModelOps, !GraphModel, Framework}
    (self : Hyperparams) (batch : BatchParams)
    (self' : TensorflowMultiTaskFitTransformRegressor.Self)
    (dataset : Dataset)
    (batches : list (ndarray * ndarray * ndarray * ndarray))
    (nb_epoch max_checkpoints_to_keep log_every_N_batches : Z) (w : World) :
  log_every_N_batches ≠ 0 →
  batches ≠ [] →
  (∀ batch_size pad_batches w,
     iterbatches dataset batch_size pad_batches w = batches) →
  let epochs := Z.to_nat nb_epoch in
  let runs := (epochs * length batches)%nat in
  let transformers :=
    length (TensorflowMultiTaskFitTransformRegressor.fit_transformers self') in
  call_counts
    (events (TensorflowAdversarialMultiTaskClassifier.fit self batch dataset
               nb_epoch max_checkpoints_to_keep log_every_N_batches w))
    = (epochs, 0%nat, runs) ∧
  call_counts
    (events (TensorflowMultiTaskFitTransformRegressor.fit self' dataset
               nb_epoch max_checkpoints_to_keep log_every_N_batches w))
    = (epochs, (runs * transformers)%nat, runs).
Proof.
  intros HN Hsome Hsame epochs runs transformers.
  unfold call_counts, TensorflowAdversarialMultiTaskClassifier.fit,
    TensorflowMultiTaskFitTransformRegressor.fit.
  split.
  - rewrite (count_fit_loop _ _ _ is_IterBatches 0 batches),
      (count_fit_loop _ _ _ is_XTransform 0 batches),
      (count_fit_loop _ _ _ is_SessRun 1 batches);
      try done;
      try (by intros [] ?);
      try (intros; by apply classifier_step_succeeds).
    + cbn [is_IterBatches is_XTransform is_SessRun].
      subst epochs runs. f_equal; [f_equal|]; nia.
    + intros item w'.
      by rewrite (classifier_step_count is_SessRun true).
    + intros item w'.
      by rewrite (classifier_step_count is_XTransform false).
    + intros item w'.
      by rewrite (classifier_step_count is_IterBatches false).
  - rewrite (count_fit_loop _ _ _ is_IterBatches 0 batches),
      (count_fit_loop _ _ _ is_XTransform transformers batches),
      (count_fit_loop _ _ _ is_SessRun 1 batches);
      try done;
      try (by intros [] ?);
      try (intros; by apply regressor_step_succeeds).
    + cbn [is_IterBatches is_XTransform is_SessRun].
      subst epochs runs. f_equal; [f_equal|]; nia.
    + intros item w'.
      by rewrite (regressor_step_count is_SessRun false true).
    + intros item w'.
      rewrite (regressor_step_count is_XTransform true false) by done.
      subst transformers. lia.
    + intros item w'.
      by rewrite (regressor_step_count is_IterBatches false false).
Qed.

(** ** What the adversarial classifier's fit feeds *)

Lemma classifier_step_calls `{!ModelOps, !GraphModel, Framework}
    (self : Hyperparams) (batch : BatchParams) (dataset : Dataset)
    (log_every_N_batches : Z) (ind : nat)
    (minibatch : ndarray * ndarray * ndarray * ndarray) :
  drawn_from batch dataset minibatch →
  emits (classifier_fit_call self batch dataset)
    (TensorflowAdversarialMultiTaskClassifier.step self batch
       log_every_N_batches (ind, minibatch)).
Proof.
  intros Hdrawn. destruct minibatch as [[[X_b y_b] w_b] ids_b].
  unfold TensorflowAdversarialMultiTaskClassifier.step.
  apply emits_bind; [apply emits_lift|]. intros r.
  apply emits_bind.
  { destruct (decide (r = 0)); [by apply emits_call|apply emits_ret]. }
  intros _. apply emits_call. split; [done|].
  by exists X_b, y_b, w_b, ids_b.
Qed.

(** X9.  Every session run of the adversarial classifier's fit fetches the
    training op and the loss on the feed dictionary construct_feed_dict
    builds from a minibatch of the dataset as it was drawn, with its labels,
    weights and ids; fit never transforms an array and never restores a
    model.  This holds for every call, also one that raises. *)
Theorem classifier_fit_feeds_minibatches `{!ModelOps, !GraphModel, Framework}
    (self : Hyperparams) (batch : BatchParams) (dataset : Dataset)
    (nb_epoch max_checkpoints_to_keep log_every_N_batches : Z) :
  emits (classifier_fit_call self batch dataset)
    (TensorflowAdversarialMultiTaskClassifier.fit self batch dataset
       nb_epoch max_checkpoints_to_keep log_every_N_batches).
Proof.
  unfold emits. apply (fit_loop_leaves (Forall _)).
  - constructor.
  - intros evs evs' Hevs Hevs'. by apply Forall_app.
  - by repeat constructor.
  - by repeat constructor.
  - by repeat constructor.
  - by repeat constructor.
  - by repeat constructor.
  - intros ind minibatch w Hin. apply classifier_step_calls. by exists w.
Qed.

(** ** How predict_on_batch fails *)

Section RaisesAfter.
Context `{Framework}.

Lemma raises_after_lift {A} (e : PyExc) (w : World) :
  raises_after (lift (Raise e : Result A)) w e [] w.
Proof. done. Qed.

Lemma raises_after_bind_l {A B} (m : Run A) (k : A → Run B) (w w' : World)
    (e : PyExc) (evs : list Event) :
  raises_after m w e evs w' → raises_after (m ≫= k) w e evs w'.
Proof.
  intros (Hr & He & Hw). unfold raises_after.
  rewrite bind_result, bind_events, bind_world, Hr, He, Hw.
  by rewrite app_nil_r.
Qed.

Lemma raises_after_bind_r {A B} (m : Run A) (k : A → Run B)
    (w w1 w2 : World) (a : A) (e : PyExc) (evs1 evs2 : list Event) :
  runs_to m w a evs1 w1 →
  raises_after (k a) w1 e evs2 w2 →
  raises_after (m ≫= k) w e (evs1 ++ evs2) w2.
Proof.
  intros (Hr1 & He1 & Hw1) (Hr2 & He2 & Hw2). unfold raises_after.
  rewrite bind_result, bind_events, bind_world, Hr1, He1, Hw1.
  by rewrite Hr2, He2, Hw2.
Qed.
End RaisesAfter.

Section PredictErrors.
Context `{!ModelOps, !GraphModel, Framework}.
Variable self : TensorflowMultiTaskFitTransformRegressor.Self.
Variable X : ndarray.

Lemma predict_unassigned (w : World) :
  TensorflowMultiTaskFitTransformRegressor.n_evals self = 0%nat →
  raises_after
    (TensorflowMultiTaskFitTransformRegressor.predict_on_batch self X) w
    (UnboundLocalError "X_t") [] w.
Proof.
  intros Hn. unfold TensorflowMultiTaskFitTransformRegressor.predict_on_batch.
  rewrite Hn.
  change (for_each (seq 0 0) ?body ?s) with (mret (M:=Run) s).
  eapply (raises_after_bind_r _ _ _ _ _ _ _ [] []); [apply runs_to_ret|].
  apply raises_after_bind_l, raises_after_lift.
Qed.

(** X10.  With n_evals = 0, predict_on_batch raises UnboundLocalError for
    X_t, the variable of the loop that makes the transformed copies, before
    it calls anything: no transformation, no restoring, no session run. *)
Theorem predict_without_evaluations_raises (w : World) :
  TensorflowMultiTaskFitTransformRegressor.n_evals self = 0%nat →
  raises_after
    (TensorflowMultiTaskFitTransformRegressor.predict_on_batch self X) w
    (UnboundLocalError "X_t") [] w.
Proof. apply predict_unassigned. Qed.

Lemma predict_padding (w : World) :
  (0 < TensorflowMultiTaskFitTransformRegressor.n_evals self)%nat →
  pad_batches (TensorflowMultiTaskFitTransformRegressor.batch self) = true →
  ∃ Xs evs w',
    transformed_copies
      (TensorflowMultiTaskFitTransformRegressor.fit_transformers self) X
      (TensorflowMultiTaskFitTransformRegressor.n_evals self) w evs Xs w' ∧
    raises_after
      (TensorflowMultiTaskFitTransformRegressor.predict_on_batch self X) w
      (NameError "pad_features") evs w'.
Proof.
  intros Hn Hpad.
  destruct (copies_loop self X
              (TensorflowMultiTaskFitTransformRegressor.n_evals self)
              0 [] None w) as (Xs & evs & w' & Hcopies & Hlen & Hloop).
  exists Xs, evs, w'. split; [exact Hcopies|].
  destruct (last Xs) as [X_last|] eqn:Hlast;
    [|apply last_None in Hlast; subst Xs; simpl in Hlen; lia].
  unfold TensorflowMultiTaskFitTransformRegressor.predict_on_batch.
  rewrite <-(app_nil_r evs).
  eapply raises_after_bind_r; [exact Hloop|].
  cbn [TensorflowMultiTaskFitTransformRegressor.X_t
       TensorflowMultiTaskFitTransformRegressor.X_evals].
  eapply (raises_after_bind_r _ _ _ _ _ _ _ [] []);
    [by apply runs_to_lift|].
  rewrite Hpad. apply raises_after_bind_l.
  destruct (TensorflowMultiTaskFitTransformRegressor.n_evals self) as [|n];
    [lia|].
  simpl seq. rewrite for_each_cons.
  apply raises_after_bind_l, raises_after_lift.
Qed.

(** X11.  With pad_batches set and n_evals >= 1, predict_on_batch makes the
    n_evals transformed copies of X and then raises NameError: the padding
    loop calls pad_features, a name the module does not define.  The model
    is not restored and the session is never run. *)
Theorem predict_with_padding_raises (w : World) :
  (0 < TensorflowMultiTaskFitTransformRegressor.n_evals self)%nat →
  pad_batches (TensorflowMultiTaskFitTransformRegressor.batch self) = true →
  ∃ Xs evs w',
    transformed_copies
      (TensorflowMultiTaskFitTransformRegressor.fit_transformers self) X
      (TensorflowMultiTaskFitTransformRegressor.n_evals self) w evs Xs w' ∧
    raises_after
      (TensorflowMultiTaskFitTransformRegressor.predict_on_batch self X) w
      (NameError "pad_features") evs w'.
Proof. apply predict_padding. Qed.

Lemma getitem_raises {A} (l : list A) (i : nat) (e : PyExc) :
  getitem l i = Raise e → e = IndexError.
Proof. unfold getitem. destruct (l !! i); congruence. Qed.

Lemma arranged_raises (n_tasks n_samples : nat) (batch_outputs : ndarray)
    (e : PyExc) :
  TensorflowMultiTaskFitTransformRegressor.arranged n_tasks X n_samples
    batch_outputs = Raise e →
  e ≠ NameError "pad_features".
Proof.
  unfold TensorflowMultiTaskFitTransformRegressor.arranged.
  repeat case_decide; congruence.
Qed.

Lemma predict_without_padding_raises :
  pad_batches (TensorflowMultiTaskFitTransformRegressor.batch self) = false →
  raises_only (λ e, e ≠ NameError "pad_features")
    (TensorflowMultiTaskFitTransformRegressor.predict_on_batch self X).
Proof.
  intros Hpad.
  unfold TensorflowMultiTaskFitTransformRegressor.predict_on_batch.
  rewrite Hpad.
  apply raises_only_bind.
  { apply raises_only_for_each. intros inputs i.
    apply raises_only_bind; [|intros X_t; apply raises_only_ret].
    apply raises_only_for_each. intros X' t. apply raises_only_call. }
  intros inputs. apply raises_only_bind.
  { apply raises_only_lift. intros e.
    destruct (TensorflowMultiTaskFitTransformRegressor.X_t inputs);
      simpl; congruence. }
  intros X_t. apply raises_only_bind; [apply raises_only_ret|].
  intros X_evals. apply raises_only_bind.
  { destruct (negb _); [apply raises_only_call|apply raises_only_ret]. }
  intros _. apply raises_only_bind.
  { apply raises_only_lift. intros e E. apply getitem_raises in E.
    congruence. }
  intros X_0. apply raises_only_bind; [|intros vars; apply raises_only_ret].
  apply raises_only_for_each. intros vars i.
  unfold TensorflowMultiTaskFitTransformRegressor.evaluate.
  apply raises_only_bind.
  { apply raises_only_lift. intros e E. apply getitem_raises in E.
    congruence. }
  intros X_i. apply raises_only_bind; [apply raises_only_call|].
  intros data. apply raises_only_bind.
  { apply raises_only_lift. intros e. apply arranged_raises. }
  intros [batch_outputs n_samples]. apply raises_only_ret.
Qed.
End PredictErrors.

(** ** TensorflowMultiTaskFitTransformRegressor.__init__ *)

Section Init.
Context `{!ModelOps, !GraphModel, Framework, !NumpyShapes}.

(** X12.  __init__ raises ValueError, without calling a transformer, when
    n_features is neither a list nor an int.  Otherwise it passes an array
    of ones of shape [batch_size] + n_features (or [batch_size, n_features])
    through the transformers in list order and hands the second dimension
    of the result to the base class as n_features, always with
    pad_batches=False; when the result has fewer than two dimensions it
    raises IndexError. *)
Theorem init_transforms_dummy_batch (n_tasks : nat) (n_features : NFeatures)
    (layer_sizes : list Z)
    (weight_init_stddevs bias_init_consts dropouts : list float)
    (batch_size : nat) (fit_transformers : list Transformer) (n_evals : nat)
    (verbose : bool) (w : World) :
  init_spec n_tasks n_features layer_sizes weight_init_stddevs
    bias_init_consts dropouts batch_size fit_transformers n_evals verbose w
    (TensorflowMultiTaskFitTransformRegressor.__init__ n_tasks n_features
       layer_sizes weight_init_stddevs bias_init_consts dropouts batch_size
       fit_transformers n_evals verbose w).
Proof.
  unfold init_spec, TensorflowMultiTaskFitTransformRegressor.__init__.
  destruct n_features as [dims|n|]; simpl dummy_shape.
  - rewrite lift_bind_result, lift_bind_events, lift_bind_world.
    cbn [TensorflowMultiTaskFitTransformRegressor.dummy_batch app].
    destruct (transform_all_in_order fit_transformers
                (np_ones_shape (batch_size :: dims)) w)
      as (X_b & Hres & Hord).
    exists (events (transform_all fit_transformers
                      (np_ones_shape (batch_size :: dims)) w)), X_b,
      (world (transform_all fit_transformers
                (np_ones_shape (batch_size :: dims)) w)).
    split; [exact Hord|].
    rewrite bind_result, bind_events, bind_world, Hres.
    rewrite lift_bind_result, lift_bind_events, lift_bind_world.
    unfold getitem. destruct (shape X_b !! 1%nat); simpl;
      by rewrite ?app_nil_r.
  - rewrite lift_bind_result, lift_bind_events, lift_bind_world.
    cbn [TensorflowMultiTaskFitTransformRegressor.dummy_batch].
    destruct (transform_all_in_order fit_transformers
                (np_ones_shape [batch_size; n]) w)
      as (X_b & Hres & Hord).
    exists (events (transform_all fit_transformers
                      (np_ones_shape [batch_size; n]) w)), X_b,
      (world (transform_all fit_transformers
                (np_ones_shape [batch_size; n]) w)).
    split; [exact Hord|].
    rewrite bind_result, bind_events, bind_world, Hres.
    rewrite lift_bind_result, lift_bind_events, lift_bind_world.
    unfold getitem. destruct (shape X_b !! 1%nat); simpl;
      by rewrite ?app_nil_r.
  - by rewrite lift_bind_result, lift_bind_events.
Qed.

Lemma init_never_pads (n_tasks : nat) (n_features : NFeatures)
    (layer_sizes : list Z)
    (weight_init_stddevs bias_init_consts dropouts : list float)
    (batch_size : nat) (fit_transformers : list Transformer) (n_evals : nat)
    (verbose : bool) (w : World)
    (init : TensorflowMultiTaskFitTransformRegressor.Initialized) :
  result (TensorflowMultiTaskFitTransformRegressor.__init__ n_tasks
            n_features layer_sizes weight_init_stddevs bias_init_consts
            dropouts batch_size fit_transformers n_evals verbose w)
    = Ok init →
  pad_batches (TensorflowMultiTaskFitTransformRegressor.init_batch init)
    = false.
Proof.
  unfold TensorflowMultiTaskFitTransformRegressor.__init__.
  intros E.
  apply bind_Ok_inv in E as (X_b & _ & E & _).
  apply bind_Ok_inv in E as (X_b' & _ & E & _).
  apply bind_Ok_inv in E as (n & _ & E & _).
  by injection E as <-.
Qed.

(** X13.  A model that __init__ has built never reaches the undefined
    pad_features: whatever predict_on_batch raises on it, restored or not,
    it is not NameError for that name, since __init__ always passes
    pad_batches=False. *)
Theorem initialized_model_never_pads (n_tasks : nat) (n_features : NFeatures)
    (layer_sizes : list Z)
    (weight_init_stddevs bias_init_consts dropouts : list float)
    (batch_size : nat) (fit_transformers : list Transformer) (n_evals : nat)
    (verbose : bool) (w : World)
    (init : TensorflowMultiTaskFitTransformRegressor.Initialized)
    (_restored_model : bool) (X : ndarray) (w' : World) :
  result (TensorflowMultiTaskFitTransformRegressor.__init__ n_tasks
            n_features layer_sizes weight_init_stddevs bias_init_consts
            dropouts batch_size fit_transformers n_evals verbose w)
    = Ok init →
  result (TensorflowMultiTaskFitTransformRegressor.predict_on_batch
            (initialized_model init _restored_model) X w')
    ≠ Raise (NameError "pad_features").
Proof.
  intros Hinit Hraise.
  apply init_never_pads in Hinit.
  by apply (predict_without_padding_raises
              (initialized_model init _restored_model) X Hinit
              w' (NameError "pad_features")).
Qed.
End Init.

(** ** The names the example script reads *)

Lemma reads_Ok (globals : gset string) (names : list string) :
  Forall (λ name, name ∈ globals ∪ builtins) names →
  for_each names (read_global globals) () = Ok ().
Proof.
  induction 1 as [|name names Hname _ IH]; [done|].
  simpl. unfold read_global at 1 2. by rewrite decide_True.
Qed.

Lemma exec_stmt_Ok (globals : gset string) (s : Stmt) :
  Forall (λ name, name ∈ globals ∪ builtins) (reads s) →
  exec_stmt globals s = Ok (globals ∪ list_to_set (binds s)).
Proof. intros Hreads. unfold exec_stmt. by rewrite reads_Ok. Qed.

Lemma run_script_cons_Ok (s : Stmt) (script : list Stmt)
    (globals : gset string) :
  Forall (λ name, name ∈ globals ∪ builtins) (reads s) →
  run_script (s :: script) globals
    = run_script script (globals ∪ list_to_set (binds s)).
Proof. intros Hreads. simpl. by rewrite exec_stmt_Ok. Qed.

Lemma run_script_cons_Raise (s : Stmt) (script : list Stmt)
    (globals : gset string) (name : string) :
  reads s = [name] → name ∉ globals ∪ builtins →
  run_script (s :: script) globals = inr (line s, NameError name).
Proof.
  intros Hreads Hname. simpl. unfold exec_stmt. rewrite Hreads. simpl.
  unfold read_global. by rewrite decide_False.
Qed.

(** X14.  From any module namespace, the example script runs into
    NameError at line 20 exactly when the namespace does not bind
    [datasets]: it is the only name the script reads that neither an
    earlier statement nor the builtins bind.  With [datasets] bound, every
    statement finds its names and the script leaves the namespace extended
    by the names it binds. *)
Theorem gdb7_script_only_unbound_name (globals : gset string) :
  run_script gdb7_tf_model globals =
    if decide ("datasets" ∈ globals)
    then inl (globals ∪ bound_names gdb7_tf_model)
    else inr (20%nat, NameError "datasets").
Proof.
  unfold gdb7_tf_model.
  do 12 (rewrite run_script_cons_Ok
           by (cbn [reads]; repeat constructor; set_solver)).
  destruct (decide ("datasets" ∈ globals)) as [Hin|Hnotin].
  - do 12 (rewrite run_script_cons_Ok
             by (cbn [reads]; repeat constructor;
                 cbn [binds list_to_set]; set_solver)).
    cbn [run_script]. f_equal. unfold bound_names.
    cbn [binds fmap list_fmap mjoin list_join app list_to_set].
    set_solver.
  - erewrite run_script_cons_Raise; [done|done|].
    cbn [binds list_to_set]. unfold builtins.
    rewrite !elem_of_union, !elem_of_singleton, elem_of_empty.
    intros H. decompose [or] H; done.
Qed.

(** ** The size of a feed dictionary *)

Lemma orig_dict_of_size `{Numpy} (labels : nat → ndarray)
    (w_b : option ndarray) (batch_size n : nat) (X_b : ndarray) :
  size (orig_dict_of labels n batch_size X_b w_b) = (1 + 2 * n)%nat.
Proof.
  induction n as [|n IH].
  - unfold orig_dict_of. simpl.
    by rewrite map_size_insert_None, map_size_empty by apply lookup_empty.
  - pose proof (orig_dict_of_entries labels w_b batch_size n X_b)
      as (_ & _ & Hdom).
    fold labels_key weights_key in Hdom.
    rewrite orig_dict_of_S, !map_size_insert_None, IH; [lia|..].
    + destruct (orig_dict_of labels n batch_size X_b w_b !! labels_key n)
        as [v|] eqn:E; [|done].
      destruct (Hdom (labels_key n)) as [Hkey|(task & Hlt & [Hkey|Hkey])];
        [by eexists|..].
      * by apply labels_key_ne_mol_features in Hkey.
      * apply labels_key_inj in Hkey. lia.
      * by apply labels_key_ne_weights_key in Hkey.
    + rewrite lookup_insert_ne by apply labels_key_ne_weights_key.
      destruct (orig_dict_of labels n batch_size X_b w_b !! weights_key n)
        as [v|] eqn:E; [|done].
      destruct (Hdom (weights_key n)) as [Hkey|(task & Hlt & [Hkey|Hkey])];
        [by eexists|..].
      * by apply weights_key_ne_mol_features in Hkey.
      * by apply symmetry, labels_key_ne_weights_key in Hkey.
      * apply weights_key_inj in Hkey. lia.
Qed.

(** X15.  The dictionary construct_feed_dict hands to get_feed_dict has
    1 + 2 * n_tasks entries, for the classifier and for the regressor,
    whether or not labels and weights are given: no key of one task
    overwrites the features or a key of another task. *)
Theorem feed_dict_size `{Numpy, !Feeds} (self : Hyperparams)
    (batch : BatchParams) (X_b : ndarray) (y_b w_b : option ndarray) :
  size (TensorflowMultiTaskClassifier.orig_dict self batch X_b y_b w_b)
    = (1 + 2 * n_tasks self)%nat ∧
  size (TensorflowMultiTaskRegressor.orig_dict self batch X_b y_b w_b)
    = (1 + 2 * n_tasks self)%nat.
Proof. split; apply orig_dict_of_size. Qed.

(** ** The indices predict_on_batch uses *)

Section PredictIndices.
Context `{!ModelOps, !GraphModel, Framework}.
Variable self : TensorflowMultiTaskFitTransformRegressor.Self.
Variable X : ndarray.

Lemma arranged_no_IndexError (n_tasks n_samples : nat)
    (batch_outputs : ndarray) (e : PyExc) :
  TensorflowMultiTaskFitTransformRegressor.arranged n_tasks X n_samples
    batch_outputs = Raise e →
  e ≠ IndexError.
Proof.
  unfold TensorflowMultiTaskFitTransformRegressor.arranged.
  repeat case_decide; congruence.
Qed.

Lemma evaluate_no_IndexError (X_evals : list ndarray) (i : nat)
    (vars : TensorflowMultiTaskFitTransformRegressor.EvalVars) :
  (i < length X_evals)%nat →
  raises_only (λ e, e ≠ IndexError)
    (TensorflowMultiTaskFitTransformRegressor.evaluate self X X_evals vars i).
Proof.
  intros Hi. unfold TensorflowMultiTaskFitTransformRegressor.evaluate.
  apply raises_only_bind.
  { apply raises_only_lift. intros e. unfold getitem.
    destruct (lookup_lt_is_Some_2 X_evals i Hi) as [X_i ->]. congruence. }
  intros X_i. apply raises_only_bind; [apply raises_only_call|].
  intros data. apply raises_only_bind.
  { apply raises_only_lift. intros e. apply arranged_no_IndexError. }
  intros [batch_outputs n_samples]. apply raises_only_ret.
Qed.

Lemma raises_only_for_each_in {A S} (P : PyExc → Prop) (xs : list A)
    (body : S → A → Run S) (s : S) :
  (∀ s x, x ∈ xs → raises_only P (body s x)) →
  raises_only P (for_each xs body s).
Proof.
  revert s. induction xs as [|x xs IH]; intros s Hbody.
  - apply raises_only_ret.
  - rewrite for_each_cons. apply raises_only_bind.
    + apply Hbody. left.
    + intros s' . apply IH. intros s'' x' Hx'. apply Hbody. by right.
Qed.

(** X16.  predict_on_batch never raises IndexError: X_evals[0] and
    X_evals[i] are read only after the first loop has appended
    n_evals >= 1 copies, and i stays below n_evals. *)
Theorem predict_indices_in_range :
  raises_only (λ e, e ≠ IndexError)
    (TensorflowMultiTaskFitTransformRegressor.predict_on_batch self X).
Proof.
  intros w e.
  destruct (decide (TensorflowMultiTaskFitTransformRegressor.n_evals self
                    = 0%nat)) as [Hzero|Hpos].
  { destruct (predict_unassigned self X w Hzero) as (-> & _). congruence. }
  destruct (pad_batches (TensorflowMultiTaskFitTransformRegressor.batch self))
    eqn:Hpad.
  { destruct (predict_padding self X w) as (Xs & evs & w' & _ & -> & _);
      [lia|done|congruence]. }
  destruct (copies_loop self X
              (TensorflowMultiTaskFitTransformRegressor.n_evals self)
              0 [] None w) as (Xs & evs & w' & _ & Hlen & Hres & _ & Hw).
  destruct Xs as [|X_0 Xs']; [simpl in Hlen; lia|].
  destruct (last (X_0 :: Xs')) as [X_last|] eqn:Hlast;
    [|by apply last_None in Hlast].
  unfold TensorflowMultiTaskFitTransformRegressor.predict_on_batch.
  rewrite bind_result, Hres, Hw.
  cbn [TensorflowMultiTaskFitTransformRegressor.X_t
       TensorflowMultiTaskFitTransformRegressor.X_evals app].
  rewrite lift_bind_result. cbn [read_local].
  rewrite Hpad, ret_bind_result.
  revert e. generalize w'. change (raises_only (λ e, e ≠ IndexError)
    (_ ← (if negb (TensorflowMultiTaskFitTransformRegressor._restored_model
                     self)
          then call_ Restore else mret ());
     X_0' ← lift (getitem (X_0 :: Xs') 0);
     vars ← for_each
       (seq 0 (TensorflowMultiTaskFitTransformRegressor.n_evals self))
       (TensorflowMultiTaskFitTransformRegressor.evaluate self X
          (X_0 :: Xs'))
       {| TensorflowMultiTaskFitTransformRegressor.outputs := [];
          TensorflowMultiTaskFitTransformRegressor.n_samples :=
            np_len X_0' |};
     mret (TensorflowMultiTaskFitTransformRegressor.averaged
             (TensorflowMultiTaskFitTransformRegressor.outputs vars)
             (np_len X_last)))).
  apply raises_only_bind.
  { destruct (negb _); [apply raises_only_call|apply raises_only_ret]. }
  intros _. apply raises_only_bind.
  { apply raises_only_lift. intros e.
    change (getitem (X_0 :: Xs') 0) with (Ok X_0). congruence. }
  intros X_0'. apply raises_only_bind; [|intros vars; apply raises_only_ret].
  apply raises_only_for_each_in. intros vars i Hi.
  apply evaluate_no_IndexError.
  apply elem_of_seq in Hi. rewrite Hlen. lia.
Qed.
End PredictIndices.

(** ** The average loss fit reports *)

Section Tracks.
Context `{Framework}.

Lemma world_after_app (evs evs' : list Event) (w : World) :
  world_after (evs ++ evs') w = world_after evs' (world_after evs w).
Proof. apply foldl_app. Qed.

Lemma tracks_ret {A} (a : A) : tracks (mret a).
Proof. done. Qed.

Lemma tracks_lift {A} (r : Result A) : tracks (lift r).
Proof. done. Qed.

Lemma tracks_call {A} (ev : Event) (value : World → A) :
  tracks (call ev value).
Proof. done. Qed.

Lemma tracks_bind {A B} (m : Run A) (k : A → Run B) :
  tracks m → (∀ a, tracks (k a)) → tracks (m ≫= k).
Proof.
  intros Hm Hk w. rewrite bind_world, bind_events.
  destruct (result (m w)) as [a|e].
  - by rewrite world_after_app, <-Hm, <-Hk.
  - by rewrite app_nil_r.
Qed.

Lemma tracks_for_each {A S} (xs : list A) (body : S → A → Run S) (s : S) :
  (∀ s x, tracks (body s x)) → tracks (for_each xs body s).
Proof.
  intros Hbody. revert s. induction xs as [|x xs IH]; intros s.
  - apply tracks_ret.
  - rewrite for_each_cons. apply tracks_bind; [apply Hbody|apply IH].
Qed.

Lemma tracks_transform_all (ts : list Transformer) (X : ndarray) :
  tracks (transform_all ts X).
Proof. apply tracks_for_each. intros X' t. apply tracks_call. Qed.

Lemma losses_of_app (evs evs' : list Event) (w : World) :
  losses_of (evs ++ evs') w
    = losses_of evs w ++ losses_of evs' (world_after evs w).
Proof.
  revert w. induction evs as [|ev evs IH]; intros w; [done|].
  simpl. by rewrite IH, app_assoc.
Qed.

Lemma losses_of_none (evs : list Event) (w : World) :
  Forall (λ ev, is_SessRun ev = false) evs → losses_of evs w = [].
Proof.
  intros Hevs. revert w.
  induction Hevs as [|ev evs Hev _ IH]; intros w; [done|].
  simpl. rewrite IH. by destruct ev.
Qed.
End Tracks.

Section LoggedAverages.
Context `{Framework}.
Variable iteration : Event.

Local Abbreviation quiet :=
  (λ ev : Event, ∀ epoch avg_loss verbose,
     ev ≠ Log (EndingEpoch epoch avg_loss) verbose).

Lemma logged_averages_quiet (w : World) (evs : list Event) :
  Forall quiet evs → logged_averages iteration w evs.
Proof.
  intros Hevs before epoch avg verbose rest ->.
  apply Forall_app in Hevs as [_ Hevs].
  apply Forall_cons in Hevs as [Hev _]. by destruct (Hev epoch avg verbose).
Qed.

Lemma logged_averages_app (w : World) (evs evs' : list Event) :
  logged_averages iteration w evs →
  logged_averages iteration (world_after evs w) evs' →
  logged_averages iteration w (evs ++ evs').
Proof.
  intros Hevs Hevs' before epoch avg verbose rest E.
  assert (∀ before',
    evs' = before' ++ Log (EndingEpoch epoch avg) verbose :: rest →
    ∃ pre calls,
      evs ++ before' = pre ++ iteration :: calls ++ [Save epoch] ∧
      Forall (λ ev, is_batch_call ev = true) calls ∧
      average_loss (losses_of calls (world_after (pre ++ [iteration]) w))
        = Ok avg) as Hlater.
  { intros before' E'.
    destruct (Hevs' before' epoch avg verbose rest E')
      as (pre & calls & -> & Hcalls & Havg).
    exists (evs ++ pre), calls. split; [by rewrite app_assoc|].
    split; [done|].
    by rewrite <-app_assoc, world_after_app. }
  apply List.app_eq_app in E as (mid & [[-> E]|[-> E]]).
  - destruct mid as [|ev mid]; simpl in E.
    + rewrite app_nil_r in *.
      destruct (Hlater []) as (pre & calls & Hbefore & Hrest); [done|].
      rewrite app_nil_r in Hbefore. by exists pre, calls.
    + injection E as <- ->. by eapply Hevs.
  - by apply Hlater.
Qed.

Lemma logged_averages_bind {A B} (m : Run A) (k : A → Run B) :
  tracks m →
  (∀ w, logged_averages iteration w (events (m w))) →
  (∀ a w, logged_averages iteration w (events (k a w))) →
  ∀ w, logged_averages iteration w (events ((m ≫= k) w)).
Proof.
  intros Htracks Hm Hk w. rewrite bind_events.
  apply logged_averages_app; [apply Hm|].
  destruct (result (m w)) as [a|e].
  - rewrite <-Htracks. apply Hk.
  - by apply logged_averages_quiet.
Qed.

Lemma logged_averages_for_each {A S} (xs : list A) (body : S → A → Run S) :
  (∀ s x, tracks (body s x)) →
  (∀ s x w, logged_averages iteration w (events (body s x w))) →
  ∀ s w, logged_averages iteration w (events (for_each xs body s w)).
Proof.
  intros Htracks Hbody. induction xs as [|x xs IH]; intros s w.
  - by apply logged_averages_quiet.
  - rewrite for_each_cons. by apply logged_averages_bind.
Qed.

(** A trace that ends with its only 'Ending epoch' line splits in one
    way. *)
Lemma split_at_ending_epoch (evs before rest : list Event)
    (epoch epoch' : Z) (avg avg' : float) (verbose verbose' : bool) :
  Forall quiet evs →
  evs ++ [Log (EndingEpoch epoch avg) verbose]
    = before ++ Log (EndingEpoch epoch' avg') verbose' :: rest →
  before = evs ∧ epoch' = epoch ∧ avg' = avg.
Proof.
  intros Hevs. revert before.
  induction Hevs as [|ev evs Hev _ IH]; intros before E.
  - destruct before as [|ev' before]; simpl in E.
    + by injection E as <- <- _.
    + injection E as _ E. by destruct before.
  - destruct before as [|ev' before]; simpl in E.
    + injection E as -> _. by destruct (Hev epoch' avg' verbose').
    + injection E as <- E. apply IH in E as (-> & -> & ->). done.
Qed.
End LoggedAverages.

Section EpochAverage.
Context `{Framework}.
Variables (batch : BatchParams) (dataset : Dataset).
Variable step : nat * (ndarray * ndarray * ndarray * ndarray) → Run float.
Hypothesis step_calls :
  ∀ item, emits (λ ev, is_batch_call ev = true) (step item).
Hypothesis step_tracks : ∀ item, tracks (step item).
Hypothesis step_loss : ∀ item w loss,
  result (step item w) = Ok loss → losses_of (events (step item w)) w = [loss].

Local Abbreviation body := (λ vars item,
  loss ← step item;
  mret {| avg_loss := PrimFloat.add (avg_loss vars) loss;
          n_batches := n_batches vars + 1 |}).

Local Abbreviation iteration :=
  (IterBatches dataset (batch_size batch) (pad_batches batch)).

Lemma batch_call_quiet (ev : Event) (epoch : Z) (avg : float)
    (verbose : bool) :
  is_batch_call ev = true → ev ≠ Log (EndingEpoch epoch avg) verbose.
Proof. by intros Hev ->. Qed.

Lemma batch_loop_calls
    (items : list (nat * (ndarray * ndarray * ndarray * ndarray)))
    (vars : EpochVars) :
  emits (λ ev, is_batch_call ev = true) (for_each items body vars).
Proof. by apply batch_loop_emits. Qed.

Lemma batch_loop_average
    (items : list (nat * (ndarray * ndarray * ndarray * ndarray)))
    (vars vars' : EpochVars) (w : World) :
  result (for_each items body vars w) = Ok vars' →
  let losses := losses_of (events (for_each items body vars w)) w in
  avg_loss vars' = foldl PrimFloat.add (avg_loss vars) losses ∧
  n_batches vars' = (n_batches vars + length losses)%nat.
Proof.
  revert vars w. induction items as [|item items IH]; intros vars w E.
  - injection E as <-. simpl. split; [done|lia].
  - rewrite for_each_cons in E |- *.
    apply bind_Ok_inv in E as (vars1 & Hbody & Hrest & ->).
    pose proof Hbody as Hbody'.
    apply bind_Ok_inv in Hbody' as (loss & Hloss & Hret & Hev).
    injection Hret as <-.
    assert (world (body vars item w)
            = world_after (events (step item w)) w) as Hw.
    { rewrite bind_world, Hloss. apply step_tracks. }
    assert (events (body vars item w) = events (step item w)) as Hev'.
    { rewrite Hev. apply app_nil_r. }
    rewrite Hw in Hrest |- *. rewrite Hev'.
    destruct (IH _ _ Hrest) as [Havg Hn].
    cbn zeta. rewrite losses_of_app, (step_loss _ _ _ Hloss).
    cbn [avg_loss n_batches] in Havg, Hn.
    split; [exact Havg|]. rewrite Hn. simpl. lia.
Qed.

Lemma run_epoch_logs_average (acc : option Z) (epoch : Z) (w : World) :
  logged_averages iteration w
    (events (run_epoch batch step dataset acc epoch w)).
Proof.
  unfold run_epoch. rewrite call_bind_events, bind_events.
  set (items := enumerate
         (iterbatches dataset (batch_size batch) (pad_batches batch) w)).
  set (vars0 := {| avg_loss := 0%float; n_batches := 0 |}).
  pose proof (batch_loop_calls items vars0 (after iteration w)) as Hcalls.
  assert (Forall (λ ev : Event, ∀ epoch avg_loss verbose,
                    ev ≠ Log (EndingEpoch epoch avg_loss) verbose)
            (events (for_each items body vars0 (after iteration w))))
    as Hquiet.
  { eapply Forall_impl; [exact Hcalls|]. intros ev Hev epoch' avg' verbose'.
    by apply batch_call_quiet. }
  destruct (result (for_each items body vars0 (after iteration w)))
    as [vars|e] eqn:E.
  - unfold saver_save, call_.
    rewrite call_bind_events, lift_bind_events.
    destruct (float_div_int (avg_loss vars) (Z.of_nat (n_batches vars)))
      as [avg|e] eqn:Ediv.
    + rewrite call_bind_events.
      cbn [events mret Run_ret].
      intros before epoch' avg' verbose' rest Esplit.
      replace (iteration
                 :: events (for_each items body vars0 (after iteration w))
                    ++ [Save epoch; Log (EndingEpoch epoch avg)
                                      (verbose batch)])
        with ((iteration
                 :: events (for_each items body vars0 (after iteration w))
                    ++ [Save epoch])
              ++ [Log (EndingEpoch epoch avg) (verbose batch)])
        in Esplit by (simpl; by rewrite <-app_assoc).
      apply split_at_ending_epoch in Esplit as (-> & -> & ->).
      * exists [], (events (for_each items body vars0 (after iteration w))).
        split; [done|]. split; [exact Hcalls|].
        destruct (batch_loop_average _ _ _ _ E) as [Havg Hn].
        subst vars0. cbn [avg_loss n_batches] in Havg, Hn.
        rewrite Nat.add_0_l in Hn.
        unfold average_loss. simpl app.
        change (world_after [iteration] w) with (after iteration w).
        rewrite Havg, Hn in Ediv. exact Ediv.
      * constructor; [done|]. apply Forall_app. split; [exact Hquiet|].
        by repeat constructor.
    + apply logged_averages_quiet.
      constructor; [done|]. apply Forall_app. split; [exact Hquiet|].
      by repeat constructor.
  - rewrite app_nil_r. apply logged_averages_quiet. by constructor.
Qed.

Lemma run_epoch_tracks (acc : option Z) (epoch : Z) :
  tracks (run_epoch batch step dataset acc epoch).
Proof.
  unfold run_epoch.
  apply tracks_bind; [apply tracks_call|]. intros batches.
  apply tracks_bind.
  { apply tracks_for_each. intros vars item.
    apply tracks_bind; [apply step_tracks|]. intros loss. apply tracks_ret. }
  intros vars. apply tracks_bind; [apply tracks_call|]. intros _.
  apply tracks_bind; [apply tracks_lift|]. intros avg.
  apply tracks_bind; [apply tracks_call|]. intros _. apply tracks_ret.
Qed.

Lemma fit_loop_logs_averages (nb_epoch max_checkpoints_to_keep : Z)
    (w : World) :
  logged_averages iteration w
    (events (fit_loop batch step dataset nb_epoch max_checkpoints_to_keep w)).
Proof.
  revert w. unfold fit_loop.
  apply logged_averages_bind; [apply tracks_call| |intros _].
  { intros w. apply logged_averages_quiet. by repeat constructor. }
  apply logged_averages_bind; [apply tracks_call| |intros _].
  { intros w. apply logged_averages_quiet. by repeat constructor. }
  apply logged_averages_bind; [apply tracks_call| |intros _].
  { intros w. apply logged_averages_quiet. by repeat constructor. }
  apply logged_averages_bind; [apply tracks_call| |intros _].
  { intros w. apply logged_averages_quiet. by repeat constructor. }
  apply logged_averages_bind.
  { apply tracks_for_each. intros acc epoch. apply run_epoch_tracks. }
  { apply logged_averages_for_each.
    - intros acc epoch. apply run_epoch_tracks.
    - intros acc epoch w. apply run_epoch_logs_average. }
  intros r. apply logged_averages_bind; [apply tracks_lift| |intros epoch].
  { intros w. by apply logged_averages_quiet. }
  apply logged_averages_bind; [apply tracks_call| |intros _].
  { intros w. apply logged_averages_quiet. by repeat constructor. }
  intros w. apply logged_averages_quiet. by repeat constructor.
Qed.
End EpochAverage.

Section StepLosses.
Context `{!ModelOps, !GraphModel, Framework}.

Lemma logged_tracks (r : Z) (ind : nat) (verbose : bool) :
  tracks (if decide (r = 0) then call_ (Log (OnBatch ind) verbose)
          else mret ()).
Proof. destruct (decide (r = 0)); [apply tracks_call|apply tracks_ret]. Qed.

Lemma logged_calls (r : Z) (ind : nat) (verbose : bool) :
  emits (λ ev, is_batch_call ev = true ∧ is_SessRun ev = false)
    (if decide (r = 0) then call_ (Log (OnBatch ind) verbose) else mret ()).
Proof. destruct (decide (r = 0)); [by apply emits_call|apply emits_ret]. Qed.

Lemma classifier_step_batch_calls (self : Hyperparams) (batch : BatchParams)
    (log_every_N_batches : Z)
    (item : nat * (ndarray * ndarray * ndarray * ndarray)) :
  emits (λ ev, is_batch_call ev = true)
    (TensorflowAdversarialMultiTaskClassifier.step self batch
       log_every_N_batches item).
Proof.
  destruct item as [ind [[[X_b y_b] w_b] ids_b]].
  unfold TensorflowAdversarialMultiTaskClassifier.step.
  apply emits_bind; [apply emits_lift|]. intros r.
  apply emits_bind; [|intros _; by apply emits_call].
  intros w. eapply Forall_impl; [apply logged_calls|]. by intros ev [].
Qed.

Lemma classifier_step_tracks (self : Hyperparams) (batch : BatchParams)
    (log_every_N_batches : Z)
    (item : nat * (ndarray * ndarray * ndarray * ndarray)) :
  tracks (TensorflowAdversarialMultiTaskClassifier.step self batch
            log_every_N_batches item).
Proof.
  destruct item as [ind [[[X_b y_b] w_b] ids_b]].
  unfold TensorflowAdversarialMultiTaskClassifier.step.
  apply tracks_bind; [apply tracks_lift|]. intros r.
  apply tracks_bind; [apply logged_tracks|]. intros _. apply tracks_call.
Qed.

Lemma classifier_step_loss (self : Hyperparams) (batch : BatchParams)
    (log_every_N_batches : Z)
    (item : nat * (ndarray * ndarray * ndarray * ndarray)) (w : World)
    (loss : float) :
  result (TensorflowAdversarialMultiTaskClassifier.step self batch
            log_every_N_batches item w) = Ok loss →
  losses_of
    (events (TensorflowAdversarialMultiTaskClassifier.step self batch
               log_every_N_batches item w)) w = [loss].
Proof.
  destruct item as [ind [[[X_b y_b] w_b] ids_b]].
  unfold TensorflowAdversarialMultiTaskClassifier.step.
  rewrite lift_bind_result, lift_bind_events.
  destruct (py_mod (Z.of_nat ind) log_every_N_batches) as [r|e]; [|done].
  rewrite bind_result, bind_events, logged_returns, losses_of_app.
  rewrite (logged_tracks r ind (verbose batch) w).
  rewrite (losses_of_none (events _)).
  - cbn [events result call losses_of app]. by intros [= <-].
  - eapply Forall_impl; [apply logged_calls|]. by intros ev [].
Qed.

Lemma regressor_step_batch_calls
    (self : TensorflowMultiTaskFitTransformRegressor.Self)
    (log_every_N_batches : Z)
    (item : nat * (ndarray * ndarray * ndarray * ndarray)) :
  emits (λ ev, is_batch_call ev = true)
    (TensorflowMultiTaskFitTransformRegressor.step self log_every_N_batches
       item).
Proof.
  destruct item as [ind [[[X_b y_b] w_b] ids_b]].
  unfold TensorflowMultiTaskFitTransformRegressor.step.
  apply emits_bind; [apply emits_lift|]. intros r.
  apply emits_bind.
  { intros w. eapply Forall_impl; [apply logged_calls|]. by intros ev []. }
  intros _. apply emits_bind; [by apply transform_all_emits|].
  intros X'. by apply emits_call.
Qed.

Lemma regressor_step_tracks
    (self : TensorflowMultiTaskFitTransformRegressor.Self)
    (log_every_N_batches : Z)
    (item : nat * (ndarray * ndarray * ndarray * ndarray)) :
  tracks (TensorflowMultiTaskFitTransformRegressor.step self
            log_every_N_batches item).
Proof.
  destruct item as [ind [[[X_b y_b] w_b] ids_b]].
  unfold TensorflowMultiTaskFitTransformRegressor.step.
  apply tracks_bind; [apply tracks_lift|]. intros r.
  apply tracks_bind; [apply logged_tracks|]. intros _.
  apply tracks_bind; [apply tracks_transform_all|]. intros X'.
  apply tracks_call.
Qed.

Lemma regressor_step_loss
    (self : TensorflowMultiTaskFitTransformRegressor.Self)
    (log_every_N_batches : Z)
    (item : nat * (ndarray * ndarray * ndarray * ndarray)) (w : World)
    (loss : float) :
  result (TensorflowMultiTaskFitTransformRegressor.step self
            log_every_N_batches item w) = Ok loss →
  losses_of
    (events (TensorflowMultiTaskFitTransformRegressor.step self
               log_every_N_batches item w)) w = [loss].
Proof.
  destruct item as [ind [[[X_b y_b] w_b] ids_b]].
  unfold TensorflowMultiTaskFitTransformRegressor.step.
  rewrite lift_bind_result, lift_bind_events.
  destruct (py_mod (Z.of_nat ind) log_every_N_batches) as [r|e]; [|done].
  rewrite bind_result, bind_events, logged_returns, losses_of_app.
  rewrite (logged_tracks r ind _ w).
  rewrite (losses_of_none (events _)).
  - rewrite bind_result, bind_events, losses_of_app.
    match goal with
    | |- context [result (transform_all ?ts ?X ?w')] =>
        destruct (transform_all_succeeds ts X w') as [X' ->];
        rewrite (tracks_transform_all ts X w');
        rewrite (losses_of_none (events (transform_all ts X w')))
    end.
    + cbn [events result call losses_of app]. by intros [= <-].
    + eapply Forall_impl; [by apply (transform_all_emits
                                       (λ ev, is_XTransform ev = true))|].
      by intros [].
  - eapply Forall_impl; [apply logged_calls|]. by intros ev [].
Qed.
End StepLosses.

(** X17.  Every 'Ending epoch' line fit logs, on either class, follows the
    checkpoint of its epoch and reports float(avg_loss) / n_batches for the
    losses the session runs fetched since the dataset was last iterated:
    their sum, accumulated from 0. in the order of the minibatches, divided
    by their number.  Between the iteration and the checkpoint only the
    calls of the loop over the minibatches occur. *)
Theorem fit_logs_average_loss `{!ModelOps, !GraphModel, Framework}
    (self : Hyperparams) (batch : BatchParams)
    (self' : TensorflowMultiTaskFitTransformRegressor.Self)
    (dataset : Dataset)
    (nb_epoch max_checkpoints_to_keep log_every_N_batches : Z) (w : World) :
  logged_averages
    (IterBatches dataset (batch_size batch) (pad_batches batch)) w
    (events (TensorflowAdversarialMultiTaskClassifier.fit self batch dataset
               nb_epoch max_checkpoints_to_keep log_every_N_batches w)) ∧
  logged_averages
    (IterBatches dataset
       (batch_size (TensorflowMultiTaskFitTransformRegressor.batch self'))
       (pad_batches (TensorflowMultiTaskFitTransformRegressor.batch self')))
    w
    (events (TensorflowMultiTaskFitTransformRegressor.fit self' dataset
               nb_epoch max_checkpoints_to_keep log_every_N_batches w)).
Proof.
  split.
  - apply fit_loop_logs_averages.
    + apply classifier_step_batch_calls.
    + apply classifier_step_tracks.
    + apply classifier_step_loss.
  - apply fit_loop_logs_averages.
    + apply regressor_step_batch_calls.
    + apply regressor_step_tracks.
    + apply regressor_step_loss.
Qed.

(** * Concrete runs

    The theorems above at the implementation [Toy], and the inputs at which
    a property fails. *)

Section ConcreteRuns.
Import Toy.

Lemma classifier_build_stack_witness :
  valid_layer_params two_layers ∧
  ∃ last,
    returned (TensorflowMultiTaskClassifier.build two_layers true)
      = Ok [External "logits_0" [last]].
Proof.
  assert (valid_layer_params two_layers) as Hvalid by (vm_compute; lia).
  split; [exact Hvalid|].
  destruct (classifier_build_stack two_layers true Hvalid)
    as (_ & _ & last & _ & E).
  exists last. exact E.
Defined.

Lemma regression_heads_reuse_last_layer_witness :
  valid_layer_params two_layers ∧
  ∃ args,
    arg_size args = 2 ∧
    arg_weight_init args = TruncatedNormal [2; 1] 0.02%float ∧
    arg_bias_init args = Constant 1%float [1] ∧
    returned (TensorflowMultiTaskRegressor.build two_layers true)
      = Ok [Squeeze (fully_connected args)] ∧
    ¬ size_agrees args.
Proof.
  assert (valid_layer_params two_layers) as Hvalid by (vm_compute; lia).
  split; [exact Hvalid|].
  destruct (regression_heads_reuse_last_layer two_layers
              (Placeholder [] [] "x") true) as (Hbuild & _ & Hreturns).
  destruct (Hreturns Hvalid) as [[output E] _].
  destruct (Hbuild output E) as (args & Hargs & -> & Hagree).
  exists args.
  destruct Hargs as (last & size & stddev & value & _ & Hs & Hw & Hb & ->).
  simpl in *. injection Hs as <-. injection Hw as <-. injection Hb as <-.
  repeat (split; [done|]).
  rewrite Hagree. done.
Defined.

(** When the last hidden layer has one unit, the size argument of the heads
    is the number of columns of their weights. *)
Lemma regression_head_size_agrees_for_one_unit :
  let mol_features :=
    Placeholder ["placeholders"] [None; Some 4] "mol_features" in
  (∃ args,
     head_args_spec narrow true mol_features args ∧
     returned (TensorflowMultiTaskRegressor.build narrow true)
       = Ok (replicate 2 (Squeeze (fully_connected args))) ∧
     size_agrees args) ∧
  ¬ (∃ args,
       head_args_spec narrow true mol_features args ∧
       returned (TensorflowMultiTaskRegressor.build narrow true)
         = Ok (replicate 2 (Squeeze (fully_connected args))) ∧
       ¬ size_agrees args).
Proof.
  assert (∀ args,
    head_args_spec narrow true
      (Placeholder ["placeholders"] [None; Some 4] "mol_features") args →
    size_agrees args) as Hagree.
  { intros args (last & size & stddev & value & _ & Hs & _ & _ & ->).
    simpl in Hs. injection Hs as <-. reflexivity. }
  split.
  - eexists. split; [|split].
    + eexists _, _, _, _. repeat split; reflexivity.
    + reflexivity.
    + reflexivity.
  - intros (args & Hargs & _ & Hdis). exact (Hdis (Hagree args Hargs)).
Defined.

Lemma adversarial_training_loss_witness :
  valid_layer_params two_layers ∧
  ∃ g output adv_output,
    TensorflowAdversarialMultiTaskRegressor.construct_graph two_layers true
      (Some 123) = Ok g ∧
    loss g =
      Some (TDivBy
              (TAdd (add_training_cost output add_label_placeholders
                       add_example_weight_placeholders)
                    (add_training_cost adv_output add_label_placeholders
                       add_example_weight_placeholders))
              2%float).
Proof.
  assert (valid_layer_params two_layers) as Hvalid by (vm_compute; lia).
  split; [exact Hvalid|].
  destruct (adversarial_training_loss two_layers (Some 123))
    as (_ & Hloss & Hreturns).
  destruct (Hreturns Hvalid) as [_ [g E]].
  destruct (Hloss g E) as (output & adv_output & _ & _ & Hg).
  exists g, output, adv_output. split; [exact E|exact Hg].
Defined.

Lemma fit_checkpoints_witness :
  saves_of
    (events (TensorflowMultiTaskFitTransformRegressor.fit fit_transform
               two_batches 3 5 50 0%nat))
  = [0; 0; 1; 2; 3].
Proof.
  destruct (fit_checkpoints two_layers batches_of_five fit_transform
              two_batches 3 5 50 0%nat ltac:(lia)) as [_ [Hsaves Hreturns]].
  destruct Hsaves as [Hsaves _].
  - apply Hreturns; [lia|]. intros w. vm_compute. discriminate.
  - rewrite Hsaves. reflexivity.
Defined.

(** On a dataset without minibatches, fit with nb_epoch = 1 saves at
    global_step 0 twice and raises: the final checkpoint at global_step 1 is
    never saved. *)
Lemma fit_on_empty_dataset_checkpoints :
  let o1 := TensorflowAdversarialMultiTaskClassifier.fit two_layers
              batches_of_five no_batches 1 5 50 0%nat in
  let o2 := TensorflowMultiTaskFitTransformRegressor.fit fit_transform
              no_batches 1 5 50 0%nat in
  1 ≤ 1 ∧
  result o1 = Raise ZeroDivisionError ∧ saves_of (events o1) = [0; 0] ∧
  result o2 = Raise ZeroDivisionError ∧ saves_of (events o2) = [0; 0] ∧
  checkpoints_of_fit 1 = [0; 0; 1] ∧
  saves_of (events o1) ≠ checkpoints_of_fit 1 ∧
  saves_of (events o2) ≠ checkpoints_of_fit 1.
Proof. vm_compute. repeat split; (lia || discriminate || reflexivity). Defined.

Lemma fit_without_minibatches_witness :
  result (TensorflowAdversarialMultiTaskClassifier.fit two_layers
            batches_of_five no_batches 2 5 50 0%nat)
  = Raise ZeroDivisionError.
Proof.
  destruct (fit_without_minibatches_raises_ZeroDivisionError two_layers
              batches_of_five fit_transform no_batches 2 5 50 0%nat)
    as [[Hresult _] _]; [lia|intros; reflexivity|].
  exact Hresult.
Defined.

Lemma fit_transform_regressor_witness :
  predict_spec fit_transform [5; 4]%nat 0%nat
    (TensorflowMultiTaskFitTransformRegressor.predict_on_batch fit_transform
       [5; 4]%nat 0%nat).
Proof.
  refine (proj2 (proj2 (fit_transform_regressor_transforms_on_the_fly
                          fit_transform two_batches 1 5 50 [5; 4]%nat 0%nat))
            _ _ _).
  - simpl. lia.
  - reflexivity.
  - intros feed_dict w. simpl.
    case_match; simpl; rewrite ?length_take; lia.
Defined.

Lemma graph_builders_assert_layer_params_witness :
  checked_n_layers two_layers = Ok 2%nat ∧
  returns (returned (TensorflowMultiTaskRegressor.build two_layers true)).
Proof.
  destruct (graph_builders_assert_layer_params two_layers
              (Placeholder [] [] "x") true) as [Hn Hbuilders].
  assert (valid_layer_params two_layers) as Hvalid by (vm_compute; lia).
  split; [exact (Hn Hvalid)|].
  apply (Hbuilders (returned (TensorflowMultiTaskRegressor.build two_layers
                                true))); [|exact Hvalid].
  apply list_elem_of_In. simpl. tauto.
Defined.

(** Lists of different lengths, and no layer at all. *)
Example unequal_lengths_raise :
  returned (TensorflowMultiTaskClassifier.build
              {| n_tasks := 1; n_features := 4; layer_sizes := [3; 2]%Z;
                 weight_init_stddevs := [0.02]%float;
                 bias_init_consts := [1; 1]%float;
                 dropouts := [0.5; 0.5]%float |} true)
  = Raise (AssertionError "All layer params must have same length.").
Proof. reflexivity. Qed.

Example no_layers_raise :
  returned (TensorflowMultiTaskClassifier.build
              {| n_tasks := 1; n_features := 4; layer_sizes := [];
                 weight_init_stddevs := []; bias_init_consts := [];
                 dropouts := [] |} true)
  = Raise (AssertionError "Must have some layers defined.").
Proof. reflexivity. Qed.

Example labels_key_12 : labels_key 12 = "labels_12".
Proof. reflexivity. Qed.

Example classifier_feed_without_weights :
  let d := TensorflowMultiTaskClassifier.orig_dict two_layers batches_of_five
             [5; 4]%nat (Some [5; 1]%nat) None in
  d !! "mol_features" = Some [5; 4]%nat ∧
  d !! "labels_0" = Some [5; 2]%nat ∧
  d !! "weights_0" = Some [5]%nat ∧
  d !! "labels_1" = None.
Proof. vm_compute. done. Qed.

(** With log_every_N_batches = 0 the first minibatch raises, before it is
    transformed or trained on. *)
Example fit_log_every_0_batches :
  let o := TensorflowMultiTaskFitTransformRegressor.fit fit_transform
             two_batches 1 5 0 0%nat in
  result o = Raise ZeroDivisionError ∧ saves_of (events o) = [0] ∧
  last (events o) = Some (IterBatches two_batches 5 false).
Proof. vm_compute. done. Qed.

Example predict_twice :
  let o := TensorflowMultiTaskFitTransformRegressor.predict_on_batch
             fit_transform [5; 4]%nat 0%nat in
  result o = Ok [5]%nat ∧
  take 5 (events o) =
    [XTransform 7%nat [5; 4]%nat; XTransform 8%nat [5; 4]%nat;
     XTransform 7%nat [5; 4]%nat; XTransform 8%nat [5; 4]%nat; Restore] ∧
  length (events o) = 7%nat.
Proof. vm_compute. done. Qed.

(** Without evaluations there is no transformed copy to take the length
    of. *)
Example predict_without_evaluations :
  result (TensorflowMultiTaskFitTransformRegressor.predict_on_batch
            {| TensorflowMultiTaskFitTransformRegressor.hyper := two_layers;
               TensorflowMultiTaskFitTransformRegressor.batch :=
                 batches_of_five;
               TensorflowMultiTaskFitTransformRegressor.fit_transformers :=
                 [7]%nat;
               TensorflowMultiTaskFitTransformRegressor.n_evals := 0;
               TensorflowMultiTaskFitTransformRegressor._restored_model :=
                 true |}
            [5; 4]%nat 0%nat)
  = Raise (UnboundLocalError "X_t").
Proof. reflexivity. Qed.

(** Further runs. *)

Lemma graph_builders_assertion_messages_witness :
  let unequal := {| n_tasks := 1; n_features := 4; layer_sizes := [3; 2]%Z;
                    weight_init_stddevs := [0.02]%float;
                    bias_init_consts := [1; 1]%float;
                    dropouts := [0.5; 0.5]%float |} in
  ¬ equal_lengths unequal ∧
  returned (TensorflowMultiTaskRegressor.build unequal true)
    = Raise (AssertionError "All layer params must have same length.").
Proof.
  intros unequal.
  assert (¬ equal_lengths unequal) as Hne
    by (intros [H _]; vm_compute in H; discriminate).
  split; [exact Hne|].
  refine (proj1 (graph_builders_assertion_messages unequal
                   (Placeholder [] [] "x") true _ _) Hne).
  apply list_elem_of_In. simpl. tauto.
Defined.

Lemma construct_graph_asserts_layer_params_witness :
  valid_layer_params two_layers ∧
  returns (TensorflowAdversarialMultiTaskClassifier.construct_graph
             two_layers true (Some 123)).
Proof.
  assert (valid_layer_params two_layers) as Hvalid by (vm_compute; lia).
  split; [exact Hvalid|].
  refine (proj2 (proj2 (construct_graph_asserts_layer_params two_layers true
                          (Some 123) _ _)) Hvalid).
  apply list_elem_of_In. simpl. tauto.
Defined.

Lemma adversarial_graph_modes_witness :
  ∃ g,
    TensorflowAdversarialMultiTaskRegressor.construct_graph two_layers false
      (Some 123) = Ok g ∧
    loss g = None ∧ graph_seed g = Some 123.
Proof.
  destruct (TensorflowAdversarialMultiTaskRegressor.construct_graph
              two_layers false (Some 123)) as [g|e] eqn:E;
    [|vm_compute in E; discriminate].
  exists g. split; [reflexivity|].
  destruct (adversarial_graph_modes two_layers (Some 123) g)
    as (_ & Heval & _).
  destruct (Heval E) as (output & _ & ->). split; reflexivity.
Defined.

Lemma fit_without_epochs_raises_witness :
  result (TensorflowAdversarialMultiTaskClassifier.fit two_layers
            batches_of_five two_batches (-3) 5 50 0%nat)
  = Raise (UnboundLocalError "epoch").
Proof.
  destruct (fit_without_epochs_raises two_layers batches_of_five
              fit_transform two_batches (-3) 5 50 0%nat)
    as [[Hresult _] _]; [lia|].
  exact Hresult.
Defined.

Lemma fit_log_every_zero_raises_witness :
  result (TensorflowMultiTaskFitTransformRegressor.fit fit_transform
            two_batches 2 5 0 0%nat)
  = Raise ZeroDivisionError.
Proof.
  destruct (fit_log_every_zero_raises two_layers batches_of_five
              fit_transform two_batches 2 5 0%nat)
    as [_ [Hresult _]]; [lia|intros; vm_compute; discriminate|].
  exact Hresult.
Defined.

Lemma fit_exceptions_witness :
  result (TensorflowMultiTaskFitTransformRegressor.fit fit_transform
            two_batches (-1) 5 50 0%nat)
  = Raise (UnboundLocalError "epoch").
Proof.
  refine (proj2 (proj2 (fit_exceptions two_layers batches_of_five
                          fit_transform two_batches (-1) 5 50 0%nat _ _))
            _).
  - apply list_elem_of_In. simpl. tauto.
  - lia.
Defined.

Lemma fit_call_counts_witness :
  call_counts
    (events (TensorflowMultiTaskFitTransformRegressor.fit fit_transform
               two_batches 3 5 50 0%nat))
  = (3, 12, 6)%nat.
Proof.
  destruct (@fit_call_counts ops graph_model numpy feeds objects framework
              two_layers batches_of_five fit_transform two_batches
              two_batches 3 5 50 0%nat)
    as [_ Hcounts]; [lia|discriminate|reflexivity|].
  exact Hcounts.
Defined.

Lemma predict_without_evaluations_raises_witness :
  let self :=
    {| TensorflowMultiTaskFitTransformRegressor.hyper := two_layers;
       TensorflowMultiTaskFitTransformRegressor.batch := batches_of_five;
       TensorflowMultiTaskFitTransformRegressor.fit_transformers := [7]%nat;
       TensorflowMultiTaskFitTransformRegressor.n_evals := 0;
       TensorflowMultiTaskFitTransformRegressor._restored_model := false |} in
  raises_after
    (TensorflowMultiTaskFitTransformRegressor.predict_on_batch self
       [5; 4]%nat)
    3%nat (UnboundLocalError "X_t") [] 3%nat.
Proof.
  intros self.
  apply (@predict_without_evaluations_raises numpy feeds objects framework
           self [5; 4]%nat 3%nat).
  reflexivity.
Defined.

Lemma predict_with_padding_raises_witness :
  let self :=
    {| TensorflowMultiTaskFitTransformRegressor.hyper := two_layers;
       TensorflowMultiTaskFitTransformRegressor.batch :=
         {| batch_size := 5; pad_batches := true; verbose := true |};
       TensorflowMultiTaskFitTransformRegressor.fit_transformers := [7]%nat;
       TensorflowMultiTaskFitTransformRegressor.n_evals := 2;
       TensorflowMultiTaskFitTransformRegressor._restored_model := false |} in
  result (TensorflowMultiTaskFitTransformRegressor.predict_on_batch self
            [5; 4]%nat 0%nat)
  = Raise (NameError "pad_features").
Proof.
  intros self.
  destruct (@predict_with_padding_raises numpy feeds objects framework
              self [5; 4]%nat 0%nat)
    as (Xs & evs & w' & _ & Hresult & _); [simpl; lia|reflexivity|].
  exact Hresult.
Defined.

Lemma initialized_model_never_pads_witness :
  let init :=
    {| TensorflowMultiTaskFitTransformRegressor.init_fit_transformers :=
         [7; 8]%nat;
       TensorflowMultiTaskFitTransformRegressor.init_n_evals := 2;
       TensorflowMultiTaskFitTransformRegressor.init_hyper := two_layers;
       TensorflowMultiTaskFitTransformRegressor.init_batch :=
         batches_of_five |} in
  result (TensorflowMultiTaskFitTransformRegressor.__init__ 1
            (NFeaturesInt 4) [3; 2]%Z [0.02; 0.02]%float [1; 1]%float
            [0.5; 0.5]%float 5 [7; 8]%nat 2 true 0%nat) = Ok init ∧
  result (TensorflowMultiTaskFitTransformRegressor.predict_on_batch
            (initialized_model init false) [5; 4]%nat 0%nat)
  ≠ Raise (NameError "pad_features").
Proof.
  intros init. split; [reflexivity|].
  apply (@initialized_model_never_pads numpy feeds objects framework
           numpy_shapes 1 (NFeaturesInt 4) [3; 2]%Z
           [0.02; 0.02]%float [1; 1]%float [0.5; 0.5]%float 5 [7; 8]%nat 2
           true 0%nat init false [5; 4]%nat 0%nat).
  reflexivity.
Defined.

Lemma fit_logs_average_loss_witness :
  let evs :=
    events (TensorflowMultiTaskFitTransformRegressor.fit fit_transform
              two_batches 1 5 50 0%nat) in
  let iteration := IterBatches two_batches 5 false in
  evs !! 13%nat = Some (Log (EndingEpoch 0 0.5%float) true) ∧
  ∃ pre calls,
    take 13 evs = pre ++ iteration :: calls ++ [Save 0] ∧
    average_loss (losses_of calls (world_after (pre ++ [iteration]) 0%nat))
      = Ok 0.5%float.
Proof.
  intros evs iteration. split; [vm_compute; reflexivity|].
  destruct (proj2 (fit_logs_average_loss two_layers batches_of_five
                     fit_transform two_batches 1 5 50 0%nat)
              (take 13 evs) 0 0.5%float true (drop 14 evs))
    as (pre & calls & Hbefore & _ & Havg); [vm_compute; reflexivity|].
  exists pre, calls. split; [exact Hbefore|exact Havg].
Defined.

End ConcreteRuns.
